(** * The dataset JNI bridge ([cpp/src/jni/dataset/jni_wrapper.cc])

    A shallow embedding of the native side of the Arrow dataset JNI bridge,
    and the properties of it that the design document states.

    Conventions.
    - [jint] and [jlong] are [Z]; the one implicit narrowing conversion of the
      source is written out ([jint_of_jlong]).
    - [arrow::Status] and [arrow::Result<T>] are the types [Status] and
      [Result]; a C++ function that can also throw, abort or run into
      undefined behaviour returns an [Outcome].
    - State the source mutates (the C++ heap, the JNI global references, the
      host objects behind a [jobject]) is passed explicitly.
    - A Java interface the bridge calls back into is a type class over the
      state of the Java object that implements it. *)

From stdpp Require Import gmap strings list fin_maps.
From Stdlib Require Import ZArith DecimalString.
From Stdlib.Strings Require Import Byte.

Open Scope string_scope.
Open Scope Z_scope.

(** ** Status, Result and the pending exception *)

Inductive StatusCode : Type :=
| Invalid
| NotImplemented
| IOError
| KeyError.

Record Error : Type := mkError { code : StatusCode; message : string }.

(** [arrow::Status]: [OK], or an error code with its message. *)
Inductive Status : Type :=
| OK
| Failed (e : Error).

Definition Status_Invalid (msg : string) : Status := Failed (mkError Invalid msg).

Definition ok (s : Status) : bool :=
  match s with OK => true | Failed _ => false end.

(** [arrow::Result<T>]: a value or a non-OK status. *)
Inductive Result (T : Type) : Type :=
| Value (v : T)
| Failure (e : Error).
Arguments Value {T} v.
Arguments Failure {T} e.

Definition status {T} (r : Result T) : Status :=
  match r with Value _ => OK | Failure e => Failed e end.

(** How a call of a C++ function of the bridge can end. *)
Inductive Outcome (A : Type) : Type :=
| Normal (a : A)            (* it returned [a] *)
| Thrown (what : string)    (* a [JniPendingException] left it *)
| Aborted (what : string)   (* the process died: [ValueOrDie] on an error *)
| Undefined.                (* no behaviour: a dangling or wild pointer was used *)
Arguments Normal {A} a.
Arguments Thrown {A} what.
Arguments Aborted {A} what.
Arguments Undefined {A}.

(** Code that runs in a world [W] and may end in any of these ways.  The world
    is returned in every case: what was done before a throw stays done. *)
Definition Jni (W A : Type) : Type := W -> Outcome A * W.

Definition ret {W A} (a : A) : Jni W A := fun w => (Normal a, w).

Definition bind {W A B} (m : Jni W A) (k : A -> Jni W B) : Jni W B :=
  fun w =>
    match m w with
    | (Normal a, w') => k a w'
    | (Thrown what, w') => (Thrown what, w')
    | (Aborted what, w') => (Aborted what, w')
    | (Undefined, w') => (Undefined, w')
    end.

Declare Scope jni_scope.
Delimit Scope jni_scope with jni.
Notation "x <- m ;; k" := (bind m (fun x => k))
  (at level 100, m at next level, right associativity) : jni_scope.
Notation "m ;;; k" := (bind m (fun _ => k))
  (at level 100, right associativity) : jni_scope.

Definition get {W} : Jni W W := fun w => (Normal w, w).
Definition put {W} (w : W) : Jni W unit := fun _ => (Normal tt, w).
Definition undefined {W A} : Jni W A := fun w => (Undefined, w).

(** [ThrowPendingException], [JniThrow]. *)
Definition ThrowPendingException {W A} (message : string) : Jni W A :=
  fun w => (Thrown message, w).

Definition JniThrow {W A} (message : string) : Jni W A :=
  ThrowPendingException message.

(** [JniGetOrThrow]: the value of an OK result; otherwise the status message
    is thrown. *)
Definition JniGetOrThrow {W T} (result : Result T) : Jni W T :=
  match result with
  | Value v => ret v
  | Failure e => ThrowPendingException (message e)
  end.

(** [JniAssertOkOrThrow]. *)
Definition JniAssertOkOrThrow {W} (status : Status) : Jni W unit :=
  match status with
  | OK => ret tt
  | Failed e => ThrowPendingException (message e)
  end.

(** What the Java caller of a native method sees: the returned value, and the
    [RuntimeException] raised in its thread, if any. *)
Record JavaReturn (A : Type) : Type :=
  mkJavaReturn { returned : A; raised : option string }.
Arguments mkJavaReturn {A} returned raised.
Arguments returned {A} _.
Arguments raised {A} _.

(** [JNI_METHOD_START ... JNI_METHOD_END(fallback_expr)]: a pending exception
    is caught, rethrown to Java as a [RuntimeException] with the same text,
    and the fallback is returned. *)
Definition JNI_METHOD {W A} (fallback_expr : A) (body : Jni W A)
  : W -> Outcome (JavaReturn A) * W :=
  fun w =>
    match body w with
    | (Normal a, w') => (Normal (mkJavaReturn a None), w')
    | (Thrown what, w') => (Normal (mkJavaReturn fallback_expr (Some what)), w')
    | (Aborted what, w') => (Aborted what, w')
    | (Undefined, w') => (Undefined, w')
    end.

(** ** Machine integers *)

(** The value of a 64-bit [jlong] converted to the 32-bit [jint]: the low 32
    bits, read as a signed number. *)
Definition jint_of_jlong (z : Z) : Z := (z + 2 ^ 31) mod 2 ^ 32 - 2 ^ 31.

(** [std::to_string] of an integer. *)
Definition to_string (z : Z) : string := NilZero.string_of_int (Z.to_int z).

Definition JNI_OK : Z := 0.
Definition JNI_ERR : Z := -1.
Definition JNI_EDETACHED : Z := -2.

(** ** [GetFileFormat] *)

Inductive FileFormat : Type :=
| ParquetFileFormat.

Definition GetFileFormat (file_format_id : Z) : Result FileFormat :=
  match file_format_id with
  | 0 => Value ParquetFileFormat
  | _ =>
      let error_message := "illegal file format id: " +:+ to_string file_format_id in
      Failure (mkError Invalid error_message)
  end.

(** ** The host side *)

(** A call made from native code on a host object. *)
Inductive JavaCall : Type :=
| call_reserve (size : Z)
| call_unreserve (size : Z)
| call_hasNext
| call_next.

(** The part of the Java world a callback touches: what [GetEnv] answers on
    the executing thread, the state of the host object the callback is bound
    to, the exception pending in the thread, and the calls made so far (the
    latest first). *)
Record JavaWorld (J : Type) : Type := mkJavaWorld {
  GetEnv : Z;
  host : J;
  pending : option string;
  calls : list JavaCall
}.
Arguments mkJavaWorld {J} GetEnv host pending calls.
Arguments GetEnv {J} _.
Arguments host {J} _.
Arguments pending {J} _.
Arguments calls {J} _.

(** [org.apache.arrow.dataset.jni.ReservationListener]: [reserve(long)] and
    [unreserve(long)] update the listener and may throw. *)
Class ReservationListener (J : Type) : Type := {
  reserve : J -> Z -> J * option string;
  unreserve : J -> Z -> J * option string
}.

(** [env->CallObjectMethod(listener, method, size)]: the Java method runs; an
    exception it throws stays pending in the thread. *)
Definition CallObjectMethod {J} (method : J -> Z -> J * option string)
    (call : JavaCall) (size : Z) (w : JavaWorld J) : JavaWorld J :=
  let '(j, thrown) := method (host w) size in
  {| GetEnv := GetEnv w;
     host := j;
     pending := match thrown with Some t => Some t | None => pending w end;
     calls := call :: calls w |}.

(** Modelled from the spec: [arrow::dataset::jni::CheckException] is declared
    in [jni_util.h] and defined outside this file.  The spec has a host-side
    error raised by the listener propagate as a failure: a pending Java
    exception is taken from the thread and turned into a non-OK status that
    carries its text. *)
Definition CheckException {J} (w : JavaWorld J) : Status * JavaWorld J :=
  match pending w with
  | Some thrown =>
      (Status_Invalid thrown,
       {| GetEnv := GetEnv w; host := host w; pending := None; calls := calls w |})
  | None => (OK, w)
  end.

Module ReserveFromJava.

Definition OnReservation {J} `{ReservationListener J} (size : Z)
    (w : JavaWorld J) : Status * JavaWorld J :=
  if negb (GetEnv w =? JNI_OK) then
    (Status_Invalid "JNIEnv was not attached to current thread", w)
  else
    let w1 := CallObjectMethod reserve (call_reserve size) size w in
    match CheckException w1 with
    | (Failed e, w2) => (Failed e, w2)
    | (OK, w2) => (OK, w2)
    end.

Definition OnRelease {J} `{ReservationListener J} (size : Z)
    (w : JavaWorld J) : Status * JavaWorld J :=
  if negb (GetEnv w =? JNI_OK) then
    (Status_Invalid "JNIEnv was not attached to current thread", w)
  else
    let w1 := CallObjectMethod unreserve (call_unreserve size) size w in
    match CheckException w1 with
    | (Failed e, w2) => (Failed e, w2)
    | (OK, w2) => (OK, w2)
    end.

End ReserveFromJava.

(** ** Schemas, arrays and record batches *)

Inductive DataType : Type :=
| boolean
| int64
| utf8.

Record Field : Type := mkField {
  field_name : string;
  field_type : DataType;
  nullable : bool
}.

Definition Schema : Type := list Field.

(** One slot of an array. *)
Inductive Datum : Type :=
| null
| of_bool (b : bool)
| of_int (z : Z)
| of_string (s : string).

(** [arrow::Array]: a window of [array_length] slots that starts
    [array_offset] slots into the underlying buffers. *)
Record Array : Type := mkArray {
  array_data : list Datum;
  array_offset : Z;
  array_length : Z
}.

(** The logical (sliced) view: the slots the array stands for. *)
Definition logical (a : Array) : list Datum :=
  take (Z.to_nat (array_length a)) (drop (Z.to_nat (array_offset a)) (array_data a)).

(** Modelled from the spec: [arrow::Concatenate] ([arrow/array/concatenate.h])
    is not part of this file.  The spec calls its use here a compaction copy:
    it materializes a new array with offset zero that contains only the
    logical elements of its inputs, in order.  Without an input there is
    nothing to build. *)
Definition Concatenate (arrays : list Array) : Result Array :=
  match arrays with
  | [] => Failure (mkError Invalid "Must pass at least one array")
  | _ =>
      Value {| array_data := concat (map logical arrays);
               array_offset := 0;
               array_length := foldr Z.add 0 (map array_length arrays) |}
  end.

(** [arrow::RecordBatch]. *)
Record RecordBatch : Type := mkRecordBatch {
  schema : Schema;
  num_rows : Z;
  columns : list Array
}.

(** [arrow::RecordBatch::Make(schema, num_rows, columns)]. *)
Definition RecordBatch_Make (schema : Schema) (num_rows : Z)
    (columns : list Array) : RecordBatch :=
  mkRecordBatch schema num_rows columns.

Definition num_columns (b : RecordBatch) : nat := length (columns b).

(** [arrow::dataset::TaggedRecordBatch]: a batch and the name of the fragment it
    came from; the end of the iteration is the pair of null pointers. *)
Record TaggedRecordBatch : Type := mkTagged {
  record_batch : option RecordBatch;
  fragment : option string
}.

(** ** Scanners *)

(** [arrow::dataset::ScanOptions], as far as the bridge reads or sets it.
    [pool] is the address of the memory pool; a batch size or a pool that was
    never set is [None] and stands for the default of the library. *)
Record ScanOptions : Type := mkScanOptions {
  dataset_schema : Schema;
  projected_schema : Schema;
  batch_size : option Z;
  pool : option Z
}.

Record Scanner : Type := mkScanner { options : ScanOptions }.

(** [arrow::dataset::TaggedRecordBatchIterator]: an iterator object, seen
    through its one operation.  [I] is the state of the object;
    [ScanBatches] starts the scan of a scanner and yields its iterator. *)
Class TaggedRecordBatchIterator (I : Type) : Type := {
  ScanBatches : Scanner -> Result I;
  batch_itr_Next : I -> Result TaggedRecordBatch * I
}.

Module DisposableScannerAdaptor.

Record t (I : Type) : Type := mk {
  scanner_ : Scanner;
  batch_itr_ : I
}.
Arguments mk {I} scanner_ batch_itr_.
Arguments scanner_ {I} _.
Arguments batch_itr_ {I} _.

Definition Create {I} `{TaggedRecordBatchIterator I} (scanner : Scanner)
  : Result (t I) :=
  match ScanBatches scanner with
  | Failure e => Failure e
  | Value batch_itr => Value (mk scanner batch_itr)
  end.

Definition NextBatch {I} `{TaggedRecordBatchIterator I} (self : t I)
  : Result (option RecordBatch) * t I :=
  let '(r, itr) := batch_itr_Next (batch_itr_ self) in
  let self' := mk (scanner_ self) itr in
  match r with
  | Failure e => (Failure e, self')
  | Value batch => (Value (record_batch batch), self')
  end.

Definition Next {I} `{TaggedRecordBatchIterator I} (self : t I)
  : Result (option RecordBatch) * t I :=
  match NextBatch self with
  | (Failure e, self') => (Failure e, self')
  | (Value batch, self') => (Value batch, self')
  end.

Definition GetScanner {I} (self : t I) : Scanner := scanner_ self.

End DisposableScannerAdaptor.

(** ** The array interchange structs *)

(** A [struct ArrowArray] in native memory.  Its layout is that of the C data
    interface and is not looked into here: [C] is what the struct holds, and
    [released] tells whether the struct is in the released state: its release
    callback has run, or what it held was moved out of it. *)
Record ArrowArray (C : Type) : Type := mkArrowArray {
  contents : C;
  released : bool
}.
Arguments mkArrowArray {C} contents released.
Arguments contents {C} _.
Arguments released {C} _.

(** The C data interface, as the bridge uses it: decoding a struct against a
    schema, and encoding a batch. *)
Class CDataInterface (C : Type) : Type := {
  ImportArray : Schema -> C -> Result RecordBatch;
  ExportArray : RecordBatch -> Result C
}.

(** Modelled from the spec: [ArrowArrayRelease] ([arrow/c/helpers.h]) is not
    part of this file.  The spec has it release the transient native
    resources of the struct at the address; a struct that is released already
    stays as it is. *)
Definition ArrowArrayRelease {C} (c_array : Z) (c_data : gmap Z (ArrowArray C))
  : gmap Z (ArrowArray C) :=
  match c_data !! c_array with
  | Some a => <[c_array := mkArrowArray (contents a) true]> c_data
  | None => c_data
  end.

(** Modelled from the spec: [arrow::dataset::jni::ImportRecordBatch]
    ([jni_util.h]) is not part of this file.  The spec has it import the
    struct at the given address against the schema, and has the exchange be a
    move: the importer takes ownership of what the struct holds.  What a move
    leaves behind is a struct in the released state, whether what was taken
    then decodes against the schema or not; a struct that was released before
    holds nothing to take, and its import fails.  The answer is the result of
    the import with the structs as the import leaves them; [None]: the
    address holds no struct. *)
Definition ImportRecordBatch {C} `{CDataInterface C} (schema : Schema)
    (struct_array : Z) (c_data : gmap Z (ArrowArray C))
  : option (Result RecordBatch * gmap Z (ArrowArray C)) :=
  match c_data !! struct_array with
  | Some a =>
      if released a then
        Some (Failure (mkError Invalid "Cannot import released ArrowArray"), c_data)
      else
        Some (ImportArray schema (contents a),
              <[struct_array := mkArrowArray (contents a) true]> c_data)
  | None => None
  end.

(** Modelled from the spec: [arrow::dataset::jni::ExportRecordBatch]
    ([jni_util.h]) is not part of this file.  The spec has it export the batch
    into the caller-provided struct in place. *)
Definition ExportRecordBatch {C} `{CDataInterface C} (batch : RecordBatch)
    (struct_array : Z) (c_data : gmap Z (ArrowArray C))
  : Status * gmap Z (ArrowArray C) :=
  match ExportArray batch with
  | Failure e => (Failed e, c_data)
  | Value c => (OK, <[struct_array := mkArrowArray c false]> c_data)
  end.

(** ** Scanning a Java iterator *)

(** [org.apache.arrow.dataset.jni.NativeRecordBatchIterator]: [hasNext()], and
    [next()], which hands over a byte array that holds the address of an
    [ArrowArray] the Java side has filled in native memory.  [H] is the state
    of the Java object.

    [hasNext] and [next] give the state the call leaves behind and what the
    JNI call hands back to native code; for [next] that is a reference to a
    byte array, or the null reference ([None]).  A Java method can also end
    by throwing: [hasNext_throws] and [next_throws] give the exception of the
    call on a state, if there is one.  What [CallBooleanMethod] hands back
    after an exception is not fixed by the JNI specification; it is the
    boolean of [hasNext] here. *)
Class NativeRecordBatchIterator (H C : Type) : Type := {
  hasNext : H -> H * bool;
  next : H -> gmap Z (ArrowArray C) -> H * gmap Z (ArrowArray C) * option (list byte);
  hasNext_throws : H -> option string;
  next_throws : H -> gmap Z (ArrowArray C) -> option string
}.

(** A call of the C data interface made from native code. *)
Inductive CDataCall : Type :=
| call_ImportRecordBatch (struct_array : Z)
| call_ArrowArrayRelease (c_array : Z).

(** The world of a scan over a Java iterator: the Java side, the interchange
    structs in native memory, by address, and the calls of the C data
    interface made so far (the latest first). *)
Record ScanWorld (H C : Type) : Type := {
  jvm : JavaWorld H;
  c_data : gmap Z (ArrowArray C);
  c_calls : list CDataCall
}.
Arguments Build_ScanWorld {H C} jvm c_data c_calls.
Arguments jvm {H C} _.
Arguments c_data {H C} _.
Arguments c_calls {H C} _.

(** The world before a scan: no call of the C data interface was made yet. *)
Definition mkScanWorld {H C} (jvm : JavaWorld H) (c_data : gmap Z (ArrowArray C))
  : ScanWorld H C :=
  {| jvm := jvm; c_data := c_data; c_calls := [] |}.

(** The number a sequence of bytes spells, lowest byte first. *)
Fixpoint little_endian (bs : list byte) : Z :=
  match bs with
  | [] => 0
  | b :: bs' => Z.of_N (Byte.to_N b) + 256 * little_endian bs'
  end.

Definition int64_of_bits (z : Z) : Z := (z + 2 ^ 63) mod 2 ^ 64 - 2 ^ 63.

(** [std::memcpy(&memory_address, byte_array, sizeof(int64_t))] on a
    little-endian machine.  Reading eight bytes from a shorter array has no
    defined result. *)
Definition memory_address_of (byte_array : list byte) : option Z :=
  if (length byte_array <? 8)%nat then None
  else Some (int64_of_bits (little_endian (take 8 byte_array))).

(** The exception pending in the thread after a call of a Java method: the
    one the method threw, or else the one that was pending before.  Native
    code has to look for it; nothing stops on its own. *)
Definition left_pending (thrown pending : option string) : option string :=
  match thrown with
  | Some t => Some t
  | None => pending
  end.

(** [env->CallBooleanMethod(iter, native_record_batch_iterator_hasNext)]. *)
Definition CallBooleanMethod_hasNext {H C} `{NativeRecordBatchIterator H C}
  : Jni (ScanWorld H C) bool :=
  fun w =>
    let '(h, b) := hasNext (host (jvm w)) in
    (Normal b,
     {| jvm := mkJavaWorld (GetEnv (jvm w)) h
                 (left_pending (hasNext_throws (host (jvm w))) (pending (jvm w)))
                 (call_hasNext :: calls (jvm w));
        c_data := c_data w;
        c_calls := c_calls w |}).

(** [env->CallObjectMethod(iter, native_record_batch_iterator_next)]: the
    reference to the byte array, which is null when the method threw. *)
Definition CallObjectMethod_next {H C} `{NativeRecordBatchIterator H C}
  : Jni (ScanWorld H C) (option (list byte)) :=
  fun w =>
    let '(h, c, bytes) := next (host (jvm w)) (c_data w) in
    let thrown := next_throws (host (jvm w)) (c_data w) in
    (Normal (match thrown with Some _ => None | None => bytes end),
     {| jvm := mkJavaWorld (GetEnv (jvm w)) h
                 (left_pending thrown (pending (jvm w)))
                 (call_next :: calls (jvm w));
        c_data := c;
        c_calls := c_calls w |}).

(** [env->GetByteArrayElements(bytes, 0)]: the bytes of the array.  The null
    reference has none to give. *)
Definition GetByteArrayElements {W} (bytes : option (list byte)) : Jni W (list byte) :=
  match bytes with
  | Some byte_array => ret byte_array
  | None => undefined
  end.

(** The call of [ImportRecordBatch] on the struct at an address, and the call
    of [ArrowArrayRelease] on it, in the world of the scan. *)
Definition ImportRecordBatch_call {H C} `{CDataInterface C} (schema : Schema)
    (memory_address : Z) : Jni (ScanWorld H C) (Result RecordBatch) :=
  fun w =>
    match ImportRecordBatch schema memory_address (c_data w) with
    | None => (Undefined, w)
    | Some (imported, c) =>
        (Normal imported,
         {| jvm := jvm w;
            c_data := c;
            c_calls := call_ImportRecordBatch memory_address :: c_calls w |})
    end.

Definition ArrowArrayRelease_call {H C} (c_array : Z) : Jni (ScanWorld H C) unit :=
  fun w =>
    (Normal tt,
     {| jvm := jvm w;
        c_data := ArrowArrayRelease c_array (c_data w);
        c_calls := call_ArrowArrayRelease c_array :: c_calls w |}).

(** The [Next] of the function iterator [itr] that [MakeJavaDatasetScanner]
    builds: one pull on the Java iterator.  An OK result without a batch is
    the end of the stream.  Neither call of a Java method is followed by a
    look at what it threw. *)
Definition MakeJavaDatasetScanner_itr_Next {H C} `{NativeRecordBatchIterator H C}
    `{CDataInterface C} (schema : Schema)
  : Jni (ScanWorld H C) (Result (option RecordBatch)) :=
  (w <- get ;;
   if negb (GetEnv (jvm w) =? JNI_OK) then
     ret (Failure (mkError Invalid "JNIEnv was not attached to current thread"))
   else
     more <- CallBooleanMethod_hasNext ;;
     if negb more then
       ret (Value None)
     else
       bytes <- CallObjectMethod_next ;;
       byte_array <- GetByteArrayElements bytes ;;
       match memory_address_of byte_array with
       | None => undefined
       | Some memory_address =>
           imported <- ImportRecordBatch_call schema memory_address ;;
           rb <- JniGetOrThrow imported ;;
           let c_array := memory_address in
           ArrowArrayRelease_call c_array ;;;
           ret (Value (Some rb))
       end)%jni.

Module SimpleIteratorFragment.

(** [State] of the generator: the batch the last [Finished] found.  The
    fragment it points to holds the iterator [itr_], whose [Next] is the
    parameter [itr_Next] below. *)
Record State : Type := mkState { cur_rb : option RecordBatch }.

Definition State_Next (state : State) : option RecordBatch := cur_rb state.

(** Modelled from the spec: [IsIterationEnd] ([arrow/util/iterator.h]) is not
    part of this file.  The spec has the end of the stream signalled by a pull
    that brings no batch: an OK result that holds the null batch.  A failed
    pull is not the end. *)
Definition IsIterationEnd (r : Result (option RecordBatch)) : bool :=
  match r with
  | Value None => true
  | _ => false
  end.

(** [Finished]: pulls the next batch.  [ValueOrDie] takes the value out of a
    result and ends the process when the result is an error. *)
Definition State_Finished {W}
    (itr_Next : Jni W (Result (option RecordBatch))) (state : State)
  : Jni W (bool * State) :=
  (next <- itr_Next ;;
   if IsIterationEnd next then
     ret (true, mkState None)
   else
     match next with
     | Value v => ret (false, mkState v)
     | Failure e => fun w => (Aborted (message e), w)
     end)%jni.

(** What a call of the generator delivers: a finished future with a batch,
    or the end marker of asynchronous generators. *)
Inductive Delivered : Type :=
| MakeFinished (batch : RecordBatch)
| AsyncGeneratorEnd.

(** [Generator::operator()].  The [while] loop is unrolled [fuel] times;
    [None] is the answer of a loop that needs more. *)
Fixpoint Generator_call {W} (fuel : nat)
    (itr_Next : Jni W (Result (option RecordBatch))) (state : State)
  : Jni W (option Delivered * State) :=
  match fuel with
  | O => ret (None, state)
  | S fuel' =>
      (r <- State_Finished itr_Next state ;;
       let '(finished, state') := r in
       if finished then
         ret (Some AsyncGeneratorEnd, state')
       else
         match State_Next state' with
         | Some next => ret (Some (MakeFinished next), state')
         | None => Generator_call fuel' itr_Next state'
         end)%jni
  end.

Definition type_name : string := "simple_iterator".

Definition ReadPhysicalSchemaImpl : Result Schema :=
  Failure (mkError NotImplemented "No physical schema is readable").

End SimpleIteratorFragment.

(** ** Memory pools *)

(** The listener of a listenable pool: the [ReserveFromJava] of this file,
    which holds a global reference to a Java listener, or a listener of
    another class. *)
Inductive Listener : Type :=
| a_ReserveFromJava (java_reservation_listener_ : Z)
| another_listener.

Definition GetJavaReservationListener (java_reservation_listener_ : Z) : Z :=
  java_reservation_listener_.

(** [arrow::dataset::jni::ReservationListenableMemoryPool], as this file uses
    it: an object on the C++ heap that gives out its listener. *)
Record ReservationListenableMemoryPool : Type := mkPool {
  get_listener : Listener
}.

(** The world of the pool functions.  [default_memory_pool_id] is the global
    of that name; [pools] are the listenable pools alive on the C++ heap, by
    address; [global_refs] are the live JNI global references with the Java
    object each one designates; [deleted_refs] lists the [DeleteGlobalRef]
    calls, the latest first; [GetJavaVM] is what [env->GetJavaVM] answers. *)
Record PoolWorld : Type := mkPoolWorld {
  default_memory_pool_id : Z;
  pools : gmap Z ReservationListenableMemoryPool;
  global_refs : gmap Z Z;
  deleted_refs : list Z;
  GetJavaVM : Z
}.

(** [env->NewGlobalRef(obj)]: a new global reference to the object. *)
Definition NewGlobalRef (obj : Z) : Jni PoolWorld Z :=
  fun w =>
    let ref := fresh (dom (global_refs w) ∪ {[0]}) in
    (Normal ref,
     mkPoolWorld (default_memory_pool_id w) (pools w)
       (<[ref := obj]> (global_refs w)) (deleted_refs w) (GetJavaVM w)).

(** [env->DeleteGlobalRef(ref)]. *)
Definition DeleteGlobalRef (ref : Z) : Jni PoolWorld unit :=
  fun w =>
    (Normal tt,
     mkPoolWorld (default_memory_pool_id w) (pools w)
       (delete ref (global_refs w)) (ref :: deleted_refs w) (GetJavaVM w)).

(** [new ReservationListenableMemoryPool(...)]: the object is placed at an
    address where no pool lives; which one is immaterial. *)
Definition new_ReservationListenableMemoryPool (listener : Listener)
  : Jni PoolWorld Z :=
  fun w =>
    let address := fresh (dom (pools w) ∪ {[0; default_memory_pool_id w]}) in
    (Normal address,
     mkPoolWorld (default_memory_pool_id w)
       (<[address := mkPool listener]> (pools w))
       (global_refs w) (deleted_refs w) (GetJavaVM w)).

(** [pool->get_listener()] through a pointer: the pool has to be alive. *)
Definition deref_get_listener (pool : Z) : Jni PoolWorld Listener :=
  fun w =>
    match pools w !! pool with
    | Some p => (Normal (get_listener p), w)
    | None => (Undefined, w)
    end.

(** [delete pool]: the pool has to be alive. *)
Definition delete_pool (pool : Z) : Jni PoolWorld unit :=
  fun w =>
    match pools w !! pool with
    | Some _ =>
        (Normal tt,
         mkPoolWorld (default_memory_pool_id w) (delete pool (pools w))
           (global_refs w) (deleted_refs w) (GetJavaVM w))
    | None => (Undefined, w)
    end.

Definition Java_org_apache_arrow_dataset_jni_NativeMemoryPool_getDefaultMemoryPool
  : PoolWorld -> Outcome (JavaReturn Z) * PoolWorld :=
  JNI_METHOD (-1)
    (w <- get ;; ret (default_memory_pool_id w))%jni.

Definition Java_org_apache_arrow_dataset_jni_NativeMemoryPool_createListenableMemoryPool
    (jlistener : Z) : PoolWorld -> Outcome (JavaReturn Z) * PoolWorld :=
  JNI_METHOD (-1)
    (jlistener_ref <- NewGlobalRef jlistener ;;
     w <- get ;;
     (if negb (GetJavaVM w =? JNI_OK)
      then JniThrow "Unable to get JavaVM instance"
      else ret tt) ;;;
     let listener := a_ReserveFromJava jlistener_ref in
     memory_pool <- new_ReservationListenableMemoryPool listener ;;
     ret memory_pool)%jni.

Definition Java_org_apache_arrow_dataset_jni_NativeMemoryPool_releaseMemoryPool
    (memory_pool_id : Z) : PoolWorld -> Outcome (JavaReturn unit) * PoolWorld :=
  JNI_METHOD tt
    (w <- get ;;
     if memory_pool_id =? default_memory_pool_id w then
       ret tt
     else
       let pool := memory_pool_id in
       if pool =? 0 then
         ret tt
       else
         listener <- deref_get_listener pool ;;
         match listener with
         | another_listener =>
             delete_pool pool ;;;
             ret tt
         | a_ReserveFromJava java_reservation_listener_ =>
             delete_pool pool ;;;
             DeleteGlobalRef (GetJavaReservationListener java_reservation_listener_)
         end)%jni.

(** ** Scanner builders *)

(** Modelled from the spec: [arrow::dataset::SchemaFromColumnNames] is not
    part of this file.  It selects the columns named: the fields of the schema
    with the given names, in the order of the names. *)
Definition SchemaFromColumnNames (input : Schema) (column_names : list string)
  : Schema :=
  omap (fun n => find (fun f => String.eqb (field_name f) n) input) column_names.

Definition has_field (s : Schema) (n : string) : bool :=
  existsb (fun f => String.eqb (field_name f) n) s.

(** Modelled from the spec: [arrow::dataset::ScannerBuilder] is not part of
    this file.  The spec derives a scanner from a dataset and the scan
    parameters: the target columns (optional), the batch size and the memory
    pool; with a column subset the scanner projects only those columns.
    [builder_columns] is [None] as long as [Project] was not called. *)
Record ScannerBuilder : Type := mkScannerBuilder {
  builder_schema : Schema;
  builder_columns : option (list string);
  builder_batch_size : option Z;
  builder_pool : option Z
}.

(** The setters of the builder.  [Project] refuses a column the schema does
    not have (an invalid projection), [BatchSize] a size that is not positive;
    apart from that each setter records its argument. *)
Definition ScannerBuilder_Pool (pool : Z) (b : ScannerBuilder)
  : Status * ScannerBuilder :=
  (OK, mkScannerBuilder (builder_schema b) (builder_columns b)
         (builder_batch_size b) (Some pool)).

Definition ScannerBuilder_Project (columns : list string) (b : ScannerBuilder)
  : Status * ScannerBuilder :=
  match find (fun n => negb (has_field (builder_schema b) n)) columns with
  | Some n => (Status_Invalid ("No match for field " +:+ n), b)
  | None =>
      (OK, mkScannerBuilder (builder_schema b) (Some columns)
             (builder_batch_size b) (builder_pool b))
  end.

Definition ScannerBuilder_BatchSize (batch_size : Z) (b : ScannerBuilder)
  : Status * ScannerBuilder :=
  if batch_size <=? 0 then
    (Status_Invalid ("BatchSize must be greater than 0, got " +:+ to_string batch_size), b)
  else
    (OK, mkScannerBuilder (builder_schema b) (builder_columns b)
           (Some batch_size) (builder_pool b)).

(** [Finish]: the scanner projects the columns that were set, and the whole
    schema of the dataset when none were. *)
Definition ScannerBuilder_Finish (b : ScannerBuilder) : Result Scanner :=
  Value (mkScanner
           (mkScanOptions (builder_schema b)
              (match builder_columns b with
               | None => builder_schema b
               | Some columns => SchemaFromColumnNames (builder_schema b) columns
               end)
              (builder_batch_size b) (builder_pool b))).

(** [arrow::dataset::Dataset], as far as the bridge needs it. *)
Record Dataset : Type := mkDataset { Dataset_schema : Schema }.

(** [dataset->NewScan()]: a builder over the schema of the dataset, with
    nothing set yet. *)
Definition Dataset_NewScan (d : Dataset) : Result ScannerBuilder :=
  Value (mkScannerBuilder (Dataset_schema d) None None None).

(** [arrow::dataset::DatasetFactory], as far as the bridge needs it. *)
Record DatasetFactory : Type := mkDatasetFactory {
  Inspect : Result Schema;
  Finish : Schema -> Result Dataset
}.

(** [MakeJavaDatasetScanner], apart from the iterator built first (see
    [MakeJavaDatasetScanner_itr_Next]): the scanner over the one fragment that
    wraps the iterator. *)
Definition MakeJavaDatasetScanner (schema : Schema) (default_memory_pool : Z)
  : Result Scanner :=
  let scanner_builder := mkScannerBuilder schema None None None in
  match ScannerBuilder_Pool default_memory_pool scanner_builder with
  | (Failed e, _) => Failure e
  | (OK, scanner_builder) => ScannerBuilder_Finish scanner_builder
  end.

(** ** Native references *)

(** What a handle can stand for. *)
Inductive NativeObject (I : Type) : Type :=
| a_DatasetFactory (d : DatasetFactory)
| a_Dataset (d : Dataset)
| a_DisposableScannerAdaptor (a : DisposableScannerAdaptor.t I)
| a_Buffer.
Arguments a_DatasetFactory {I} d.
Arguments a_Dataset {I} d.
Arguments a_DisposableScannerAdaptor {I} a.
Arguments a_Buffer {I}.

(** The world of the dataset functions: the objects behind the live handles,
    and the interchange structs in native memory, by address. *)
Record NativeWorld (I C : Type) : Type := mkNativeWorld {
  refs : gmap Z (NativeObject I);
  structs : gmap Z (ArrowArray C)
}.
Arguments mkNativeWorld {I C} refs structs.
Arguments refs {I C} _.
Arguments structs {I C} _.

(** Modelled from the spec: [CreateNativeRef], [RetrieveNativeInstance] and
    [ReleaseNativeRef] are declared in [jni_util.h] and defined outside this
    file.  The spec has [create] hand out a handle that is unique among the
    live ones, [retrieve] look the handle up without changing the table, and
    [release] drop it.  A handle that does not resolve yields no object; the
    callers in this file use what they get without a check. *)
Definition CreateNativeRef {I C} (t : NativeObject I) : Jni (NativeWorld I C) Z :=
  fun w =>
    let id := fresh (dom (refs w) ∪ {[0]}) in
    (Normal id, mkNativeWorld (<[id := t]> (refs w)) (structs w)).

Definition RetrieveNativeInstance {I C} (ref : Z)
  : Jni (NativeWorld I C) (option (NativeObject I)) :=
  fun w => (Normal (refs w !! ref), w).

Definition ReleaseNativeRef {I C} (ref : Z) : Jni (NativeWorld I C) unit :=
  fun w =>
    match refs w !! ref with
    | Some _ => (Normal tt, mkNativeWorld (delete ref (refs w)) (structs w))
    | None => (Undefined, w)
    end.

Definition as_Dataset {I C} (o : option (NativeObject I))
  : Jni (NativeWorld I C) Dataset :=
  match o with
  | Some (a_Dataset d) => ret d
  | _ => undefined
  end.

Definition as_DisposableScannerAdaptor {I C} (o : option (NativeObject I))
  : Jni (NativeWorld I C) (DisposableScannerAdaptor.t I) :=
  match o with
  | Some (a_DisposableScannerAdaptor a) => ret a
  | _ => undefined
  end.

(** The scanner that a builder over a schema finishes, with the given columns,
    batch size and pool. *)
Definition scanner_of (schema : Schema) (columns : option (list string))
    (batch_size pool : Z) : Scanner :=
  mkScanner
    (mkScanOptions schema
       (match columns with
        | None => schema
        | Some column_vector => SchemaFromColumnNames schema column_vector
        end)
       (Some batch_size) (Some pool)).

(** A step of a builder that throws when the status is not OK. *)
Definition builder_step {W} (r : Status * ScannerBuilder) : Jni W ScannerBuilder :=
  (JniAssertOkOrThrow (fst r) ;;; ret (snd r))%jni.

(** ** The scanner functions *)

(** [createScanner]; [columns] is [None] for the null array. *)
Definition Java_org_apache_arrow_dataset_jni_JniWrapper_createScanner {I C}
    `{TaggedRecordBatchIterator I}
    (dataset_id : Z) (columns : option (list string)) (batch_size : Z)
    (memory_pool_id : Z)
  : NativeWorld I C -> Outcome (JavaReturn Z) * NativeWorld I C :=
  JNI_METHOD (-1)
    (let pool := memory_pool_id in
     (if pool =? 0
      then JniThrow "Memory pool does not exist or has been closed"
      else ret tt) ;;;
     o <- RetrieveNativeInstance dataset_id ;;
     dataset <- as_Dataset o ;;
     scanner_builder <- JniGetOrThrow (Dataset_NewScan dataset) ;;
     scanner_builder <- builder_step (ScannerBuilder_Pool pool scanner_builder) ;;
     scanner_builder <-
       match columns with
       | Some column_vector =>
           builder_step (ScannerBuilder_Project column_vector scanner_builder)
       | None => ret scanner_builder
       end ;;
     scanner_builder <- builder_step (ScannerBuilder_BatchSize batch_size scanner_builder) ;;
     scanner <- JniGetOrThrow (ScannerBuilder_Finish scanner_builder) ;;
     scanner_adaptor <- JniGetOrThrow (DisposableScannerAdaptor.Create scanner) ;;
     id <- CreateNativeRef (a_DisposableScannerAdaptor scanner_adaptor) ;;
     ret id)%jni.

Definition Java_org_apache_arrow_dataset_jni_JniWrapper_closeScanner {I C}
    (scanner_id : Z)
  : NativeWorld I C -> Outcome (JavaReturn unit) * NativeWorld I C :=
  JNI_METHOD tt (ReleaseNativeRef scanner_id).

(** [getSchemaFromScanner], up to the serialization of the schema it found. *)
Definition Java_org_apache_arrow_dataset_jni_JniWrapper_getSchemaFromScanner {I C}
    (scanner_id : Z)
  : NativeWorld I C -> Outcome (JavaReturn (option Schema)) * NativeWorld I C :=
  JNI_METHOD None
    (o <- RetrieveNativeInstance scanner_id ;;
     scanner_adaptor <- as_DisposableScannerAdaptor o ;;
     let schema :=
       projected_schema (options (DisposableScannerAdaptor.GetScanner scanner_adaptor)) in
     ret (Some schema))%jni.

(** The compaction of an array: its logical slots, at offset 0. *)
Definition compacted (array : Array) : Array :=
  mkArray (logical array) 0 (array_length array).

(** What the loop of [nextRecordBatch] makes of one column. *)
Definition offset_zeroed (array : Array) : Array :=
  if array_offset array =? 0 then array else compacted array.

(** What the export asks of a column [out] made from the column [array] of
    the scanner. *)
Definition normalized (array out : Array) : Prop :=
  (array_offset array = 0 -> out = array) /\
  (array_offset array ≠ 0 ->
   array_offset out = 0 /\ array_length out = array_length array /\
   logical out = logical array).

(** The loop of [nextRecordBatch] over the columns: an array with an offset is
    replaced by its compaction, the others are taken as they are. *)
Fixpoint offset_zeroed_arrays {W} (columns : list Array) : Jni W (list Array) :=
  match columns with
  | [] => ret []
  | array :: rest =>
      if array_offset array =? 0 then
        (done <- offset_zeroed_arrays rest ;; ret (array :: done))%jni
      else
        (offset_zeroed <- JniGetOrThrow (Concatenate [array]) ;;
         done <- offset_zeroed_arrays rest ;;
         ret (offset_zeroed :: done))%jni
  end.

Definition offset_zeroed_batch {W} (record_batch : RecordBatch) : Jni W RecordBatch :=
  (arrays <- offset_zeroed_arrays (columns record_batch) ;;
   ret (RecordBatch_Make (schema record_batch) (num_rows record_batch) arrays))%jni.

(** The pull of [nextRecordBatch]: [scanner_adaptor->Next()] on the adaptor
    behind the handle, whose new state is kept. *)
Definition adaptor_Next {I C} `{TaggedRecordBatchIterator I} (scanner_id : Z)
  : Jni (NativeWorld I C) (Result (option RecordBatch)) :=
  (o <- RetrieveNativeInstance scanner_id ;;
   scanner_adaptor <- as_DisposableScannerAdaptor o ;;
   let '(r, scanner_adaptor') := DisposableScannerAdaptor.Next scanner_adaptor in
   w <- get ;;
   put (mkNativeWorld
          (<[scanner_id := a_DisposableScannerAdaptor scanner_adaptor']> (refs w))
          (structs w)) ;;;
   ret r)%jni.

Definition Java_org_apache_arrow_dataset_jni_JniWrapper_nextRecordBatch {I C}
    `{TaggedRecordBatchIterator I} `{CDataInterface C}
    (scanner_id : Z) (struct_array : Z)
  : NativeWorld I C -> Outcome (JavaReturn bool) * NativeWorld I C :=
  JNI_METHOD false
    (next <- adaptor_Next scanner_id ;;
     record_batch <- JniGetOrThrow next ;;
     match record_batch with
     | None => ret false
     | Some record_batch =>
         offset_zeroed_batch <- offset_zeroed_batch record_batch ;;
         w <- get ;;
         let '(exported, structs') :=
           ExportRecordBatch offset_zeroed_batch struct_array (structs w) in
         put (mkNativeWorld (refs w) structs') ;;;
         JniAssertOkOrThrow exported ;;;
         ret true
     end)%jni.

(** ** The file functions *)

(** [arrow::dataset::FileSystemDatasetWriteOptions], as the bridge fills it. *)
Record FileSystemDatasetWriteOptions : Type := mkWriteOptions {
  file_write_options : FileFormat;
  filesystem : string;
  base_dir : string;
  basename_template : string;
  partitioning : Schema;
  max_partitions : Z
}.

(** The collaborators of the file functions, which are not part of this file:
    the schema messages of the IPC format, and the file system layer with the
    dataset factory and the dataset writer built on it.  [F] is the state of
    the file systems; the writer pulls from the Java iterator behind the
    scanner it is given, so it runs in the world of such a scan as well. *)
Class FileCollaborators (F H C : Type) : Type := {
  FromSchemaByteArray : list byte -> Result Schema;
  ToSchemaByteArray : Schema -> Result (list byte);
  FileSystemDatasetFactory_Make :
    string -> Z -> Z -> FileFormat -> F -> Result DatasetFactory;
  FileSystemFromUri : string -> F -> Result (string * string);
  FileSystemDataset_Write :
    FileSystemDatasetWriteOptions -> Scanner -> ScanWorld H C * F ->
    Status * (ScanWorld H C * F)
}.

(** [makeFileSystemDatasetFactory]; [file_format_id] is a [jint]. *)
Definition Java_org_apache_arrow_dataset_file_JniWrapper_makeFileSystemDatasetFactory
    {F H C I} `{FileCollaborators F H C}
    (uri : string) (file_format_id : Z) (start_offset length : Z)
  : NativeWorld I C * F -> Outcome (JavaReturn Z) * (NativeWorld I C * F) :=
  JNI_METHOD (-1)
    (file_format <- JniGetOrThrow (GetFileFormat file_format_id) ;;
     w <- get ;;
     d <- JniGetOrThrow
            (FileSystemDatasetFactory_Make uri start_offset length file_format (snd w)) ;;
     fun w =>
       match CreateNativeRef (a_DatasetFactory d) (fst w) with
       | (o, n) => (o, (n, snd w))
       end)%jni.

(** [writeFromScannerToFile]; [file_format_id] is a [jlong] here, and
    [GetFileFormat] takes a [jint]: the argument is converted.  [get_java_vm]
    is what [env->GetJavaVM] answers, [default_memory_pool] the address of
    the default pool. *)
Definition Java_org_apache_arrow_dataset_file_JniWrapper_writeFromScannerToFile
    {F H C} `{FileCollaborators F H C}
    (get_java_vm : Z) (default_memory_pool : Z)
    (schema_bytes : list byte) (file_format_id : Z) (uri : string)
    (partition_columns : list string) (max_partitions : Z)
    (base_name_template : string)
  : ScanWorld H C * F -> Outcome (JavaReturn unit) * (ScanWorld H C * F) :=
  JNI_METHOD tt
    ((if negb (get_java_vm =? JNI_OK)
      then JniThrow "Unable to get JavaVM instance"
      else ret tt) ;;;
     schema <- JniGetOrThrow (FromSchemaByteArray schema_bytes) ;;
     scanner <- JniGetOrThrow (MakeJavaDatasetScanner schema default_memory_pool) ;;
     file_format <- JniGetOrThrow (GetFileFormat (jint_of_jlong file_format_id)) ;;
     w <- get ;;
     fs <- JniGetOrThrow (FileSystemFromUri uri (snd w)) ;;
     let '(filesystem, output_path) := fs in
     let partition_column_vector := partition_columns in
     let options :=
       {| file_write_options := file_format;
          filesystem := filesystem;
          base_dir := output_path;
          basename_template := base_name_template;
          partitioning := SchemaFromColumnNames schema partition_column_vector;
          max_partitions := max_partitions |} in
     let '(written, w') := FileSystemDataset_Write options scanner w in
     put w' ;;;
     JniAssertOkOrThrow written)%jni.

(** ** Repeated pulls *)

(** The answers of [n] calls of the generator in a row, each on a thread for
    which [GetEnv] answers [env]. *)
Fixpoint Generator_calls {H C} `{NativeRecordBatchIterator H C} `{CDataInterface C}
    (n : nat) (env : Z) (schema : Schema)
    (state : SimpleIteratorFragment.State) (w : ScanWorld H C)
  : list (Outcome (option SimpleIteratorFragment.Delivered)) :=
  match n with
  | O => []
  | S n' =>
      let w0 :=
        {| jvm := mkJavaWorld env (host (jvm w)) (pending (jvm w)) (calls (jvm w));
           c_data := c_data w;
           c_calls := c_calls w |} in
      match SimpleIteratorFragment.Generator_call 1
              (MakeJavaDatasetScanner_itr_Next schema) state w0 with
      | (Normal (d, state'), w') =>
          Normal d :: Generator_calls n' env schema state' w'
      | (Thrown what, _) => [Thrown what]
      | (Aborted what, _) => [Aborted what]
      | (Undefined, _) => [Undefined]
      end
  end.

(** The answers of [n] calls of [Next] on a scanner adaptor in a row. *)
Fixpoint Next_calls {I} `{TaggedRecordBatchIterator I}
    (n : nat) (self : DisposableScannerAdaptor.t I)
  : list (Result (option RecordBatch)) :=
  match n with
  | O => []
  | S n' =>
      let '(r, self') := DisposableScannerAdaptor.Next self in
      r :: Next_calls n' self'
  end.

(** The world after the [hasNext] call of a pull, and the world after its
    [next] call. *)
Definition after_hasNext {H C} `{NativeRecordBatchIterator H C}
    (w : ScanWorld H C) : ScanWorld H C :=
  {| jvm := mkJavaWorld (GetEnv (jvm w)) (fst (hasNext (host (jvm w))))
              (left_pending (hasNext_throws (host (jvm w))) (pending (jvm w)))
              (call_hasNext :: calls (jvm w));
     c_data := c_data w;
     c_calls := c_calls w |}.

Definition after_next {H C} `{NativeRecordBatchIterator H C}
    (w : ScanWorld H C) : ScanWorld H C :=
  let h1 := fst (hasNext (host (jvm w))) in
  {| jvm := mkJavaWorld (GetEnv (jvm w)) (fst (fst (next h1 (c_data w))))
              (left_pending (next_throws h1 (c_data w))
                 (left_pending (hasNext_throws (host (jvm w))) (pending (jvm w))))
              (call_next :: call_hasNext :: calls (jvm w));
     c_data := snd (fst (next h1 (c_data w)));
     c_calls := c_calls w |}.

(** The byte array the [next] call of a pull hands to native code: none when
    the method threw or gave a null reference. *)
Definition next_array {H C} `{NativeRecordBatchIterator H C}
    (w : ScanWorld H C) : option (list byte) :=
  let h1 := fst (hasNext (host (jvm w))) in
  match next_throws h1 (c_data w) with
  | Some _ => None
  | None => snd (next h1 (c_data w))
  end.

(** Its bytes; there are none without an array. *)
Definition next_bytes {H C} `{NativeRecordBatchIterator H C}
    (w : ScanWorld H C) : list byte :=
  default [] (next_array w).

(** A batch iterator is at its end: it answers with the end marker. *)
Definition at_end {I} `{TaggedRecordBatchIterator I} (itr : I) : Prop :=
  exists t, fst (batch_itr_Next itr) = Value t /\ record_batch t = None.

Abbreviation createListenableMemoryPool :=
  Java_org_apache_arrow_dataset_jni_NativeMemoryPool_createListenableMemoryPool
  (only parsing).
Abbreviation releaseMemoryPool :=
  Java_org_apache_arrow_dataset_jni_NativeMemoryPool_releaseMemoryPool
  (only parsing).

(** ** Concrete collaborators, for the examples *)

Module Examples.

(** A listener that accounts for the reserved bytes and refuses to go over
    a budget of 100 bytes. *)
#[global] Instance budget_listener : ReservationListener Z := {
  reserve := fun reserved size =>
    if 100 <? reserved + size then (reserved, Some "reservation over budget")
    else (reserved + size, None);
  unreserve := fun reserved size =>
    if reserved <? size then (reserved, Some "unreserve of bytes never reserved")
    else (reserved - size, None)
}.

(** An interchange struct that holds the row count and the columns; the
    import checks the number of columns against the schema. *)
#[global] Instance plain_interface : CDataInterface (Z * list Array) := {
  ImportArray := fun schema c =>
    if (length (snd c) =? length schema)%nat
    then Value (mkRecordBatch schema (fst c) (snd c))
    else Failure (mkError Invalid "ArrowArray struct has an unexpected number of children");
  ExportArray := fun batch => Value (num_rows batch, columns batch)
}.

(** A Java iterator that plays a script: the answers of the [hasNext] calls
    to come (and [false] after them), and the byte arrays of the [next]
    calls to come; a [next] with no array left throws.  The structs it points
    to are in native memory already. *)
Record scripted : Type := mkScripted {
  answers : list bool;
  arrays : list (list byte)
}.

#[global] Instance scripted_iterator
  : NativeRecordBatchIterator scripted (Z * list Array) := {
  hasNext := fun h =>
    match answers h with
    | [] => (h, false)
    | b :: rest => (mkScripted rest (arrays h), b)
    end;
  next := fun h c =>
    match arrays h with
    | [] => (h, c, None)
    | a :: rest => (mkScripted (answers h) rest, c, Some a)
    end;
  hasNext_throws := fun h => None;
  next_throws := fun h c =>
    match arrays h with
    | [] => Some "java.util.NoSuchElementException"
    | _ => None
    end
}.

(** The address 4096, lowest byte first. *)
Definition address_4096 : list byte :=
  [x00; x10; x00; x00; x00; x00; x00; x00].

Definition end_of_batches : TaggedRecordBatch := mkTagged None None.

Definition ints (zs : list Z) : list Datum := map of_int zs.

Definition id_field : Field := mkField "id" int64 false.
Definition name_field : Field := mkField "name" utf8 true.
Definition people : Schema := [id_field; name_field].

(** A batch of two rows cut out of buffers of five: the first column lies
    three slots in, the second at the start. *)
Definition sliced : RecordBatch :=
  mkRecordBatch people 2
    [mkArray (ints [10; 11; 12; 13; 14]) 3 2;
     mkArray [of_string "a"; null; of_string "c"; of_string "d"; null] 0 2].

(** A batch iterator over the batches that remain; when none is left it
    reports the end, and goes on doing so. *)
#[global] Instance remaining_batches
  : TaggedRecordBatchIterator (list RecordBatch) := {
  ScanBatches := fun scanner =>
    Value [mkRecordBatch (projected_schema (options scanner)) 2 (columns sliced)];
  batch_itr_Next := fun itr =>
    match itr with
    | [] => (Value end_of_batches, [])
    | b :: rest => (Value (mkTagged (Some b) (Some "part-0")), rest)
    end
}.

(** A Java iterator that counts the batches it has left, and hands out the
    same address for each. *)
#[global] Instance counting_iterator
  : NativeRecordBatchIterator nat (Z * list Array) := {
  hasNext := fun left => (left, (0 <? left)%nat);
  next := fun left c => (Nat.pred left, c, Some address_4096);
  hasNext_throws := fun left => None;
  next_throws := fun left c => None
}.

(** File collaborators over a log of the datasets written so far. *)
#[global] Instance logging_files
  : FileCollaborators (list FileSystemDatasetWriteOptions) scripted (Z * list Array) := {
  FromSchemaByteArray := fun bytes =>
    match bytes with
    | [] => Failure (mkError Invalid "empty schema message")
    | _ => Value people
    end;
  ToSchemaByteArray := fun _ => Value [x01];
  FileSystemDatasetFactory_Make := fun uri start_offset length format fs =>
    Value (mkDatasetFactory (Value people) (fun s => Value (mkDataset s)));
  FileSystemFromUri := fun uri fs => Value ("local", uri);
  FileSystemDataset_Write := fun options scanner w =>
    (OK, (fst w, options :: snd w))
}.

Definition attached_thread (h : scripted) : JavaWorld scripted :=
  mkJavaWorld JNI_OK h None [].

(** A struct with the two columns of [people] at address 4096. *)
Definition two_columns : gmap Z (ArrowArray (Z * list Array)) :=
  {[ 4096 := mkArrowArray (2, columns sliced) false ]}.

(** A struct with one column only at address 4096. *)
Definition one_column : gmap Z (ArrowArray (Z * list Array)) :=
  {[ 4096 := mkArrowArray (2, [mkArray (ints [1; 2]) 0 2]) false ]}.

(** A Java iterator with one batch to give. *)
Definition one_batch : scripted := mkScripted [true; false] [address_4096].

(** A Java iterator that first says it has nothing and then hands a batch
    over all the same. *)
Definition late_batch : scripted := mkScripted [false; true] [address_4096].

(** The pool world after [JNI_OnLoad], with the default pool at 8192. *)
Definition loaded : PoolWorld := mkPoolWorld 8192 ∅ ∅ [] JNI_OK.

(** A registry with one dataset, behind handle 1. *)
Definition one_dataset : NativeWorld (list RecordBatch) (Z * list Array) :=
  mkNativeWorld {[ 1 := a_Dataset (mkDataset people) ]} ∅.

End Examples.

(** ** The remaining dataset functions *)

Definition as_DatasetFactory {I C} (o : option (NativeObject I))
  : Jni (NativeWorld I C) DatasetFactory :=
  match o with
  | Some (a_DatasetFactory d) => ret d
  | _ => undefined
  end.

Definition Java_org_apache_arrow_dataset_jni_JniWrapper_closeDatasetFactory {I C}
    (id : Z)
  : NativeWorld I C -> Outcome (JavaReturn unit) * NativeWorld I C :=
  JNI_METHOD tt (ReleaseNativeRef id).

(** [inspectSchema]; the byte array returned is [None] for the null pointer
    of the fallback. *)
Definition Java_org_apache_arrow_dataset_jni_JniWrapper_inspectSchema
    {F H C I} `{FileCollaborators F H C} (dataset_factor_id : Z)
  : NativeWorld I C -> Outcome (JavaReturn (option (list byte))) * NativeWorld I C :=
  JNI_METHOD None
    (o <- RetrieveNativeInstance dataset_factor_id ;;
     d <- as_DatasetFactory o ;;
     schema <- JniGetOrThrow (Inspect d) ;;
     bytes <- JniGetOrThrow (ToSchemaByteArray schema) ;;
     ret (Some bytes))%jni.

Definition Java_org_apache_arrow_dataset_jni_JniWrapper_createDataset
    {F H C I} `{FileCollaborators F H C}
    (dataset_factory_id : Z) (schema_bytes : list byte)
  : NativeWorld I C -> Outcome (JavaReturn Z) * NativeWorld I C :=
  JNI_METHOD (-1)
    (o <- RetrieveNativeInstance dataset_factory_id ;;
     d <- as_DatasetFactory o ;;
     schema <- JniGetOrThrow (FromSchemaByteArray schema_bytes) ;;
     dataset <- JniGetOrThrow (Finish d schema) ;;
     CreateNativeRef (a_Dataset dataset))%jni.

Definition Java_org_apache_arrow_dataset_jni_JniWrapper_closeDataset {I C}
    (id : Z)
  : NativeWorld I C -> Outcome (JavaReturn unit) * NativeWorld I C :=
  JNI_METHOD tt (ReleaseNativeRef id).

Definition Java_org_apache_arrow_dataset_jni_JniWrapper_releaseBuffer {I C}
    (id : Z)
  : NativeWorld I C -> Outcome (JavaReturn unit) * NativeWorld I C :=
  JNI_METHOD tt (ReleaseNativeRef id).

(** ** Loading and unloading the library *)

Definition JNI_VERSION : Z := 65542.

(** The Java classes as the loader finds them: the class object behind a
    name, and the id of a method of a class, by name and signature. *)
Class JavaClasses : Type := {
  FindClass : string -> Z;
  GetMethodID : Z -> string -> string -> Result Z
}.

(** The world of [JNI_OnLoad] and [JNI_OnUnload]: the globals of the file that
    hold a class or a method (by the name of the variable; a variable that
    was never assigned is absent), the world of the pools with the global
    [default_memory_pool_id] and the JNI global references, and what [GetEnv]
    answers. *)
Record LoadWorld : Type := mkLoadWorld {
  globals : gmap string Z;
  native : PoolWorld;
  load_GetEnv : Z
}.

Definition in_native {A} (m : Jni PoolWorld A) : Jni LoadWorld A :=
  fun w =>
    match m (native w) with
    | (o, n) => (o, mkLoadWorld (globals w) n (load_GetEnv w))
    end.

Definition assign (variable : string) (value : Z) : Jni LoadWorld unit :=
  fun w =>
    (Normal tt, mkLoadWorld (<[variable := value]> (globals w)) (native w) (load_GetEnv w)).

Definition set_default_memory_pool_id (value : Z) : Jni PoolWorld unit :=
  fun w =>
    (Normal tt,
     mkPoolWorld value (pools w) (global_refs w) (deleted_refs w) (GetJavaVM w)).

(** Modelled from the spec: [CreateGlobalClassReference] is declared in
    [jni_util.h] and defined outside this file.  The spec has the
    initialization resolve the host classes and cache them for the life of
    the process: the class is looked up and a global reference to it is
    made. *)
Definition CreateGlobalClassReference `{JavaClasses} (class_name : string)
  : Jni LoadWorld Z :=
  in_native (NewGlobalRef (FindClass class_name)).

(** The class a global reference designates. *)
Definition class_of (ref : Z) (w : LoadWorld) : Z :=
  default 0 (global_refs (native w) !! ref).

(** [JNI_OnLoad]; [default_memory_pool] is the address of
    [arrow::default_memory_pool()]. *)
Definition JNI_OnLoad `{JavaClasses} (default_memory_pool : Z)
  : LoadWorld -> Outcome (JavaReturn Z) * LoadWorld :=
  fun w =>
    if negb (load_GetEnv w =? JNI_OK) then
      (Normal (mkJavaReturn JNI_ERR None), w)
    else
      JNI_METHOD JNI_ERR
        (c <- CreateGlobalClassReference "Ljava/lang/IllegalAccessException;" ;;
         assign "illegal_access_exception_class" c ;;;
         c <- CreateGlobalClassReference "Ljava/lang/IllegalArgumentException;" ;;
         assign "illegal_argument_exception_class" c ;;;
         c <- CreateGlobalClassReference "Ljava/lang/RuntimeException;" ;;
         assign "runtime_exception_class" c ;;;
         listener_class <-
           CreateGlobalClassReference "Lorg/apache/arrow/dataset/jni/ReservationListener;" ;;
         assign "java_reservation_listener_class" listener_class ;;;
         w1 <- get ;;
         m <- JniGetOrThrow (GetMethodID (class_of listener_class w1) "reserve" "(J)V") ;;
         assign "reserve_memory_method" m ;;;
         m <- JniGetOrThrow (GetMethodID (class_of listener_class w1) "unreserve" "(J)V") ;;
         assign "unreserve_memory_method" m ;;;
         iterator_class <-
           CreateGlobalClassReference
             "Lorg/apache/arrow/dataset/jni/NativeRecordBatchIterator;" ;;
         assign "native_record_batch_iterator_class" iterator_class ;;;
         w2 <- get ;;
         m <- JniGetOrThrow (GetMethodID (class_of iterator_class w2) "hasNext" "()Z") ;;
         assign "native_record_batch_iterator_hasNext" m ;;;
         m <- JniGetOrThrow (GetMethodID (class_of iterator_class w2) "next" "()[B") ;;
         assign "native_record_batch_iterator_next" m ;;;
         in_native (set_default_memory_pool_id default_memory_pool) ;;;
         ret JNI_VERSION)%jni
        w.

(** [env->DeleteGlobalRef] of the class a global of the file holds; a global
    that was never assigned holds the null reference. *)
Definition DeleteGlobalRef_of (variable : string) : Jni LoadWorld unit :=
  fun w => in_native (DeleteGlobalRef (default 0 (globals w !! variable))) w.

(** [JNI_OnUnload].  The answer of [GetEnv] is not looked at; when it is not
    [JNI_OK] the environment used afterwards is not initialized. *)
Definition JNI_OnUnload : Jni LoadWorld unit :=
  (w <- get ;;
   if negb (load_GetEnv w =? JNI_OK) then undefined
   else
     DeleteGlobalRef_of "illegal_access_exception_class" ;;;
     DeleteGlobalRef_of "illegal_argument_exception_class" ;;;
     DeleteGlobalRef_of "runtime_exception_class" ;;;
     DeleteGlobalRef_of "java_reservation_listener_class" ;;;
     DeleteGlobalRef_of "native_record_batch_iterator_class" ;;;
     in_native (set_default_memory_pool_id (-1)))%jni.

(** The global references after one more class was looked up and cached. *)
Definition with_class `{JavaClasses} (class_name : string) (refs : gmap Z Z)
  : gmap Z Z :=
  <[fresh (dom refs ∪ {[0]}) := FindClass class_name]> refs.

(** The global references after the five classes of [JNI_OnLoad]. *)
Definition with_bridge_classes `{JavaClasses} (refs : gmap Z Z) : gmap Z Z :=
  with_class "Lorg/apache/arrow/dataset/jni/NativeRecordBatchIterator;"
    (with_class "Lorg/apache/arrow/dataset/jni/ReservationListener;"
       (with_class "Ljava/lang/RuntimeException;"
          (with_class "Ljava/lang/IllegalArgumentException;"
             (with_class "Ljava/lang/IllegalAccessException;" refs)))).

(** The methods the bridge looks up, with the classes they belong to. *)
Definition methods_found `{JavaClasses} (m1 m2 m3 m4 : Z) : Prop :=
  GetMethodID (FindClass "Lorg/apache/arrow/dataset/jni/ReservationListener;")
    "reserve" "(J)V" = Value m1 /\
  GetMethodID (FindClass "Lorg/apache/arrow/dataset/jni/ReservationListener;")
    "unreserve" "(J)V" = Value m2 /\
  GetMethodID (FindClass "Lorg/apache/arrow/dataset/jni/NativeRecordBatchIterator;")
    "hasNext" "()Z" = Value m3 /\
  GetMethodID (FindClass "Lorg/apache/arrow/dataset/jni/NativeRecordBatchIterator;")
    "next" "()[B" = Value m4.

(** The four lookups of [JNI_OnLoad], in the order it makes them, and the
    failure of the first of a list of lookups that fails. *)
Definition method_lookups `{JavaClasses} : list (Result Z) :=
  [GetMethodID (FindClass "Lorg/apache/arrow/dataset/jni/ReservationListener;")
     "reserve" "(J)V";
   GetMethodID (FindClass "Lorg/apache/arrow/dataset/jni/ReservationListener;")
     "unreserve" "(J)V";
   GetMethodID (FindClass "Lorg/apache/arrow/dataset/jni/NativeRecordBatchIterator;")
     "hasNext" "()Z";
   GetMethodID (FindClass "Lorg/apache/arrow/dataset/jni/NativeRecordBatchIterator;")
     "next" "()[B"].

Fixpoint first_failure (lookups : list (Result Z)) : option Error :=
  match lookups with
  | [] => None
  | Failure e :: _ => Some e
  | Value _ :: rest => first_failure rest
  end.

(** ** [bytesAllocated] *)

(** [pool->bytes_allocated()] through a pointer: the bytes the pool at the
    address accounts for, when a pool lives there. *)
Class PoolCounters : Type := {
  bytes_allocated : PoolWorld -> Z -> option Z
}.

Definition Java_org_apache_arrow_dataset_jni_NativeMemoryPool_bytesAllocated
    `{PoolCounters} (memory_pool_id : Z)
  : PoolWorld -> Outcome (JavaReturn Z) * PoolWorld :=
  JNI_METHOD (-1)
    (let pool := memory_pool_id in
     (if pool =? 0
      then JniThrow
             "Memory pool instance not found. It may not exist nor has been closed"
      else ret tt) ;;;
     w <- get ;;
     match bytes_allocated w pool with
     | Some n => ret n
     | None => undefined
     end)%jni.

(** ** The bytes of an address *)

(** The byte with the value [n mod 256]. *)
Definition byte_of (n : Z) : byte :=
  default x00 (Byte.of_N (Z.to_N (n mod 256))).

(** The [count] lowest bytes of a number, lowest first: what a Java iterator
    on a little-endian machine has to put into its byte array for the native
    side to read the number back. *)
Fixpoint low_bytes (count : nat) (z : Z) : list byte :=
  match count with
  | O => []
  | S count' => byte_of z :: low_bytes count' (z / 256)
  end.

(** ** More concrete collaborators *)

Module Scenarios.

(** File collaborators over the list of the directories that exist: a factory
    can be made for a directory that exists, and such a directory can be
    written to, which adds the directory of the output to the list.  A schema
    message is read as the schema [people] unless it is empty. *)
#[global] Instance listed_directories
  : FileCollaborators (list string) Examples.scripted (Z * list Array) := {
  FromSchemaByteArray := fun bytes =>
    match bytes with
    | [] => Failure (mkError Invalid "empty schema message")
    | _ => Value Examples.people
    end;
  ToSchemaByteArray := fun s =>
    match s with
    | [] => Failure (mkError Invalid "schema without fields")
    | _ => Value (map (fun _ => x01) s)
    end;
  FileSystemDatasetFactory_Make := fun uri start_offset length format fs =>
    if existsb (String.eqb uri) fs
    then Value (mkDatasetFactory (Value Examples.people)
                  (fun s => match s with
                            | [] => Failure (mkError Invalid "schema without fields")
                            | _ => Value (mkDataset s)
                            end))
    else Failure (mkError IOError ("Path does not exist: " +:+ uri));
  FileSystemFromUri := fun uri fs =>
    if existsb (String.eqb uri) fs then Value ("local", uri)
    else Failure (mkError IOError ("Path does not exist: " +:+ uri));
  FileSystemDataset_Write := fun options scanner w =>
    (OK, (fst w, (base_dir options +:+ "/out") :: snd w))
}.

(** The factory that [listed_directories] makes. *)
Definition people_factory : DatasetFactory :=
  mkDatasetFactory (Value Examples.people)
    (fun s => match s with
              | [] => Failure (mkError Invalid "schema without fields")
              | _ => Value (mkDataset s)
              end).

(** A registry with the factory behind handle 1 and nothing else. *)
Definition one_factory : NativeWorld (list RecordBatch) (Z * list Array) :=
  mkNativeWorld {[ 1 := a_DatasetFactory people_factory ]} ∅.

(** The directory that exists. *)
Definition data : list string := ["file:///data"].

(** The Java classes with the two interfaces of the bridge: the class object
    of a name is the length of the name, and the methods of the bridge have
    the ids 1 to 4. *)
#[global] Instance bridge_classes : JavaClasses := {
  FindClass := fun name => Z.of_nat (String.length name);
  GetMethodID := fun class name signature =>
    if String.eqb name "reserve" then Value 1
    else if String.eqb name "unreserve" then Value 2
    else if String.eqb name "hasNext" then Value 3
    else if String.eqb name "next" then Value 4
    else Failure (mkError Invalid ("Unable to find method " +:+ name))
}.

(** The world before the library is loaded: no global holds anything, the id
    of the default pool is -1. *)
Definition unloaded : LoadWorld :=
  mkLoadWorld ∅ (mkPoolWorld (-1) ∅ ∅ [] JNI_OK) JNI_OK.

(** Pools that account for 64 bytes each. *)
#[global] Instance flat_counters : PoolCounters := {
  bytes_allocated := fun w pool =>
    if pool =? default_memory_pool_id w then Some 0
    else match pools w !! pool with
         | Some _ => Some 64
         | None => None
         end
}.

(** A scanner over [people] behind handle 2, with the batch [sliced] still to
    come, and the same scanner after its last batch. *)
Definition people_scanner : Scanner :=
  mkScanner (mkScanOptions Examples.people Examples.people None None).

Definition scanning : NativeWorld (list RecordBatch) (Z * list Array) :=
  mkNativeWorld
    {[ 2 := a_DisposableScannerAdaptor
              (DisposableScannerAdaptor.mk people_scanner [Examples.sliced]) ]}
    ∅.

Definition exhausted : NativeWorld (list RecordBatch) (Z * list Array) :=
  mkNativeWorld
    {[ 2 := a_DisposableScannerAdaptor (DisposableScannerAdaptor.mk people_scanner []) ]}
    {[ 4096 := mkArrowArray (2, columns Examples.sliced) false ]}.

(** Two structs in native memory, at 4096 and at 4160. *)
Definition two_structs : gmap Z (ArrowArray (Z * list Array)) :=
  <[ 4160 := mkArrowArray (2, [mkArray (Examples.ints [1; 2]) 0 2]) false ]>
    Examples.two_columns.

(** A Java iterator that hands over two bytes only. *)
Definition two_bytes : Examples.scripted := Examples.mkScripted [true] [[x00; x10]].

(** A Java iterator that was closed: both methods throw, and the JVM hands
    back [JNI_FALSE] and the null reference. *)
Inductive closed_iterator : Type :=
| closed.

#[global] Instance closed_iterator_methods
  : NativeRecordBatchIterator closed_iterator (Z * list Array) := {
  hasNext := fun h => (h, false);
  next := fun h c => (h, c, None);
  hasNext_throws := fun h => Some "java.lang.IllegalStateException: closed";
  next_throws := fun h c => Some "java.lang.IllegalStateException: closed"
}.

(** Java classes in which the iterator has no method [next]. *)
Definition without_next : JavaClasses := {|
  FindClass := fun name => Z.of_nat (String.length name);
  GetMethodID := fun class name signature =>
    if String.eqb name "next" then Failure (mkError Invalid "Unable to find method next")
    else Value 7
|}.

End Scenarios.

(** * Properties *)

(** ** File formats *)

Lemma GetFileFormat_parquet : GetFileFormat 0 = Value ParquetFileFormat.
Proof. reflexivity. Qed.

Lemma GetFileFormat_illegal (file_format_id : Z) :
  file_format_id ≠ 0 ->
  GetFileFormat file_format_id =
  Failure (mkError Invalid ("illegal file format id: " +:+ to_string file_format_id)).
Proof. intros Hid. destruct file_format_id; [congruence | reflexivity | reflexivity]. Qed.

(** A [jlong] in the range of [jint] is converted to itself. *)
Lemma jint_of_jlong_in_range (z : Z) :
  - 2 ^ 31 <= z < 2 ^ 31 -> jint_of_jlong z = z.
Proof.
  intros Hz. unfold jint_of_jlong.
  rewrite Z.mod_small by lia. lia.
Qed.

(** The conversion forgets every multiple of [2 ^ 32]. *)
Lemma jint_of_jlong_wraps (z k : Z) :
  jint_of_jlong (z + k * 2 ^ 32) = jint_of_jlong z.
Proof.
  unfold jint_of_jlong.
  replace (z + k * 2 ^ 32 + 2 ^ 31) with (z + 2 ^ 31 + k * 2 ^ 32) by lia.
  now rewrite Z.mod_add by lia.
Qed.

(** With a format id other than 0, [makeFileSystemDatasetFactory] raises the
    exception that names the id and returns -1; no factory is made and no
    handle is created, whatever the file system holds. *)
Lemma makeFileSystemDatasetFactory_illegal {F H C I} `{FileCollaborators F H C}
    (uri : string) (file_format_id start_offset length : Z)
    (w : NativeWorld I C * F) :
  file_format_id ≠ 0 ->
  Java_org_apache_arrow_dataset_file_JniWrapper_makeFileSystemDatasetFactory
    uri file_format_id start_offset length w =
  (Normal (mkJavaReturn (-1)
             (Some ("illegal file format id: " +:+ to_string file_format_id))),
   w).
Proof.
  intros Hid.
  unfold Java_org_apache_arrow_dataset_file_JniWrapper_makeFileSystemDatasetFactory,
    JNI_METHOD, bind.
  rewrite (GetFileFormat_illegal _ Hid). reflexivity.
Qed.

(** With the format id 0 the factory that the file system layer makes is
    registered and its handle returned. *)
Lemma makeFileSystemDatasetFactory_parquet {F H C I} `{FileCollaborators F H C}
    (uri : string) (start_offset length : Z) (w : NativeWorld I C * F)
    (d : DatasetFactory) :
  FileSystemDatasetFactory_Make uri start_offset length ParquetFileFormat (snd w)
    = Value d ->
  Java_org_apache_arrow_dataset_file_JniWrapper_makeFileSystemDatasetFactory
    uri 0 start_offset length w =
  (Normal (mkJavaReturn (fresh (dom (refs (fst w)) ∪ {[0]})) None),
   (mkNativeWorld
      (<[fresh (dom (refs (fst w)) ∪ {[0]}) := a_DatasetFactory d]> (refs (fst w)))
      (structs (fst w)),
    snd w)).
Proof.
  intros Hmake.
  unfold Java_org_apache_arrow_dataset_file_JniWrapper_makeFileSystemDatasetFactory,
    JNI_METHOD, bind.
  cbn. rewrite Hmake. reflexivity.
Qed.

(** In [writeFromScannerToFile] the id that decides is the converted one: when
    it is not 0, the exception names it and nothing is written. *)
Lemma writeFromScannerToFile_illegal {F H C} `{FileCollaborators F H C}
    (default_memory_pool : Z) (schema_bytes : list byte) (file_format_id : Z)
    (uri : string) (partition_columns : list string) (max_partitions : Z)
    (base_name_template : string) (w : ScanWorld H C * F) (s : Schema) :
  FromSchemaByteArray schema_bytes = Value s ->
  jint_of_jlong file_format_id ≠ 0 ->
  Java_org_apache_arrow_dataset_file_JniWrapper_writeFromScannerToFile
    JNI_OK default_memory_pool schema_bytes file_format_id uri partition_columns
    max_partitions base_name_template w =
  (Normal (mkJavaReturn tt
             (Some ("illegal file format id: " +:+
                    to_string (jint_of_jlong file_format_id)))),
   w).
Proof.
  intros Hschema Hid.
  unfold Java_org_apache_arrow_dataset_file_JniWrapper_writeFromScannerToFile,
    JNI_METHOD, bind.
  cbn. rewrite Hschema. cbn.
  rewrite (GetFileFormat_illegal _ Hid). reflexivity.
Qed.

(** C8.  The format id [2 ^ 32] is not 0, and [writeFromScannerToFile] takes
    it for the Parquet format all the same: the [jlong] is cut to a [jint]
    before it is looked at, the call succeeds, and a dataset is written with
    the Parquet options.  One more, [2 ^ 32 + 1], is refused under the name
    of the id 1. *)
Theorem writeFromScannerToFile_wrapped_format_id :
  let w := (mkScanWorld (Examples.attached_thread Examples.one_batch)
              Examples.two_columns, []) in
  let call id :=
    Java_org_apache_arrow_dataset_file_JniWrapper_writeFromScannerToFile
      JNI_OK 8192 [x01] id "file:///tmp/out" [] 10 "part-{i}" w in
  4294967296 ≠ 0 /\
  fst (call 4294967296) = Normal (mkJavaReturn tt None) /\
  map file_write_options (snd (snd (call 4294967296))) = [ParquetFileFormat] /\
  call 4294967297 =
    (Normal (mkJavaReturn tt (Some "illegal file format id: 1")), w).
Proof. cbv zeta. split; [lia | ]. split; [ | split]; vm_compute; reflexivity. Qed.

(** ** The reservation listener *)

Section Reservation.

Context {J : Type} `{ReservationListener J}.

(** Both callbacks answer a thread that is not attached in the same way,
    before anything is done. *)
Lemma OnReservation_detached (size : Z) (w : JavaWorld J) :
  GetEnv w ≠ JNI_OK ->
  ReserveFromJava.OnReservation size w =
  (Status_Invalid "JNIEnv was not attached to current thread", w).
Proof.
  intros Henv. unfold ReserveFromJava.OnReservation.
  destruct (Z.eqb_spec (GetEnv w) JNI_OK); [contradiction | reflexivity].
Qed.

Lemma OnRelease_detached (size : Z) (w : JavaWorld J) :
  GetEnv w ≠ JNI_OK ->
  ReserveFromJava.OnRelease size w =
  (Status_Invalid "JNIEnv was not attached to current thread", w).
Proof.
  intros Henv. unfold ReserveFromJava.OnRelease.
  destruct (Z.eqb_spec (GetEnv w) JNI_OK); [contradiction | reflexivity].
Qed.

(** On an attached thread the Java method is called once, and the status is
    what [CheckException] makes of the thread afterwards. *)
Lemma OnReservation_attached (size : Z) (w : JavaWorld J) :
  GetEnv w = JNI_OK ->
  ReserveFromJava.OnReservation size w =
  CheckException (CallObjectMethod reserve (call_reserve size) size w).
Proof.
  intros Henv. unfold ReserveFromJava.OnReservation. rewrite Henv. cbn.
  destruct (CheckException _) as [[|e] w2]; reflexivity.
Qed.

Lemma OnRelease_attached (size : Z) (w : JavaWorld J) :
  GetEnv w = JNI_OK ->
  ReserveFromJava.OnRelease size w =
  CheckException (CallObjectMethod unreserve (call_unreserve size) size w).
Proof.
  intros Henv. unfold ReserveFromJava.OnRelease. rewrite Henv. cbn.
  destruct (CheckException _) as [[|e] w2]; reflexivity.
Qed.

(** A method that throws leaves its exception pending, and a pending
    exception makes the status a failure. *)
Lemma CheckException_after_throw (method : J -> Z -> J * option string)
    (call : JavaCall) (size : Z) (w : JavaWorld J) :
  is_Some (snd (method (host w) size)) ->
  ok (fst (CheckException (CallObjectMethod method call size w))) = false.
Proof.
  intros [thrown Hthrown].
  unfold CheckException, CallObjectMethod.
  destruct (method (host w) size) as [j t]. cbn in Hthrown. subst t.
  reflexivity.
Qed.

(** An OK status is only given when the method ran and did not throw. *)
Lemma CheckException_OK_inv (method : J -> Z -> J * option string)
    (call : JavaCall) (size : Z) (w : JavaWorld J) :
  fst (CheckException (CallObjectMethod method call size w)) = OK ->
  snd (method (host w) size) = None /\
  calls (snd (CheckException (CallObjectMethod method call size w)))
    = call :: calls w /\
  host (snd (CheckException (CallObjectMethod method call size w)))
    = fst (method (host w) size).
Proof.
  unfold CheckException, CallObjectMethod.
  destruct (method (host w) size) as [j [t|]]; cbn.
  - discriminate.
  - destruct (pending w); cbn; [discriminate | auto].
Qed.

(** C6.  When the Java listener throws during the [reserve] or [unreserve]
    call for a size, [OnReservation] or [OnRelease] returns a status that is
    not OK.  And an OK status is never given unaccounted: it means that the
    listener was called with the size and returned without an exception. *)
Theorem listener_error_is_a_failure (size : Z) (w : JavaWorld J) :
  GetEnv w = JNI_OK ->
  (is_Some (snd (reserve (host w) size)) ->
   ok (fst (ReserveFromJava.OnReservation size w)) = false) /\
  (is_Some (snd (unreserve (host w) size)) ->
   ok (fst (ReserveFromJava.OnRelease size w)) = false) /\
  (fst (ReserveFromJava.OnReservation size w) = OK ->
   snd (reserve (host w) size) = None /\
   calls (snd (ReserveFromJava.OnReservation size w))
     = call_reserve size :: calls w) /\
  (fst (ReserveFromJava.OnRelease size w) = OK ->
   snd (unreserve (host w) size) = None /\
   calls (snd (ReserveFromJava.OnRelease size w))
     = call_unreserve size :: calls w).
Proof.
  intros Henv.
  rewrite (OnReservation_attached size w Henv), (OnRelease_attached size w Henv).
  split; [apply CheckException_after_throw | ].
  split; [apply CheckException_after_throw | ].
  split; intros Hok; apply CheckException_OK_inv in Hok; tauto.
Qed.

End Reservation.

(** The budget listener refuses 60 more bytes on top of 50: the reservation
    fails with the text of the Java exception. *)
Lemma listener_error_is_a_failure_witness :
  let w := mkJavaWorld JNI_OK 50 None [] in
  ReserveFromJava.OnReservation 60 w
    = (Status_Invalid "reservation over budget",
       mkJavaWorld JNI_OK 50 None [call_reserve 60]) /\
  ok (fst (ReserveFromJava.OnReservation 60 w)) = false.
Proof.
  cbv zeta. split; [reflexivity | ].
  apply (listener_error_is_a_failure 60 (mkJavaWorld JNI_OK 50 None [])).
  - reflexivity.
  - cbn. eexists. reflexivity.
Defined.

(** ** One pull on the Java iterator *)

Section Pull.

Context {H C : Type} `{NativeRecordBatchIterator H C} `{CDataInterface C}.

Lemma itr_Next_detached (schema : Schema) (w : ScanWorld H C) :
  GetEnv (jvm w) ≠ JNI_OK ->
  MakeJavaDatasetScanner_itr_Next schema w =
  (Normal (Failure (mkError Invalid "JNIEnv was not attached to current thread")), w).
Proof.
  intros Henv. unfold MakeJavaDatasetScanner_itr_Next, bind, get.
  destruct (Z.eqb_spec (GetEnv (jvm w)) JNI_OK); [contradiction | reflexivity].
Qed.

Lemma itr_Next_end (schema : Schema) (w : ScanWorld H C) :
  GetEnv (jvm w) = JNI_OK ->
  snd (hasNext (host (jvm w))) = false ->
  MakeJavaDatasetScanner_itr_Next schema w = (Normal (Value None), after_hasNext w).
Proof.
  intros Henv Hmore.
  unfold MakeJavaDatasetScanner_itr_Next, bind, get, CallBooleanMethod_hasNext,
    after_hasNext.
  destruct (Z.eqb_spec (GetEnv (jvm w)) JNI_OK) as [_ | Hne]; [ | contradiction].
  cbn.
  destruct (hasNext (host (jvm w))) as [h1 more]. cbn in *. subst more.
  reflexivity.
Qed.

(** The pull up to the import: [hasNext] said yes, [next] was called, and
    the bytes of its array spell an address. *)
Lemma itr_Next_more (schema : Schema) (w : ScanWorld H C) (memory_address : Z) :
  GetEnv (jvm w) = JNI_OK ->
  snd (hasNext (host (jvm w))) = true ->
  memory_address_of (next_bytes w) = Some memory_address ->
  MakeJavaDatasetScanner_itr_Next schema w =
  match ImportRecordBatch schema memory_address (c_data (after_next w)) with
  | None => (Undefined, after_next w)
  | Some (Failure e, c) =>
      (Thrown (message e),
       {| jvm := jvm (after_next w);
          c_data := c;
          c_calls := call_ImportRecordBatch memory_address :: c_calls w |})
  | Some (Value rb, c) =>
      (Normal (Value (Some rb)),
       {| jvm := jvm (after_next w);
          c_data := ArrowArrayRelease memory_address c;
          c_calls := call_ArrowArrayRelease memory_address
                       :: call_ImportRecordBatch memory_address :: c_calls w |})
  end.
Proof.
  intros Henv Hmore Haddr.
  unfold MakeJavaDatasetScanner_itr_Next, bind, get, CallBooleanMethod_hasNext,
    CallObjectMethod_next, GetByteArrayElements, ImportRecordBatch_call,
    ArrowArrayRelease_call, after_next, next_bytes, next_array in *.
  destruct (Z.eqb_spec (GetEnv (jvm w)) JNI_OK) as [_ | Hne]; [ | contradiction].
  cbn.
  destruct (hasNext (host (jvm w))) as [h1 more]. cbn in *. subst more. cbn.
  destruct (next h1 (c_data w)) as [[h2 c2] bytes]. cbn in *.
  destruct (next_throws h1 (c_data w)) as [t | ]; cbn in *; [discriminate | ].
  destruct bytes as [bytes | ]; cbn in *; [ | discriminate].
  rewrite Haddr. cbn.
  destruct (ImportRecordBatch schema memory_address c2) as [[[rb | e] c] | ];
    reflexivity.
Qed.

(** The pull when no address can be read: [next] threw or gave the null
    reference, or its array is shorter than eight bytes. *)
Lemma itr_Next_short_array (schema : Schema) (w : ScanWorld H C) :
  GetEnv (jvm w) = JNI_OK ->
  snd (hasNext (host (jvm w))) = true ->
  memory_address_of (next_bytes w) = None ->
  MakeJavaDatasetScanner_itr_Next schema w = (Undefined, after_next w).
Proof.
  intros Henv Hmore Haddr.
  unfold MakeJavaDatasetScanner_itr_Next, bind, get, CallBooleanMethod_hasNext,
    CallObjectMethod_next, GetByteArrayElements, after_next, next_bytes,
    next_array in *.
  destruct (Z.eqb_spec (GetEnv (jvm w)) JNI_OK) as [_ | Hne]; [ | contradiction].
  cbn.
  destruct (hasNext (host (jvm w))) as [h1 more]. cbn in *. subst more. cbn.
  destruct (next h1 (c_data w)) as [[h2 c2] bytes]. cbn in *.
  destruct (next_throws h1 (c_data w)) as [t | ]; cbn in *; [reflexivity | ].
  destruct bytes as [bytes | ]; cbn in *; [ | reflexivity].
  rewrite Haddr. reflexivity.
Qed.

(** The address eight or more bytes spell. *)
Lemma memory_address_of_long (bytes : list byte) :
  (8 <= length bytes)%nat ->
  memory_address_of bytes = Some (int64_of_bits (little_endian (take 8 bytes))).
Proof.
  intros Hlong. unfold memory_address_of.
  destruct (Nat.ltb_spec (length bytes) 8); [lia | reflexivity].
Qed.

(** The import of a struct that is there and live: it is decoded against the
    schema, and left released. *)
Lemma ImportRecordBatch_live (schema : Schema) (memory_address : Z)
    (c : gmap Z (ArrowArray C)) (a : ArrowArray C) :
  c !! memory_address = Some a ->
  released a = false ->
  ImportRecordBatch schema memory_address c =
  Some (ImportArray schema (contents a),
        <[memory_address := mkArrowArray (contents a) true]> c).
Proof.
  intros Hstruct Hlive. unfold ImportRecordBatch. now rewrite Hstruct, Hlive.
Qed.

(** Whatever the import answers, the struct it was given is released
    afterwards, and no other struct has changed. *)
Lemma ImportRecordBatch_moves (schema : Schema) (memory_address : Z)
    (c c' : gmap Z (ArrowArray C)) (imported : Result RecordBatch) :
  ImportRecordBatch schema memory_address c = Some (imported, c') ->
  released <$> (c' !! memory_address) = Some true /\
  (forall other : Z, other ≠ memory_address -> c' !! other = c !! other).
Proof.
  unfold ImportRecordBatch.
  destruct (c !! memory_address) as [a | ] eqn:Hstruct; [ | discriminate].
  destruct (released a) eqn:Hreleased; intros [= <- <-].
  - rewrite Hstruct. cbn. split; [congruence | reflexivity].
  - rewrite lookup_insert_eq. split; [reflexivity | ].
    intros other Hother. now apply lookup_insert_ne.
Qed.

Lemma ArrowArrayRelease_released (memory_address : Z) (c : gmap Z (ArrowArray C)) :
  released <$> (c !! memory_address) = Some true ->
  released <$> (ArrowArrayRelease memory_address c !! memory_address) = Some true.
Proof.
  unfold ArrowArrayRelease.
  destruct (c !! memory_address) as [a | ] eqn:Hstruct; [ | discriminate].
  intros _. now rewrite lookup_insert_eq.
Qed.

Lemma ArrowArrayRelease_other (memory_address other : Z) (c : gmap Z (ArrowArray C)) :
  other ≠ memory_address ->
  ArrowArrayRelease memory_address c !! other = c !! other.
Proof.
  intros Hother. unfold ArrowArrayRelease.
  destruct (c !! memory_address) as [a | ]; [now apply lookup_insert_ne | reflexivity].
Qed.

(** C5.  A pull on an attached thread starts with [hasNext], and what that
    call hands back decides.  When it is no, the pull reports the end of the
    stream, [hasNext] is the only call made on the Java iterator, and no
    struct is touched; an exception of [hasNext] is left pending.  When it is
    yes, [next] is called second.  Its array is used as it comes: without an
    array (the method threw, or gave null) the pull has no defined behaviour.
    The first eight bytes of the array, lowest byte first and read as a
    signed number, are the address of the struct; the struct there, when it
    is live and decodes against the schema the scanner was made with, is
    imported, the batch is handed on, and the struct is released by a call of
    [ArrowArrayRelease] that comes right after the import. *)
Theorem pull_protocol (schema : Schema) (w : ScanWorld H C) :
  GetEnv (jvm w) = JNI_OK ->
  (snd (hasNext (host (jvm w))) = false ->
   MakeJavaDatasetScanner_itr_Next schema w = (Normal (Value None), after_hasNext w) /\
   calls (jvm (after_hasNext w)) = call_hasNext :: calls (jvm w) /\
   pending (jvm (after_hasNext w))
     = left_pending (hasNext_throws (host (jvm w))) (pending (jvm w)) /\
   c_data (after_hasNext w) = c_data w /\
   c_calls (after_hasNext w) = c_calls w) /\
  (snd (hasNext (host (jvm w))) = true ->
   calls (jvm (snd (MakeJavaDatasetScanner_itr_Next schema w)))
     = call_next :: call_hasNext :: calls (jvm w) /\
   (next_array w = None ->
    MakeJavaDatasetScanner_itr_Next schema w = (Undefined, after_next w)) /\
   (forall bytes : list byte,
      next_array w = Some bytes ->
      (8 <= length bytes)%nat ->
      let memory_address := int64_of_bits (little_endian (take 8 bytes)) in
      forall (a : ArrowArray C) (rb : RecordBatch),
        c_data (after_next w) !! memory_address = Some a ->
        released a = false ->
        ImportArray schema (contents a) = Value rb ->
        MakeJavaDatasetScanner_itr_Next schema w =
        (Normal (Value (Some rb)),
         {| jvm := jvm (after_next w);
            c_data := <[memory_address := mkArrowArray (contents a) true]>
                        (c_data (after_next w));
            c_calls := call_ArrowArrayRelease memory_address
                         :: call_ImportRecordBatch memory_address :: c_calls w |}))).
Proof.
  intros Henv. split.
  - intros Hmore. split; [now apply itr_Next_end | repeat split].
  - intros Hmore. split; [ | split].
    + destruct (memory_address_of (next_bytes w)) as [memory_address | ] eqn:Haddr.
      * rewrite (itr_Next_more schema w memory_address Henv Hmore Haddr).
        destruct (ImportRecordBatch _ _ _) as [[[rb | e] c] | ]; reflexivity.
      * now rewrite (itr_Next_short_array schema w Henv Hmore Haddr).
    + intros Hnone. apply itr_Next_short_array; [assumption | assumption | ].
      unfold next_bytes. now rewrite Hnone.
    + intros bytes Harray Hlong memory_address a rb Hstruct Hlive Himport.
      assert (Haddr : memory_address_of (next_bytes w) = Some memory_address).
      { unfold next_bytes. rewrite Harray. now apply memory_address_of_long. }
      rewrite (itr_Next_more schema w memory_address Henv Hmore Haddr).
      rewrite (ImportRecordBatch_live schema memory_address _ a Hstruct Hlive).
      rewrite Himport. unfold ArrowArrayRelease.
      rewrite lookup_insert_eq. cbn [contents].
      now rewrite insert_insert_eq.
Qed.

(** When the import fails, the failure is thrown from the middle of the
    pull: no batch comes out, the structs are as the import left them, and
    the call of [ArrowArrayRelease] that follows a successful import is not
    reached. *)
Lemma itr_Next_import_failure (schema : Schema) (w : ScanWorld H C)
    (memory_address : Z) (e : Error) (c : gmap Z (ArrowArray C)) :
  GetEnv (jvm w) = JNI_OK ->
  snd (hasNext (host (jvm w))) = true ->
  memory_address_of (next_bytes w) = Some memory_address ->
  ImportRecordBatch schema memory_address (c_data (after_next w)) = Some (Failure e, c) ->
  MakeJavaDatasetScanner_itr_Next schema w =
  (Thrown (message e),
   {| jvm := jvm (after_next w);
      c_data := c;
      c_calls := call_ImportRecordBatch memory_address :: c_calls w |}).
Proof.
  intros Henv Hmore Haddr Himport.
  rewrite (itr_Next_more schema w memory_address Henv Hmore Haddr).
  now rewrite Himport.
Qed.

(** C2.  A pull in which [next] handed over the address of a struct: after
    the pull the struct is released, whether the import succeeded or failed,
    and no other struct was touched.  A failed import is reported by the
    exception thrown with the message of the failure, and nothing else comes
    out of the pull: no batch, and no answer that could be taken for one.
    On that path the struct is released by the import itself, which has moved
    out of it. *)
Theorem failed_import_releases_the_struct (schema : Schema) (w : ScanWorld H C)
    (bytes : list byte) (a : ArrowArray C) :
  GetEnv (jvm w) = JNI_OK ->
  snd (hasNext (host (jvm w))) = true ->
  next_array w = Some bytes ->
  (8 <= length bytes)%nat ->
  let memory_address := int64_of_bits (little_endian (take 8 bytes)) in
  c_data (after_next w) !! memory_address = Some a ->
  released <$>
    (c_data (snd (MakeJavaDatasetScanner_itr_Next schema w)) !! memory_address)
    = Some true /\
  (forall other : Z, other ≠ memory_address ->
     c_data (snd (MakeJavaDatasetScanner_itr_Next schema w)) !! other
       = c_data (after_next w) !! other) /\
  (forall (e : Error) (c : gmap Z (ArrowArray C)),
     ImportRecordBatch schema memory_address (c_data (after_next w))
       = Some (Failure e, c) ->
     fst (MakeJavaDatasetScanner_itr_Next schema w) = Thrown (message e)) /\
  (forall rb : RecordBatch,
     fst (MakeJavaDatasetScanner_itr_Next schema w) = Normal (Value (Some rb)) ->
     released a = false /\ ImportArray schema (contents a) = Value rb).
Proof.
  intros Henv Hmore Harray Hlong memory_address Hstruct.
  assert (Haddr : memory_address_of (next_bytes w) = Some memory_address).
  { unfold next_bytes. rewrite Harray. now apply memory_address_of_long. }
  rewrite (itr_Next_more schema w memory_address Henv Hmore Haddr).
  destruct (ImportRecordBatch schema memory_address (c_data (after_next w)))
    as [[imported c] | ] eqn:Himport.
  2: { unfold ImportRecordBatch in Himport. rewrite Hstruct in Himport.
       destruct (released a); discriminate. }
  destruct (ImportRecordBatch_moves _ _ _ _ _ Himport) as [Hreleased Hframe].
  destruct imported as [rb | e]; cbn [fst snd c_data].
  - split; [now apply ArrowArrayRelease_released | ].
    split; [intros other Hother; rewrite ArrowArrayRelease_other by assumption;
            now apply Hframe | ].
    split; [intros e c' [=] | ].
    intros rb' [= <-].
    unfold ImportRecordBatch in Himport. rewrite Hstruct in Himport.
    destruct (released a); [discriminate | ].
    split; [reflexivity | congruence].
  - split; [assumption | ]. split; [assumption | ].
    split; [intros e' c' [= <- <-]; reflexivity | intros rb [=]].
Qed.

End Pull.

(** The iterator with one batch, pulled twice: the first pull imports the
    struct at 4096 and then releases it, the second finds the end.  And a
    pull on an iterator that was closed: the pull reports the end, and the
    exception of [hasNext] is left pending. *)
Lemma pull_protocol_witness :
  let w := mkScanWorld (Examples.attached_thread Examples.one_batch)
             Examples.two_columns in
  MakeJavaDatasetScanner_itr_Next Examples.people w =
  (Normal (Value (Some (mkRecordBatch Examples.people 2 (columns Examples.sliced)))),
   {| jvm := jvm (after_next w);
      c_data := <[4096 := mkArrowArray (2, columns Examples.sliced) true]>
                  (c_data (after_next w));
      c_calls := [call_ArrowArrayRelease 4096; call_ImportRecordBatch 4096] |}) /\
  calls (jvm (snd (MakeJavaDatasetScanner_itr_Next Examples.people w)))
    = [call_next; call_hasNext] /\
  MakeJavaDatasetScanner_itr_Next Examples.people
    (snd (MakeJavaDatasetScanner_itr_Next Examples.people w)) =
  (Normal (Value None),
   after_hasNext (snd (MakeJavaDatasetScanner_itr_Next Examples.people w))) /\
  (let closed := mkScanWorld (mkJavaWorld JNI_OK Scenarios.closed None [])
                   Examples.two_columns in
   MakeJavaDatasetScanner_itr_Next Examples.people closed
     = (Normal (Value None), after_hasNext closed) /\
   pending (jvm (after_hasNext closed))
     = Some "java.lang.IllegalStateException: closed").
Proof.
  cbv zeta.
  pose proof (pull_protocol Examples.people
                (mkScanWorld (Examples.attached_thread Examples.one_batch)
                   Examples.two_columns) eq_refl) as [_ Hyes].
  destruct (Hyes eq_refl) as (Hcalls & _ & Himport).
  split.
  { exact (Himport Examples.address_4096 eq_refl ltac:(cbn; lia)
             (mkArrowArray (2, columns Examples.sliced) false)
             (mkRecordBatch Examples.people 2 (columns Examples.sliced))
             eq_refl eq_refl eq_refl). }
  split; [exact Hcalls | ].
  split.
  { pose proof (pull_protocol Examples.people
                  (snd (MakeJavaDatasetScanner_itr_Next Examples.people
                          (mkScanWorld (Examples.attached_thread Examples.one_batch)
                             Examples.two_columns))) eq_refl) as [Hno _].
    exact (proj1 (Hno eq_refl)). }
  pose proof (pull_protocol Examples.people
                (mkScanWorld (mkJavaWorld JNI_OK Scenarios.closed None [])
                   Examples.two_columns) eq_refl) as [Hno _].
  destruct (Hno eq_refl) as (Hpull & _ & Hpending & _).
  split; [exact Hpull | exact Hpending].
Defined.

(** A pull whose import fails: the Java iterator hands over the address of a
    live struct with one column, and the schema has two fields.  The failure
    is thrown, and the struct is released after the pull. *)
Lemma failed_import_releases_the_struct_witness :
  let w := mkScanWorld (Examples.attached_thread Examples.one_batch)
             Examples.one_column in
  released <$> (c_data w !! 4096) = Some false /\
  fst (MakeJavaDatasetScanner_itr_Next Examples.people w)
    = Thrown "ArrowArray struct has an unexpected number of children" /\
  released <$> (c_data (snd (MakeJavaDatasetScanner_itr_Next Examples.people w)) !! 4096)
    = Some true.
Proof.
  cbv zeta.
  destruct (@failed_import_releases_the_struct _ _ Examples.scripted_iterator
              Examples.plain_interface Examples.people
              (mkScanWorld (Examples.attached_thread Examples.one_batch)
                 Examples.one_column)
              Examples.address_4096
              (mkArrowArray (2, [mkArray (Examples.ints [1; 2]) 0 2]) false)
              eq_refl eq_refl eq_refl ltac:(cbn; lia) eq_refl)
    as (Hreleased & _ & Hfailure & _).
  split; [reflexivity | ]. split; [ | exact Hreleased].
  exact (Hfailure
           (mkError Invalid "ArrowArray struct has an unexpected number of children")
           _ eq_refl).
Defined.

(** ** The generator *)

Section Generator.

Context {W : Type} (itr_Next : Jni W (Result (option RecordBatch))).

Import SimpleIteratorFragment.

(** What one call of the generator does, by the answer of the iterator. *)
Lemma Generator_call_once (state : State) (w : W) :
  Generator_call 1 itr_Next state w =
  match itr_Next w with
  | (Normal (Value None), w') => (Normal (Some AsyncGeneratorEnd, mkState None), w')
  | (Normal (Value (Some rb)), w') =>
      (Normal (Some (MakeFinished rb), mkState (Some rb)), w')
  | (Normal (Failure e), w') => (Aborted (message e), w')
  | (Thrown what, w') => (Thrown what, w')
  | (Aborted what, w') => (Aborted what, w')
  | (Undefined, w') => (Undefined, w')
  end.
Proof.
  unfold Generator_call, State_Finished, bind.
  destruct (itr_Next w) as [[[[rb|]|e]|what|what|] w']; reflexivity.
Qed.

(** The loop of the generator ends in its first round: one unrolling is
    enough, and more change nothing. *)
Lemma Generator_call_fuel (fuel : nat) (state : State) (w : W) :
  Generator_call (S fuel) itr_Next state w = Generator_call 1 itr_Next state w.
Proof.
  cbn [Generator_call]. unfold State_Finished, bind.
  destruct (itr_Next w) as [[[[rb|]|e]|what|what|] w']; reflexivity.
Qed.

Lemma Generator_call_answers (fuel : nat) (state state' : State) (w w' : W) :
  Generator_call (S fuel) itr_Next state w ≠ (Normal (None, state'), w').
Proof.
  rewrite Generator_call_fuel, Generator_call_once.
  destruct (itr_Next w) as [[[[rb|]|e]|what|what|] w0]; discriminate.
Qed.

End Generator.

(** C7.  Each call into the Java side asks [GetEnv] on its own: the two
    callbacks of the listener and the pull on the Java iterator.  On a thread
    that is not attached the callbacks return an invalid status and do
    nothing else, and so does the pull.  But the pull is made by the
    generator, whose [Finished] takes the batch out of the result of the pull
    with [ValueOrDie]: on such a thread a call of the generator ends the
    process, with the message of the status the pull returned. *)
Theorem detached_pull_aborts_the_process
    {J H C : Type} `{ReservationListener J} `{NativeRecordBatchIterator H C}
    `{CDataInterface C}
    (size : Z) (lw : JavaWorld J) (schema : Schema) (sw : ScanWorld H C)
    (fuel : nat) (state : SimpleIteratorFragment.State) :
  (GetEnv lw ≠ JNI_OK ->
   ReserveFromJava.OnReservation size lw
     = (Status_Invalid "JNIEnv was not attached to current thread", lw) /\
   ReserveFromJava.OnRelease size lw
     = (Status_Invalid "JNIEnv was not attached to current thread", lw)) /\
  (GetEnv (jvm sw) ≠ JNI_OK ->
   MakeJavaDatasetScanner_itr_Next schema sw
     = (Normal (Failure (mkError Invalid "JNIEnv was not attached to current thread")),
        sw) /\
   SimpleIteratorFragment.Generator_call (S fuel)
     (MakeJavaDatasetScanner_itr_Next schema) state sw
     = (Aborted "JNIEnv was not attached to current thread", sw)).
Proof.
  split.
  - intros Henv. split; [now apply OnReservation_detached | now apply OnRelease_detached].
  - intros Henv. split; [now apply itr_Next_detached | ].
    rewrite Generator_call_fuel, Generator_call_once.
    now rewrite itr_Next_detached.
Qed.

(** A reservation on a detached thread (what [GetEnv] answers is
    [JNI_EDETACHED]), and a call of the generator on such a thread for a Java
    iterator that has a batch to give. *)
Lemma detached_pull_aborts_the_process_witness :
  let lw := mkJavaWorld JNI_EDETACHED 50 None [] in
  let sw := mkScanWorld (mkJavaWorld JNI_EDETACHED Examples.one_batch None [])
              Examples.two_columns in
  ReserveFromJava.OnReservation 10 lw
    = (Status_Invalid "JNIEnv was not attached to current thread", lw) /\
  SimpleIteratorFragment.Generator_call 1
    (MakeJavaDatasetScanner_itr_Next Examples.people)
    (SimpleIteratorFragment.mkState None) sw
    = (Aborted "JNIEnv was not attached to current thread", sw).
Proof.
  cbv zeta.
  pose proof (detached_pull_aborts_the_process 10
                (mkJavaWorld JNI_EDETACHED 50 None []) Examples.people
                (mkScanWorld (mkJavaWorld JNI_EDETACHED Examples.one_batch None [])
                   Examples.two_columns)
                0 (SimpleIteratorFragment.mkState None)) as [Hlistener Hpull].
  split.
  - apply Hlistener. discriminate.
  - apply Hpull. discriminate.
Defined.

Section SinglePass.

Context {H C : Type} `{NativeRecordBatchIterator H C} `{CDataInterface C}.

Import SimpleIteratorFragment.

(** A pull reports the end of the stream only on an attached thread, after
    a [hasNext] that said no, and after nothing else. *)
Lemma itr_Next_end_inv (schema : Schema) (w w' : ScanWorld H C) :
  MakeJavaDatasetScanner_itr_Next schema w = (Normal (Value None), w') ->
  GetEnv (jvm w) = JNI_OK /\ snd (hasNext (host (jvm w))) = false /\
  w' = after_hasNext w.
Proof.
  intros Hpull.
  destruct (Z.eq_dec (GetEnv (jvm w)) JNI_OK) as [Henv | Henv].
  - destruct (snd (hasNext (host (jvm w)))) eqn:Hmore.
    + destruct (memory_address_of (next_bytes w)) as [memory_address | ] eqn:Haddr.
      * rewrite (itr_Next_more schema w memory_address Henv Hmore Haddr) in Hpull.
        destruct (ImportRecordBatch _ _ _) as [[[rb | e] c] | ]; discriminate.
      * rewrite (itr_Next_short_array schema w Henv Hmore Haddr) in Hpull.
        discriminate.
    + rewrite (itr_Next_end schema w Henv Hmore) in Hpull.
      split; [assumption | split; [reflexivity | congruence]].
  - rewrite (itr_Next_detached schema w Henv) in Hpull. discriminate.
Qed.

Lemma Generator_end_inv (schema : Schema) (state state' : State)
    (w w' : ScanWorld H C) :
  Generator_call 1 (MakeJavaDatasetScanner_itr_Next schema) state w
    = (Normal (Some AsyncGeneratorEnd, state'), w') ->
  GetEnv (jvm w) = JNI_OK /\ snd (hasNext (host (jvm w))) = false /\
  w' = after_hasNext w.
Proof.
  rewrite Generator_call_once.
  destruct (MakeJavaDatasetScanner_itr_Next schema w)
    as [[[[rb|]|e]|what|what|] w0] eqn:Hpull; try discriminate.
  intros Heq. apply itr_Next_end_inv in Hpull as (Henv & Hmore & ->).
  split; [assumption | split; [assumption | congruence]].
Qed.

(** As long as [hasNext] says no, the calls of the generator on attached
    threads report the end. *)
Lemma Generator_calls_end (schema : Schema) (n : nat) :
  (forall h : H, snd (hasNext h) = false -> snd (hasNext (fst (hasNext h))) = false) ->
  forall (state : State) (w : ScanWorld H C),
    snd (hasNext (host (jvm w))) = false ->
    Generator_calls n JNI_OK schema state w
      = replicate n (Normal (Some AsyncGeneratorEnd)).
Proof.
  intros Hlatch. induction n as [ | n IH]; intros state w Hmore; [reflexivity | ].
  cbn [Generator_calls replicate].
  rewrite Generator_call_once.
  rewrite itr_Next_end by (cbn; auto).
  f_equal. apply IH. cbn. now apply Hlatch.
Qed.

End SinglePass.

Section SinglePassAdaptor.

Context {I : Type} `{TaggedRecordBatchIterator I}.

(** The adaptor hands on what its iterator answers. *)
Lemma Next_forwards (self : DisposableScannerAdaptor.t I) :
  DisposableScannerAdaptor.Next self =
  (match fst (batch_itr_Next (DisposableScannerAdaptor.batch_itr_ self)) with
   | Value batch => Value (record_batch batch)
   | Failure e => Failure e
   end,
   DisposableScannerAdaptor.mk (DisposableScannerAdaptor.scanner_ self)
     (snd (batch_itr_Next (DisposableScannerAdaptor.batch_itr_ self)))).
Proof.
  unfold DisposableScannerAdaptor.Next, DisposableScannerAdaptor.NextBatch.
  destruct (batch_itr_Next _) as [[batch | e] itr]; reflexivity.
Qed.

Lemma Next_calls_end (n : nat) :
  (forall itr : I, at_end itr -> at_end (snd (batch_itr_Next itr))) ->
  forall self : DisposableScannerAdaptor.t I,
    at_end (DisposableScannerAdaptor.batch_itr_ self) ->
    Next_calls n self = replicate n (Value None).
Proof.
  intros Hlatch. induction n as [ | n IH]; intros self Hend; [reflexivity | ].
  cbn [Next_calls replicate]. rewrite Next_forwards.
  pose proof Hend as (t & Ht & Hnone). rewrite Ht, Hnone.
  f_equal. apply IH. cbn. now apply Hlatch.
Qed.

End SinglePassAdaptor.

(** C4, as the code has it.  Neither the scanner adaptor nor the generator
    remembers that the end was reached: every pull asks the source again.
    So the end is reported again as long as the source reports it again.
    For a batch iterator that stays at its end once it is there, every [Next]
    of the adaptor after one that reported the end reports the end.  For a
    Java iterator whose [hasNext] keeps saying no once it said no, every call
    of the generator, made on an attached thread, after one that reported the
    end reports the end. *)
Theorem end_of_stream_lasts_while_the_source_stays_exhausted
    {I H C : Type} `{TaggedRecordBatchIterator I} `{NativeRecordBatchIterator H C}
    `{CDataInterface C} :
  ((forall itr : I, at_end itr -> at_end (snd (batch_itr_Next itr))) ->
   forall (self self' : DisposableScannerAdaptor.t I),
     DisposableScannerAdaptor.Next self = (Value None, self') ->
     forall n : nat, Next_calls n self' = replicate n (Value None)) /\
  ((forall h : H, snd (hasNext h) = false -> snd (hasNext (fst (hasNext h))) = false) ->
   forall (schema : Schema) (state state' : SimpleIteratorFragment.State)
          (w w' : ScanWorld H C),
     SimpleIteratorFragment.Generator_call 1
       (MakeJavaDatasetScanner_itr_Next schema) state w
       = (Normal (Some SimpleIteratorFragment.AsyncGeneratorEnd, state'), w') ->
     forall n : nat,
       Generator_calls n JNI_OK schema state' w'
         = replicate n (Normal (Some SimpleIteratorFragment.AsyncGeneratorEnd))).
Proof.
  split.
  - intros Hlatch self self' Hnext n.
    rewrite Next_forwards in Hnext.
    apply Next_calls_end; [assumption | ].
    injection Hnext as Hfirst Hself. subst self'. cbn.
    apply Hlatch.
    destruct (fst (batch_itr_Next (DisposableScannerAdaptor.batch_itr_ self)))
      as [t | e] eqn:Ht; [ | discriminate].
    exists t. split; [assumption | congruence].
  - intros Hlatch schema state state' w w' Hcall n.
    apply Generator_end_inv in Hcall as (Henv & Hmore & ->).
    apply Generator_calls_end; [assumption | ].
    cbn. now apply Hlatch.
Qed.

(** An adaptor whose batches are used up, and a Java iterator with no batch
    left: three more pulls on each report the end three times. *)
Lemma end_of_stream_lasts_while_the_source_stays_exhausted_witness :
  let scanner := mkScanner (mkScanOptions Examples.people Examples.people None None) in
  Next_calls 3 (DisposableScannerAdaptor.mk scanner ([] : list RecordBatch))
    = [Value None; Value None; Value None] /\
  Generator_calls 3 JNI_OK Examples.people (SimpleIteratorFragment.mkState None)
    (after_hasNext
       (mkScanWorld (mkJavaWorld JNI_OK 0%nat None []) Examples.two_columns))
    = [Normal (Some SimpleIteratorFragment.AsyncGeneratorEnd);
       Normal (Some SimpleIteratorFragment.AsyncGeneratorEnd);
       Normal (Some SimpleIteratorFragment.AsyncGeneratorEnd)].
Proof.
  cbv zeta.
  pose proof (@end_of_stream_lasts_while_the_source_stays_exhausted
                (list RecordBatch) nat (Z * list Array) _ _ _) as [Hadaptor Hgenerator].
  split.
  - apply (Hadaptor
             ltac:(intros [ | b rest] (t & Ht & Hnone);
                   [exists Examples.end_of_batches; split; reflexivity
                   | cbn in Ht; injection Ht as <-; discriminate])
             (DisposableScannerAdaptor.mk
                (mkScanner (mkScanOptions Examples.people Examples.people None None))
                [])
             _ eq_refl 3%nat).
  - apply (Hgenerator
             ltac:(intros h Hno; exact Hno)
             Examples.people (SimpleIteratorFragment.mkState None) _
             (mkScanWorld (mkJavaWorld JNI_OK 0%nat None []) Examples.two_columns)
             _ eq_refl 3%nat).
Defined.

(** C4, as it is stated, fails for the generator.  A Java iterator answers
    the first [hasNext] with no and the second with yes: the first call of
    the generator reports the end of the stream, and the second call delivers
    a batch. *)
Lemma generator_resumes_after_end :
  Generator_calls 2 JNI_OK Examples.people (SimpleIteratorFragment.mkState None)
    (mkScanWorld (Examples.attached_thread Examples.late_batch) Examples.two_columns)
  = [Normal (Some SimpleIteratorFragment.AsyncGeneratorEnd);
     Normal (Some (SimpleIteratorFragment.MakeFinished
                     (mkRecordBatch Examples.people 2 (columns Examples.sliced))))].
Proof. vm_compute. reflexivity. Qed.

(** ** Export of a batch *)

Lemma Concatenate_one (array : Array) :
  Concatenate [array] = Value (compacted array).
Proof.
  unfold Concatenate, compacted. cbn.
  now rewrite app_nil_r, Z.add_0_r.
Qed.

Lemma logical_compacted (array : Array) :
  logical (compacted array) = logical array.
Proof.
  unfold compacted, logical. cbn [array_data array_offset array_length].
  change (Z.to_nat 0) with 0%nat. rewrite drop_0, take_take. f_equal. lia.
Qed.

(** The loop over the columns always runs through, and leaves the world as it
    is. *)
Lemma offset_zeroed_arrays_spec {W} (columns : list Array) (w : W) :
  offset_zeroed_arrays columns w = (Normal (map offset_zeroed columns), w).
Proof.
  induction columns as [ | array rest IH]; [reflexivity | ].
  cbn [offset_zeroed_arrays map]. unfold offset_zeroed at 1.
  destruct (array_offset array =? 0).
  - unfold bind. rewrite IH. reflexivity.
  - rewrite Concatenate_one. unfold bind. cbn. rewrite IH. reflexivity.
Qed.

Lemma offset_zeroed_batch_spec {W} (record_batch : RecordBatch) (w : W) :
  offset_zeroed_batch record_batch w =
  (Normal (mkRecordBatch (schema record_batch) (num_rows record_batch)
             (map offset_zeroed (columns record_batch))), w).
Proof.
  unfold offset_zeroed_batch, bind. rewrite offset_zeroed_arrays_spec. reflexivity.
Qed.

(** What [offset_zeroed] does to one column. *)
Lemma offset_zeroed_column (array : Array) :
  normalized array (offset_zeroed array).
Proof.
  unfold normalized, offset_zeroed. split.
  - intros Hzero. rewrite Hzero. reflexivity.
  - intros Hoffset.
    destruct (Z.eqb_spec (array_offset array) 0) as [Hzero | _]; [contradiction | ].
    split; [reflexivity | ]. split; [reflexivity | apply logical_compacted].
Qed.

Section ExportedBatch.

Context {I C : Type} `{TaggedRecordBatchIterator I} `{CDataInterface C}.

(** C1.  When [nextRecordBatch] returns a batch (it answers [true] and
    raises nothing), the struct the caller passed holds the export of a
    batch with the schema and the row count of the batch that the scanner
    produced, and column by column: a column at offset 0 is the array of
    the scanner itself; a column at another offset is an array at offset 0
    of the same length whose slots are the slots of the logical view of the
    scanner's array. *)
Theorem nextRecordBatch_exports_offset_zeroed
    (scanner_id struct_array : Z) (w w' : NativeWorld I C) :
  Java_org_apache_arrow_dataset_jni_JniWrapper_nextRecordBatch
    scanner_id struct_array w = (Normal (mkJavaReturn true None), w') ->
  exists (record_batch exported : RecordBatch) (c : C),
    fst (adaptor_Next scanner_id w) = Normal (Value (Some record_batch)) /\
    ExportArray exported = Value c /\
    structs w' !! struct_array = Some (mkArrowArray c false) /\
    schema exported = schema record_batch /\
    num_rows exported = num_rows record_batch /\
    Forall2 normalized (columns record_batch) (columns exported).
Proof.
  unfold Java_org_apache_arrow_dataset_jni_JniWrapper_nextRecordBatch,
    JNI_METHOD.
  unfold bind at 1.
  destruct (adaptor_Next scanner_id w) as [[[[record_batch | ] | e] | what | what | ] w1];
    cbn; try discriminate.
  unfold bind at 1. rewrite offset_zeroed_batch_spec.
  unfold bind, get, put, ExportRecordBatch.
  set (exported := mkRecordBatch _ _ _).
  destruct (ExportArray exported) as [c | e] eqn:Hexport; cbn; [ | discriminate].
  intros Heq. injection Heq as <-.
  exists record_batch, exported, c. cbn.
  split; [reflexivity | ]. split; [assumption | ].
  split; [apply lookup_insert_eq | ]. split; [reflexivity | ].
  split; [reflexivity | ].
  apply Forall2_fmap_r, Forall_Forall2_diag, Forall_forall.
  intros array _. apply offset_zeroed_column.
Qed.

End ExportedBatch.

(** The scanner behind handle 2 has the batch [sliced] to give, whose first
    column lies three slots into its buffer.  The struct at 4096 receives the
    two rows with both columns at offset 0: the slots 13 and 14 of the first,
    and the second as it was. *)
Lemma nextRecordBatch_exports_offset_zeroed_witness :
  let w : NativeWorld (list RecordBatch) (Z * list Array) :=
    mkNativeWorld
      {[ 2 := a_DisposableScannerAdaptor
                (DisposableScannerAdaptor.mk
                   (mkScanner (mkScanOptions Examples.people Examples.people None None))
                   [Examples.sliced]) ]}
      ∅ in
  let call := Java_org_apache_arrow_dataset_jni_JniWrapper_nextRecordBatch 2 4096 w in
  fst call = Normal (mkJavaReturn true None) /\
  structs (snd call) !! 4096 =
    Some (mkArrowArray
            (2, [mkArray (Examples.ints [13; 14]) 0 2;
                 mkArray [of_string "a"; null; of_string "c"; of_string "d"; null] 0 2])
            false) /\
  exists (record_batch exported : RecordBatch) (c : Z * list Array),
    fst (adaptor_Next 2 w) = Normal (Value (Some record_batch)) /\
    ExportArray exported = Value c /\
    structs (snd call) !! 4096 = Some (mkArrowArray c false) /\
    schema exported = schema record_batch /\
    num_rows exported = num_rows record_batch /\
    Forall2 normalized (columns record_batch) (columns exported).
Proof.
  cbv zeta. split; [reflexivity | ]. split; [reflexivity | ].
  eapply nextRecordBatch_exports_offset_zeroed.
  reflexivity.
Defined.

(** ** Memory pools *)

(** The handle of the default pool: nothing happens. *)
Lemma releaseMemoryPool_default (w : PoolWorld) :
  releaseMemoryPool (default_memory_pool_id w) w = (Normal (mkJavaReturn tt None), w).
Proof.
  unfold Java_org_apache_arrow_dataset_jni_NativeMemoryPool_releaseMemoryPool,
    JNI_METHOD, bind, get.
  rewrite Z.eqb_refl. reflexivity.
Qed.

(** The null handle: nothing happens. *)
Lemma releaseMemoryPool_null (w : PoolWorld) :
  releaseMemoryPool 0 w = (Normal (mkJavaReturn tt None), w).
Proof.
  unfold Java_org_apache_arrow_dataset_jni_NativeMemoryPool_releaseMemoryPool,
    JNI_METHOD, bind, get.
  destruct (0 =? default_memory_pool_id w); reflexivity.
Qed.

(** Any other handle is taken for the address of a listenable pool. *)
Lemma releaseMemoryPool_other (memory_pool_id : Z) (w : PoolWorld) :
  memory_pool_id ≠ default_memory_pool_id w ->
  memory_pool_id ≠ 0 ->
  releaseMemoryPool memory_pool_id w =
  match pools w !! memory_pool_id with
  | None => (Undefined, w)
  | Some (mkPool another_listener) =>
      (Normal (mkJavaReturn tt None),
       mkPoolWorld (default_memory_pool_id w) (delete memory_pool_id (pools w))
         (global_refs w) (deleted_refs w) (GetJavaVM w))
  | Some (mkPool (a_ReserveFromJava ref)) =>
      (Normal (mkJavaReturn tt None),
       mkPoolWorld (default_memory_pool_id w) (delete memory_pool_id (pools w))
         (delete ref (global_refs w)) (ref :: deleted_refs w) (GetJavaVM w))
  end.
Proof.
  intros Hdefault Hnull.
  unfold Java_org_apache_arrow_dataset_jni_NativeMemoryPool_releaseMemoryPool,
    JNI_METHOD, bind, get, deref_get_listener, delete_pool.
  destruct (Z.eqb_spec memory_pool_id (default_memory_pool_id w)); [contradiction | ].
  destruct (Z.eqb_spec memory_pool_id 0); [contradiction | ].
  destruct (pools w !! memory_pool_id) as [[[ref | ]] | ] eqn:Hpool; cbn;
    rewrite ?Hpool; reflexivity.
Qed.

(** What a successful [createListenableMemoryPool] leaves behind: a new global
    reference to the listener, and a new pool that holds it, at an address
    that is neither null nor that of the default pool. *)
Lemma createListenableMemoryPool_ok (jlistener id : Z) (w w1 : PoolWorld) :
  createListenableMemoryPool jlistener w = (Normal (mkJavaReturn id None), w1) ->
  exists ref : Z,
    global_refs w !! ref = None /\
    id ≠ 0 /\ id ≠ default_memory_pool_id w /\ pools w !! id = None /\
    w1 = mkPoolWorld (default_memory_pool_id w)
           (<[id := mkPool (a_ReserveFromJava ref)]> (pools w))
           (<[ref := jlistener]> (global_refs w)) (deleted_refs w) (GetJavaVM w).
Proof.
  unfold Java_org_apache_arrow_dataset_jni_NativeMemoryPool_createListenableMemoryPool,
    JNI_METHOD, bind, get, NewGlobalRef, new_ReservationListenableMemoryPool.
  cbn.
  destruct (GetJavaVM w =? JNI_OK); cbn; [ | discriminate].
  set (ref := fresh (dom (global_refs w) ∪ {[0]})).
  set (address := fresh (dom (pools w) ∪ {[0; default_memory_pool_id w]})).
  intros Heq. injection Heq as <- <-.
  pose proof (is_fresh (dom (global_refs w) ∪ {[0]})) as Href.
  pose proof (is_fresh (dom (pools w) ∪ {[0; default_memory_pool_id w]})) as Haddress.
  fold ref in Href. fold address in Haddress.
  exists ref. repeat split.
  - apply not_elem_of_dom. set_solver.
  - set_solver.
  - set_solver.
  - apply not_elem_of_dom. set_solver.
Qed.

(** C9.  Called with the handle of the default pool, [releaseMemoryPool]
    returns at once and leaves everything as it is.  A call that returns
    changes the pools only by destroying the live listenable pool behind the
    handle, which is not the default pool.  And for a pool made by
    [createListenableMemoryPool], the release destroys the pool and deletes
    the global reference to its listener: [DeleteGlobalRef] is called once,
    on that reference. *)
Theorem releaseMemoryPool_destroys_only_listenable_pools (w : PoolWorld) :
  releaseMemoryPool (default_memory_pool_id w) w = (Normal (mkJavaReturn tt None), w) /\
  (forall (memory_pool_id : Z) (r : JavaReturn unit) (w' : PoolWorld),
     releaseMemoryPool memory_pool_id w = (Normal r, w') ->
     w' = w \/
     (memory_pool_id ≠ default_memory_pool_id w /\
      is_Some (pools w !! memory_pool_id) /\
      pools w' = delete memory_pool_id (pools w))) /\
  (forall (jlistener id : Z) (w1 : PoolWorld),
     createListenableMemoryPool jlistener w = (Normal (mkJavaReturn id None), w1) ->
     exists ref : Z,
       global_refs w1 !! ref = Some jlistener /\
       pools w1 !! id = Some (mkPool (a_ReserveFromJava ref)) /\
       releaseMemoryPool id w1 =
       (Normal (mkJavaReturn tt None),
        mkPoolWorld (default_memory_pool_id w1) (delete id (pools w1))
          (delete ref (global_refs w1)) (ref :: deleted_refs w1) (GetJavaVM w1))).
Proof.
  split; [apply releaseMemoryPool_default | ]. split.
  - intros memory_pool_id r w' Hrelease.
    destruct (Z.eq_dec memory_pool_id (default_memory_pool_id w)) as [-> | Hdefault].
    { rewrite releaseMemoryPool_default in Hrelease. left. congruence. }
    destruct (Z.eq_dec memory_pool_id 0) as [-> | Hnull].
    { rewrite releaseMemoryPool_null in Hrelease. left. congruence. }
    rewrite (releaseMemoryPool_other _ _ Hdefault Hnull) in Hrelease.
    right. split; [assumption | ].
    destruct (pools w !! memory_pool_id) as [[[ref | ]] | ]; [ | | discriminate];
      injection Hrelease as _ <-; (split; [eexists; reflexivity | reflexivity]).
  - intros jlistener id w1 Hcreate.
    apply createListenableMemoryPool_ok in Hcreate
      as (ref & Hfresh & Hnull & Hdefault & Hfree & ->).
    exists ref. cbn [global_refs pools default_memory_pool_id deleted_refs GetJavaVM].
    split; [apply lookup_insert_eq | ]. split; [apply lookup_insert_eq | ].
    rewrite releaseMemoryPool_other by assumption.
    cbn [global_refs pools default_memory_pool_id deleted_refs GetJavaVM].
    rewrite lookup_insert_eq. reflexivity.
Qed.

(** A pool for the Java listener 7, made and released again: reference 1 is
    created and deleted, the pool at 8193 comes and goes, and the default
    pool at 8192 is not touched. *)
Lemma releaseMemoryPool_destroys_only_listenable_pools_witness :
  let w1 := snd (createListenableMemoryPool 7 Examples.loaded) in
  fst (createListenableMemoryPool 7 Examples.loaded) = Normal (mkJavaReturn 8193 None) /\
  exists ref : Z,
    global_refs w1 !! ref = Some 7 /\
    pools w1 !! 8193 = Some (mkPool (a_ReserveFromJava ref)) /\
    releaseMemoryPool 8193 w1 =
    (Normal (mkJavaReturn tt None),
     mkPoolWorld (default_memory_pool_id w1) (delete 8193 (pools w1))
       (delete ref (global_refs w1)) (ref :: deleted_refs w1) (GetJavaVM w1)).
Proof.
  cbv zeta. split; [reflexivity | ].
  apply (proj2 (proj2 (releaseMemoryPool_destroys_only_listenable_pools Examples.loaded))
           7 8193 (snd (createListenableMemoryPool 7 Examples.loaded))).
  reflexivity.
Defined.

(** C3, as the code has it.  Releasing is a no-op, and so however often it is
    repeated, for the handle of the default pool and for the null handle.
    For any other handle the first release that returns has destroyed the
    pool, and nothing records that: a second release of the same handle
    takes the handle for a live pool again and uses the destroyed object,
    which has no defined behaviour. *)
Theorem releaseMemoryPool_twice (memory_pool_id : Z) (w : PoolWorld) :
  (memory_pool_id = default_memory_pool_id w \/ memory_pool_id = 0 ->
   releaseMemoryPool memory_pool_id w = (Normal (mkJavaReturn tt None), w) /\
   releaseMemoryPool memory_pool_id (snd (releaseMemoryPool memory_pool_id w))
     = (Normal (mkJavaReturn tt None), w)) /\
  (memory_pool_id ≠ default_memory_pool_id w -> memory_pool_id ≠ 0 ->
   forall (r : JavaReturn unit) (w' : PoolWorld),
     releaseMemoryPool memory_pool_id w = (Normal r, w') ->
     releaseMemoryPool memory_pool_id w' = (Undefined, w')).
Proof.
  split.
  - intros [-> | ->].
    + split; [apply releaseMemoryPool_default | ].
      rewrite (releaseMemoryPool_default w) at 1. apply releaseMemoryPool_default.
    + split; [apply releaseMemoryPool_null | ].
      rewrite (releaseMemoryPool_null w) at 1. apply releaseMemoryPool_null.
  - intros Hdefault Hnull r w' Hrelease.
    rewrite (releaseMemoryPool_other _ _ Hdefault Hnull) in Hrelease.
    destruct (pools w !! memory_pool_id) as [[[ref | ]] | ]; [ | | discriminate];
      injection Hrelease as _ <-;
      (rewrite releaseMemoryPool_other by assumption); cbn;
      rewrite lookup_delete_eq; reflexivity.
Qed.

(** The default pool at 8192 released twice, and the pool at 8193 released
    twice. *)
Lemma releaseMemoryPool_twice_witness :
  let w1 := snd (createListenableMemoryPool 7 Examples.loaded) in
  let w2 := snd (releaseMemoryPool 8193 w1) in
  releaseMemoryPool 8192 (snd (releaseMemoryPool 8192 w1))
    = (Normal (mkJavaReturn tt None), w1) /\
  releaseMemoryPool 8193 w2 = (Undefined, w2).
Proof.
  cbv zeta. split.
  - apply (proj1 (releaseMemoryPool_twice 8192
                    (snd (createListenableMemoryPool 7 Examples.loaded)))).
    left. reflexivity.
  - apply (proj2 (releaseMemoryPool_twice 8193
                    (snd (createListenableMemoryPool 7 Examples.loaded)))
             ltac:(discriminate) ltac:(discriminate) (mkJavaReturn tt None)).
    reflexivity.
Defined.

(** C3, as it is stated, fails.  The pool at 8193 is created and released;
    the second release of the handle 8193 is not a call that returns and
    changes nothing: it has no defined behaviour. *)
Lemma second_release_is_not_a_noop :
  let w1 := snd (createListenableMemoryPool 7 Examples.loaded) in
  let w2 := snd (releaseMemoryPool 8193 w1) in
  fst (createListenableMemoryPool 7 Examples.loaded) = Normal (mkJavaReturn 8193 None) /\
  fst (releaseMemoryPool 8193 w1) = Normal (mkJavaReturn tt None) /\
  fst (releaseMemoryPool 8193 w2) = Undefined /\
  releaseMemoryPool 8193 w2 ≠ (Normal (mkJavaReturn tt None), w2).
Proof.
  cbv zeta. split; [reflexivity | ]. split; [reflexivity | ].
  split; [reflexivity | ].
  intros Heq. apply (f_equal fst) in Heq. vm_compute in Heq. discriminate.
Qed.

(** ** The projection of a scanner *)

Section Projection.

Context {I C : Type} `{TaggedRecordBatchIterator I}.

(** The builder as it stands when [createScanner] calls [Finish]. *)
Lemma createScanner_ok (dataset_id : Z) (columns : option (list string))
    (batch_size memory_pool_id id : Z) (w w' : NativeWorld I C) :
  Java_org_apache_arrow_dataset_jni_JniWrapper_createScanner
    dataset_id columns batch_size memory_pool_id w
    = (Normal (mkJavaReturn id None), w') ->
  exists (d : Dataset) (itr : I),
    refs w !! dataset_id = Some (a_Dataset d) /\
    ScanBatches (scanner_of (Dataset_schema d) columns batch_size memory_pool_id)
      = Value itr /\
    w' = mkNativeWorld
           (<[id := a_DisposableScannerAdaptor
                      (DisposableScannerAdaptor.mk
                         (scanner_of (Dataset_schema d) columns batch_size
                            memory_pool_id) itr)]> (refs w))
           (structs w).
Proof.
  unfold Java_org_apache_arrow_dataset_jni_JniWrapper_createScanner, JNI_METHOD,
    bind, RetrieveNativeInstance, as_Dataset, builder_step, JniThrow,
    ThrowPendingException, ret, undefined.
  destruct (memory_pool_id =? 0); [discriminate | ].
  destruct (refs w !! dataset_id) as [[f | d | a | ] | ] eqn:Hdataset;
    try discriminate.
  unfold ScannerBuilder_Project, ScannerBuilder_BatchSize,
    DisposableScannerAdaptor.Create, scanner_of, CreateNativeRef.
  cbn.
  destruct columns as [column_vector | ]; cbn.
  - destruct (find _ column_vector); cbn; [discriminate | ].
    destruct (batch_size <=? 0); cbn; [discriminate | ].
    destruct (ScanBatches _) as [itr | e] eqn:Hscan; cbn; [ | discriminate].
    intros Heq. injection Heq as <- <-.
    exists d, itr. split; [reflexivity | ]. split; [exact Hscan | reflexivity].
  - destruct (batch_size <=? 0); cbn; [discriminate | ].
    destruct (ScanBatches _) as [itr | e] eqn:Hscan; cbn; [ | discriminate].
    intros Heq. injection Heq as <- <-.
    exists d, itr. split; [reflexivity | ]. split; [exact Hscan | reflexivity].
Qed.

(** C10.  When [createScanner] returns a scanner, the builder was finished
    with exactly the columns that were passed: none when the array was
    null.  With a null array the projected schema of the scanner, which
    [getSchemaFromScanner] reads, is the schema of the dataset; with a list
    of columns it is the fields of these columns. *)
Theorem createScanner_projects_only_given_columns
    (dataset_id : Z) (columns : option (list string))
    (batch_size memory_pool_id id : Z) (w w' : NativeWorld I C) :
  Java_org_apache_arrow_dataset_jni_JniWrapper_createScanner
    dataset_id columns batch_size memory_pool_id w
    = (Normal (mkJavaReturn id None), w') ->
  exists (d : Dataset) (itr : I) (scanner : Scanner),
    refs w !! dataset_id = Some (a_Dataset d) /\
    ScannerBuilder_Finish
      (mkScannerBuilder (Dataset_schema d) columns (Some batch_size)
         (Some memory_pool_id)) = Value scanner /\
    refs w' !! id
      = Some (a_DisposableScannerAdaptor (DisposableScannerAdaptor.mk scanner itr)) /\
    projected_schema (options scanner) =
      match columns with
      | None => Dataset_schema d
      | Some column_vector => SchemaFromColumnNames (Dataset_schema d) column_vector
      end /\
    Java_org_apache_arrow_dataset_jni_JniWrapper_getSchemaFromScanner id w'
      = (Normal (mkJavaReturn (Some (projected_schema (options scanner))) None), w').
Proof.
  intros Hcreate.
  apply createScanner_ok in Hcreate as (d & itr & Hdataset & Hscan & ->).
  exists d, itr, (scanner_of (Dataset_schema d) columns batch_size memory_pool_id).
  split; [assumption | ]. split; [reflexivity | ].
  split; [apply lookup_insert_eq | ]. split; [reflexivity | ].
  unfold Java_org_apache_arrow_dataset_jni_JniWrapper_getSchemaFromScanner,
    JNI_METHOD, bind, RetrieveNativeInstance.
  cbn. rewrite lookup_insert_eq. reflexivity.
Qed.

End Projection.

(** A scanner over the dataset behind handle 1, made without columns and made
    with the column [name]: the first projects the two fields of the dataset,
    the second the field [name] alone. *)
Lemma createScanner_projects_only_given_columns_witness :
  let all := Java_org_apache_arrow_dataset_jni_JniWrapper_createScanner
               1 None 100 8192 Examples.one_dataset in
  let some := Java_org_apache_arrow_dataset_jni_JniWrapper_createScanner
                1 (Some ["name"]) 100 8192 Examples.one_dataset in
  fst all = Normal (mkJavaReturn 2 None) /\
  fst (Java_org_apache_arrow_dataset_jni_JniWrapper_getSchemaFromScanner 2 (snd all))
    = Normal (mkJavaReturn (Some Examples.people) None) /\
  fst (Java_org_apache_arrow_dataset_jni_JniWrapper_getSchemaFromScanner 2 (snd some))
    = Normal (mkJavaReturn (Some [Examples.name_field]) None) /\
  exists (d : Dataset) (itr : list RecordBatch) (scanner : Scanner),
    refs Examples.one_dataset !! 1 = Some (a_Dataset d) /\
    ScannerBuilder_Finish
      (mkScannerBuilder (Dataset_schema d) None (Some 100) (Some 8192)) = Value scanner /\
    refs (snd all) !! 2
      = Some (a_DisposableScannerAdaptor (DisposableScannerAdaptor.mk scanner itr)) /\
    projected_schema (options scanner) = Dataset_schema d /\
    Java_org_apache_arrow_dataset_jni_JniWrapper_getSchemaFromScanner 2 (snd all)
      = (Normal (mkJavaReturn (Some (projected_schema (options scanner))) None), snd all).
Proof.
  cbv zeta. split; [reflexivity | ]. split; [reflexivity | ]. split; [reflexivity | ].
  apply (createScanner_projects_only_given_columns 1 None 100 8192 2
           Examples.one_dataset).
  reflexivity.
Defined.


(** * Further properties of the bridge *)

(** ** The file functions *)

Section FileFunctions.

Context {F H C I : Type} `{FileCollaborators F H C}.

(** X1.  [makeFileSystemDatasetFactory] has three ways to end.  A format id
    other than 0 raises the exception that names it; a failure of the factory
    of the file system layer is raised with its message; in both cases -1 is
    returned and nothing changes.  Otherwise the factory is registered under
    a handle that was not in use, and the handles in use keep what they stood
    for. *)
Theorem makeFileSystemDatasetFactory_outcomes
    (uri : string) (file_format_id start_offset length : Z)
    (w : NativeWorld I C * F) :
  (file_format_id ≠ 0 ->
   Java_org_apache_arrow_dataset_file_JniWrapper_makeFileSystemDatasetFactory
     uri file_format_id start_offset length w =
   (Normal (mkJavaReturn (-1)
              (Some ("illegal file format id: " +:+ to_string file_format_id))), w)) /\
  (forall e : Error,
     FileSystemDatasetFactory_Make uri start_offset length ParquetFileFormat (snd w)
       = Failure e ->
     Java_org_apache_arrow_dataset_file_JniWrapper_makeFileSystemDatasetFactory
       uri 0 start_offset length w =
     (Normal (mkJavaReturn (-1) (Some (message e))), w)) /\
  (forall d : DatasetFactory,
     FileSystemDatasetFactory_Make uri start_offset length ParquetFileFormat (snd w)
       = Value d ->
     exists (id : Z) (w' : NativeWorld I C),
       Java_org_apache_arrow_dataset_file_JniWrapper_makeFileSystemDatasetFactory
         uri 0 start_offset length w = (Normal (mkJavaReturn id None), (w', snd w)) /\
       id ≠ 0 /\ refs (fst w) !! id = None /\
       refs w' !! id = Some (a_DatasetFactory d) /\
       (forall other : Z, other ≠ id -> refs w' !! other = refs (fst w) !! other) /\
       structs w' = structs (fst w)).
Proof.
  split; [apply makeFileSystemDatasetFactory_illegal | ]. split.
  - intros e Hmake.
    unfold Java_org_apache_arrow_dataset_file_JniWrapper_makeFileSystemDatasetFactory,
      JNI_METHOD, bind.
    cbn. rewrite Hmake. destruct w. reflexivity.
  - intros d Hmake.
    pose proof (is_fresh (dom (refs (fst w)) ∪ {[0]})) as Hfresh.
    eexists. eexists. split; [apply (makeFileSystemDatasetFactory_parquet _ _ _ _ d Hmake) | ].
    cbn. split; [set_solver | ].
    split; [apply not_elem_of_dom; set_solver | ].
    split; [apply lookup_insert_eq | ].
    split; [ | reflexivity].
    intros other Hother. now apply lookup_insert_ne.
Qed.

(** X2.  In [writeFromScannerToFile] a format id that fits 32 bits and is not
    0 is refused under its own name, once the schema message was read: the
    exception names the id, nothing is written and the Java iterator is not
    called. *)
Theorem writeFromScannerToFile_refuses_illegal_id_in_range
    (default_memory_pool : Z) (schema_bytes : list byte) (file_format_id : Z)
    (uri : string) (partition_columns : list string) (max_partitions : Z)
    (base_name_template : string) (w : ScanWorld H C * F) (s : Schema) :
  - 2 ^ 31 <= file_format_id < 2 ^ 31 ->
  file_format_id ≠ 0 ->
  FromSchemaByteArray schema_bytes = Value s ->
  Java_org_apache_arrow_dataset_file_JniWrapper_writeFromScannerToFile
    JNI_OK default_memory_pool schema_bytes file_format_id uri partition_columns
    max_partitions base_name_template w =
  (Normal (mkJavaReturn tt
             (Some ("illegal file format id: " +:+ to_string file_format_id))),
   w).
Proof.
  intros Hrange Hid Hschema.
  rewrite (writeFromScannerToFile_illegal default_memory_pool schema_bytes
             file_format_id uri partition_columns max_partitions base_name_template
             w s Hschema)
    by (rewrite jint_of_jlong_in_range; assumption).
  now rewrite jint_of_jlong_in_range.
Qed.

(** X3.  [writeFromScannerToFile] changes the world through the dataset writer
    and through nothing else.  Either the world is as it was, or the writer
    ran, and then the Java VM was there, the schema message was read, the
    converted format id was 0, the uri was resolved, and the options the
    writer got are the Parquet options with the base directory of the uri,
    the template passed in, and the partition columns taken from the
    schema. *)
Theorem writeFromScannerToFile_writes_through_the_writer
    (get_java_vm default_memory_pool : Z) (schema_bytes : list byte)
    (file_format_id : Z) (uri : string) (partition_columns : list string)
    (max_partitions : Z) (base_name_template : string) (w : ScanWorld H C * F) :
  let after :=
    snd (Java_org_apache_arrow_dataset_file_JniWrapper_writeFromScannerToFile
           get_java_vm default_memory_pool schema_bytes file_format_id uri
           partition_columns max_partitions base_name_template w) in
  after = w \/
  exists (s : Schema) (scanner : Scanner) (fs output_path : string),
    get_java_vm = JNI_OK /\
    FromSchemaByteArray schema_bytes = Value s /\
    MakeJavaDatasetScanner s default_memory_pool = Value scanner /\
    jint_of_jlong file_format_id = 0 /\
    FileSystemFromUri uri (snd w) = Value (fs, output_path) /\
    after =
    snd (FileSystemDataset_Write
           (mkWriteOptions ParquetFileFormat fs output_path base_name_template
              (SchemaFromColumnNames s partition_columns) max_partitions)
           scanner w).
Proof.
  cbv zeta.
  unfold Java_org_apache_arrow_dataset_file_JniWrapper_writeFromScannerToFile,
    JNI_METHOD, bind, get, put.
  destruct (Z.eqb_spec get_java_vm JNI_OK) as [Hvm | Hvm]; cbn; [ | now left].
  destruct (FromSchemaByteArray schema_bytes) as [s | e] eqn:Hschema; cbn; [ | now left].
  destruct (GetFileFormat (jint_of_jlong file_format_id)) as [format | e] eqn:Hformat;
    cbn; [ | now left].
  destruct (FileSystemFromUri uri (snd w)) as [[fs output_path] | e] eqn:Hfs;
    cbn; [ | now left].
  right. exists s, (mkScanner (mkScanOptions s s None (Some default_memory_pool))),
    fs, output_path.
  assert (jint_of_jlong file_format_id = 0) as Hzero.
  { destruct (Z.eq_dec (jint_of_jlong file_format_id) 0) as [Hz | Hnz]; [assumption | ].
    rewrite (GetFileFormat_illegal _ Hnz) in Hformat. discriminate. }
  destruct format.
  repeat (split; [first [assumption | reflexivity] | ]).
  destruct (FileSystemDataset_Write _ _ w) as [[ | e] w']; reflexivity.
Qed.

End FileFunctions.

(** A factory for the directory that exists, for one that does not, and with
    the format id 3. *)
Lemma makeFileSystemDatasetFactory_outcomes_witness :
  let w := (Scenarios.one_factory, Scenarios.data) in
  Java_org_apache_arrow_dataset_file_JniWrapper_makeFileSystemDatasetFactory
    "file:///data" 3 0 (-1) w
    = (Normal (mkJavaReturn (-1) (Some "illegal file format id: 3")), w) /\
  Java_org_apache_arrow_dataset_file_JniWrapper_makeFileSystemDatasetFactory
    "file:///none" 0 0 (-1) w
    = (Normal (mkJavaReturn (-1) (Some "Path does not exist: file:///none")), w) /\
  exists (id : Z) (w' : NativeWorld (list RecordBatch) (Z * list Array)),
    Java_org_apache_arrow_dataset_file_JniWrapper_makeFileSystemDatasetFactory
      "file:///data" 0 0 (-1) w = (Normal (mkJavaReturn id None), (w', snd w)) /\
    id ≠ 0 /\ refs (fst w) !! id = None /\
    refs w' !! id = Some (a_DatasetFactory Scenarios.people_factory) /\
    (forall other : Z, other ≠ id -> refs w' !! other = refs (fst w) !! other) /\
    structs w' = structs (fst w).
Proof.
  cbv zeta. split; [ | split].
  - apply (proj1 (makeFileSystemDatasetFactory_outcomes "file:///data" 3 0 (-1)
                    (Scenarios.one_factory, Scenarios.data))).
    discriminate.
  - apply (proj1 (proj2 (makeFileSystemDatasetFactory_outcomes "file:///none" 0 0 (-1)
                           (Scenarios.one_factory, Scenarios.data)))
             (mkError IOError "Path does not exist: file:///none")).
    reflexivity.
  - apply (proj2 (proj2 (makeFileSystemDatasetFactory_outcomes "file:///data" 0 0 (-1)
                           (Scenarios.one_factory, Scenarios.data)))
             Scenarios.people_factory).
    reflexivity.
Defined.

(** The format id 7 with a schema message of one byte. *)
Lemma writeFromScannerToFile_refuses_illegal_id_in_range_witness :
  let w := (mkScanWorld (Examples.attached_thread Examples.one_batch)
              Examples.two_columns, Scenarios.data) in
  Java_org_apache_arrow_dataset_file_JniWrapper_writeFromScannerToFile
    JNI_OK 8192 [x01] 7 "file:///data" [] 10 "part-{i}" w
  = (Normal (mkJavaReturn tt (Some "illegal file format id: 7")), w).
Proof.
  cbv zeta.
  apply (writeFromScannerToFile_refuses_illegal_id_in_range 8192 [x01] 7
           "file:///data" [] 10 "part-{i}"
           (mkScanWorld (Examples.attached_thread Examples.one_batch)
              Examples.two_columns, Scenarios.data)
           Examples.people).
  - split; [discriminate | reflexivity].
  - discriminate.
  - reflexivity.
Defined.

(** ** Pools: what is left behind *)

(** X4.  When the Java VM cannot be had, [createListenableMemoryPool] returns
    -1 and raises its exception, and no pool is made.  But the global
    reference to the listener was made before the check and is not deleted:
    it stays behind, and no handle leads to it. *)
Theorem createListenableMemoryPool_without_vm (jlistener : Z) (w : PoolWorld) :
  GetJavaVM w ≠ JNI_OK ->
  exists ref : Z,
    createListenableMemoryPool jlistener w =
    (Normal (mkJavaReturn (-1) (Some "Unable to get JavaVM instance")),
     mkPoolWorld (default_memory_pool_id w) (pools w)
       (<[ref := jlistener]> (global_refs w)) (deleted_refs w) (GetJavaVM w)) /\
    global_refs w !! ref = None.
Proof.
  intros Hvm.
  exists (fresh (dom (global_refs w) ∪ {[0]})). split.
  - unfold Java_org_apache_arrow_dataset_jni_NativeMemoryPool_createListenableMemoryPool,
      JNI_METHOD, bind, get, NewGlobalRef.
    cbn. destruct (Z.eqb_spec (GetJavaVM w) JNI_OK); [contradiction | reflexivity].
  - pose proof (is_fresh (dom (global_refs w) ∪ {[0]})) as Hfresh.
    apply not_elem_of_dom. set_solver.
Qed.

Lemma createListenableMemoryPool_without_vm_witness :
  let w := mkPoolWorld 8192 ∅ ∅ [] JNI_ERR in
  exists ref : Z,
    createListenableMemoryPool 7 w =
    (Normal (mkJavaReturn (-1) (Some "Unable to get JavaVM instance")),
     mkPoolWorld 8192 ∅ (<[ref := 7]> ∅) [] JNI_ERR) /\
    (∅ : gmap Z Z) !! ref = None.
Proof.
  cbv zeta.
  apply (createListenableMemoryPool_without_vm 7 (mkPoolWorld 8192 ∅ ∅ [] JNI_ERR)).
  discriminate.
Defined.

(** X5.  A pool that is created and then released leaves nothing behind: the
    pools and the global references are what they were before the pool was
    created, and the one [DeleteGlobalRef] of the release is for the
    reference the creation made. *)
Theorem create_then_release_restores (jlistener id : Z) (w w1 : PoolWorld) :
  createListenableMemoryPool jlistener w = (Normal (mkJavaReturn id None), w1) ->
  exists (ref : Z) (w2 : PoolWorld),
    releaseMemoryPool id w1 = (Normal (mkJavaReturn tt None), w2) /\
    pools w2 = pools w /\
    global_refs w2 = global_refs w /\
    default_memory_pool_id w2 = default_memory_pool_id w /\
    deleted_refs w2 = ref :: deleted_refs w /\
    global_refs w1 !! ref = Some jlistener.
Proof.
  intros Hcreate.
  apply createListenableMemoryPool_ok in Hcreate
    as (ref & Hfresh & Hnull & Hdefault & Hfree & ->).
  exists ref. eexists. split.
  - rewrite releaseMemoryPool_other by assumption.
    cbn [global_refs pools default_memory_pool_id deleted_refs GetJavaVM].
    rewrite lookup_insert_eq. reflexivity.
  - cbn [global_refs pools default_memory_pool_id deleted_refs GetJavaVM].
    split; [now apply delete_insert_id | ].
    split; [now apply delete_insert_id | ].
    split; [reflexivity | ]. split; [reflexivity | apply lookup_insert_eq].
Qed.

Lemma create_then_release_restores_witness :
  exists (ref : Z) (w2 : PoolWorld),
    releaseMemoryPool 8193 (snd (createListenableMemoryPool 7 Examples.loaded))
      = (Normal (mkJavaReturn tt None), w2) /\
    pools w2 = pools Examples.loaded /\
    global_refs w2 = global_refs Examples.loaded /\
    default_memory_pool_id w2 = default_memory_pool_id Examples.loaded /\
    deleted_refs w2 = ref :: deleted_refs Examples.loaded /\
    global_refs (snd (createListenableMemoryPool 7 Examples.loaded)) !! ref = Some 7.
Proof.
  apply (create_then_release_restores 7 8193 Examples.loaded
           (snd (createListenableMemoryPool 7 Examples.loaded))).
  reflexivity.
Defined.

(** X6.  A release that returns is a local affair.  It raises nothing; the id
    of the default pool and every pool behind another handle are as before;
    and either no global reference is deleted, or the pool held a
    [ReserveFromJava] and the reference of that listener is the one deleted,
    all other references staying. *)
Theorem releaseMemoryPool_is_local
    (memory_pool_id : Z) (r : JavaReturn unit) (w w' : PoolWorld) :
  releaseMemoryPool memory_pool_id w = (Normal r, w') ->
  r = mkJavaReturn tt None /\
  default_memory_pool_id w' = default_memory_pool_id w /\
  (forall other : Z, other ≠ memory_pool_id -> pools w' !! other = pools w !! other) /\
  ((deleted_refs w' = deleted_refs w /\ global_refs w' = global_refs w) \/
   exists ref : Z,
     pools w !! memory_pool_id = Some (mkPool (a_ReserveFromJava ref)) /\
     deleted_refs w' = ref :: deleted_refs w /\
     global_refs w' = delete ref (global_refs w)).
Proof.
  intros Hrelease.
  destruct (Z.eq_dec memory_pool_id (default_memory_pool_id w)) as [-> | Hdefault].
  { rewrite releaseMemoryPool_default in Hrelease.
    injection Hrelease as <- <-. repeat split; auto. }
  destruct (Z.eq_dec memory_pool_id 0) as [-> | Hnull].
  { rewrite releaseMemoryPool_null in Hrelease.
    injection Hrelease as <- <-. repeat split; auto. }
  rewrite (releaseMemoryPool_other _ _ Hdefault Hnull) in Hrelease.
  destruct (pools w !! memory_pool_id) as [[[ref | ]] | ] eqn:Hpool; [ | | discriminate];
    injection Hrelease as <- <-; cbn.
  - split; [reflexivity | ]. split; [reflexivity | ].
    split; [intros other Hother; now apply lookup_delete_ne | ].
    right. exists ref. auto.
  - split; [reflexivity | ]. split; [reflexivity | ].
    split; [intros other Hother; now apply lookup_delete_ne | ].
    left. auto.
Qed.

(** Two pools; the release of the second leaves the first, and deletes the
    reference of the second listener only. *)
Lemma releaseMemoryPool_is_local_witness :
  let w1 := snd (createListenableMemoryPool 7 Examples.loaded) in
  let w2 := snd (createListenableMemoryPool 9 w1) in
  fst (createListenableMemoryPool 9 w1) = Normal (mkJavaReturn 8194 None) /\
  pools (snd (releaseMemoryPool 8194 w2)) !! 8193 = pools w2 !! 8193 /\
  pools w2 !! 8193 = Some (mkPool (a_ReserveFromJava 1)) /\
  deleted_refs (snd (releaseMemoryPool 8194 w2)) = [2].
Proof.
  cbv zeta. split; [reflexivity | ].
  pose proof (releaseMemoryPool_is_local 8194 (mkJavaReturn tt None)
                (snd (createListenableMemoryPool 9
                        (snd (createListenableMemoryPool 7 Examples.loaded))))
                _ eq_refl) as (_ & _ & Hothers & _).
  split; [apply Hothers; discriminate | ]. split; reflexivity.
Defined.

(** X7.  The null handle of a pool is told apart from a pool by every
    function that takes one, but not in one way: [bytesAllocated] and
    [createScanner] raise an exception and return -1, whatever else they were
    given, and [releaseMemoryPool] returns without a word.  None of the three
    changes anything. *)
Theorem null_pool_handle `{PoolCounters} {I C : Type} `{TaggedRecordBatchIterator I}
    (pw : PoolWorld) (dataset_id : Z) (columns : option (list string))
    (batch_size : Z) (nw : NativeWorld I C) :
  Java_org_apache_arrow_dataset_jni_NativeMemoryPool_bytesAllocated 0 pw =
    (Normal (mkJavaReturn (-1)
               (Some "Memory pool instance not found. It may not exist nor has been closed")),
     pw) /\
  Java_org_apache_arrow_dataset_jni_JniWrapper_createScanner
    dataset_id columns batch_size 0 nw =
    (Normal (mkJavaReturn (-1) (Some "Memory pool does not exist or has been closed")),
     nw) /\
  releaseMemoryPool 0 pw = (Normal (mkJavaReturn tt None), pw).
Proof.
  split; [reflexivity | ]. split; [reflexivity | apply releaseMemoryPool_null].
Qed.

(** ** Loading and unloading *)

(** Five references that were inserted one after the other, each one new, and
    are deleted again. *)
Lemma delete_inserted (m : gmap Z Z) (r1 r2 r3 r4 r5 c1 c2 c3 c4 c5 : Z) :
  m !! r1 = None ->
  <[r1:=c1]> m !! r2 = None ->
  <[r2:=c2]> (<[r1:=c1]> m) !! r3 = None ->
  <[r3:=c3]> (<[r2:=c2]> (<[r1:=c1]> m)) !! r4 = None ->
  <[r4:=c4]> (<[r3:=c3]> (<[r2:=c2]> (<[r1:=c1]> m))) !! r5 = None ->
  delete r5 (delete r4 (delete r3 (delete r2 (delete r1
    (<[r5:=c5]> (<[r4:=c4]> (<[r3:=c3]> (<[r2:=c2]> (<[r1:=c1]> m))))))))) = m.
Proof.
  intros F1 F2 F3 F4 F5.
  repeat match goal with
         | F : <[_:=_]> _ !! _ = None |- _ =>
             apply lookup_insert_None in F; destruct F
         end.
  rewrite !(delete_insert_ne _ r1) by congruence.
  rewrite (delete_insert_id m r1) by assumption.
  rewrite !(delete_insert_ne _ r2) by congruence.
  rewrite (delete_insert_id m r2) by assumption.
  rewrite !(delete_insert_ne _ r3) by congruence.
  rewrite (delete_insert_id m r3) by assumption.
  rewrite !(delete_insert_ne _ r4) by congruence.
  rewrite (delete_insert_id m r4) by assumption.
  now rewrite delete_insert_id.
Qed.

Lemma fresh_is_new (m : gmap Z Z) : m !! fresh (dom m ∪ {[0]}) = None.
Proof.
  pose proof (is_fresh (dom m ∪ {[0]})) as Hfresh.
  apply not_elem_of_dom. set_solver.
Qed.

Section Load.

Context `{JavaClasses}.

Lemma CreateGlobalClassReference_step (class_name : string) (g : gmap string Z)
    (d : Z) (p : gmap Z ReservationListenableMemoryPool) (r : gmap Z Z)
    (dl : list Z) (vm env : Z) :
  CreateGlobalClassReference class_name (mkLoadWorld g (mkPoolWorld d p r dl vm) env) =
  (Normal (fresh (dom r ∪ {[0]})),
   mkLoadWorld g (mkPoolWorld d p (with_class class_name r) dl vm) env).
Proof. reflexivity. Qed.

Lemma class_of_with_class (class_name : string) (g : gmap string Z)
    (d : Z) (p : gmap Z ReservationListenableMemoryPool) (r : gmap Z Z)
    (dl : list Z) (vm env : Z) :
  class_of (fresh (dom r ∪ {[0]}))
    (mkLoadWorld g (mkPoolWorld d p (with_class class_name r) dl vm) env)
  = FindClass class_name.
Proof.
  unfold class_of, with_class. cbn [native global_refs].
  now rewrite lookup_insert_eq.
Qed.

Lemma DeleteGlobalRef_of_step (variable : string) (ref : Z) (g : gmap string Z)
    (d : Z) (p : gmap Z ReservationListenableMemoryPool) (r : gmap Z Z)
    (dl : list Z) (vm env : Z) :
  g !! variable = Some ref ->
  DeleteGlobalRef_of variable (mkLoadWorld g (mkPoolWorld d p r dl vm) env) =
  (Normal tt, mkLoadWorld g (mkPoolWorld d p (delete ref r) (ref :: dl) vm) env).
Proof.
  intros Hvariable. unfold DeleteGlobalRef_of. cbn [globals].
  rewrite Hvariable. reflexivity.
Qed.

Ltac load_steps :=
  unfold JNI_METHOD, bind, assign, get, JniGetOrThrow, ThrowPendingException, ret,
    in_native, set_default_memory_pool_id;
  repeat (first [ rewrite CreateGlobalClassReference_step
                | rewrite class_of_with_class
                | match goal with
                  | E : GetMethodID _ _ _ = _ |- _ => rewrite E
                  end ];
          cbv beta iota delta [globals native load_GetEnv default_memory_pool_id
                                 pools global_refs deleted_refs GetJavaVM]).

(** The load on an attached thread when the four methods are found. *)
Lemma JNI_OnLoad_ok (default_memory_pool : Z) (g : gmap string Z)
    (d : Z) (p : gmap Z ReservationListenableMemoryPool) (r : gmap Z Z)
    (dl : list Z) (vm : Z) (m1 m2 m3 m4 : Z) :
  methods_found m1 m2 m3 m4 ->
  exists g' : gmap string Z,
    JNI_OnLoad default_memory_pool (mkLoadWorld g (mkPoolWorld d p r dl vm) JNI_OK) =
    (Normal (mkJavaReturn JNI_VERSION None),
     mkLoadWorld g'
       (mkPoolWorld default_memory_pool p (with_bridge_classes r) dl vm) JNI_OK) /\
    g' !! "reserve_memory_method" = Some m1 /\
    g' !! "unreserve_memory_method" = Some m2 /\
    g' !! "native_record_batch_iterator_hasNext" = Some m3 /\
    g' !! "native_record_batch_iterator_next" = Some m4 /\
    (let r1 := with_class "Ljava/lang/IllegalAccessException;" r in
     let r2 := with_class "Ljava/lang/IllegalArgumentException;" r1 in
     let r3 := with_class "Ljava/lang/RuntimeException;" r2 in
     let r4 := with_class "Lorg/apache/arrow/dataset/jni/ReservationListener;" r3 in
     g' !! "illegal_access_exception_class" = Some (fresh (dom r ∪ {[0]})) /\
     g' !! "illegal_argument_exception_class" = Some (fresh (dom r1 ∪ {[0]})) /\
     g' !! "runtime_exception_class" = Some (fresh (dom r2 ∪ {[0]})) /\
     g' !! "java_reservation_listener_class" = Some (fresh (dom r3 ∪ {[0]})) /\
     g' !! "native_record_batch_iterator_class" = Some (fresh (dom r4 ∪ {[0]}))).
Proof.
  intros (E1 & E2 & E3 & E4).
  eexists. split.
  - unfold JNI_OnLoad. cbn [load_GetEnv].
    change (negb (JNI_OK =? JNI_OK)) with false. cbv iota.
    load_steps. reflexivity.
  - cbv zeta.
    repeat split;
      repeat (rewrite lookup_insert_ne by discriminate); apply lookup_insert_eq.
Qed.

(** The load on an attached thread when one of the methods is missing: the
    failure of the first lookup that fails is raised. *)
Lemma JNI_OnLoad_missing (default_memory_pool : Z) (g : gmap string Z)
    (d : Z) (p : gmap Z ReservationListenableMemoryPool) (r : gmap Z Z)
    (dl : list Z) (vm : Z) :
  (exists m1 m2 m3 m4 : Z, methods_found m1 m2 m3 m4) \/
  exists (e : Error) (g' : gmap string Z) (r' : gmap Z Z),
    first_failure method_lookups = Some e /\
    JNI_OnLoad default_memory_pool (mkLoadWorld g (mkPoolWorld d p r dl vm) JNI_OK) =
    (Normal (mkJavaReturn JNI_ERR (Some (message e))),
     mkLoadWorld g' (mkPoolWorld d p r' dl vm) JNI_OK).
Proof.
  unfold methods_found.
  destruct (GetMethodID (FindClass "Lorg/apache/arrow/dataset/jni/ReservationListener;")
              "reserve" "(J)V") as [m1 | e] eqn:E1;
    [ | right; exists e; eexists; eexists; split;
        [unfold method_lookups; rewrite E1; reflexivity | ];
        unfold JNI_OnLoad; cbn [load_GetEnv];
        change (negb (JNI_OK =? JNI_OK)) with false; cbv iota; load_steps; reflexivity].
  destruct (GetMethodID (FindClass "Lorg/apache/arrow/dataset/jni/ReservationListener;")
              "unreserve" "(J)V") as [m2 | e] eqn:E2;
    [ | right; exists e; eexists; eexists; split;
        [unfold method_lookups; rewrite E1, E2; reflexivity | ];
        unfold JNI_OnLoad; cbn [load_GetEnv];
        change (negb (JNI_OK =? JNI_OK)) with false; cbv iota; load_steps; reflexivity].
  destruct (GetMethodID
              (FindClass "Lorg/apache/arrow/dataset/jni/NativeRecordBatchIterator;")
              "hasNext" "()Z") as [m3 | e] eqn:E3;
    [ | right; exists e; eexists; eexists; split;
        [unfold method_lookups; rewrite E1, E2, E3; reflexivity | ];
        unfold JNI_OnLoad; cbn [load_GetEnv];
        change (negb (JNI_OK =? JNI_OK)) with false; cbv iota; load_steps; reflexivity].
  destruct (GetMethodID
              (FindClass "Lorg/apache/arrow/dataset/jni/NativeRecordBatchIterator;")
              "next" "()[B") as [m4 | e] eqn:E4;
    [ | right; exists e; eexists; eexists; split;
        [unfold method_lookups; rewrite E1, E2, E3, E4; reflexivity | ];
        unfold JNI_OnLoad; cbn [load_GetEnv];
        change (negb (JNI_OK =? JNI_OK)) with false; cbv iota; load_steps; reflexivity].
  left. exists m1, m2, m3, m4. auto.
Qed.

(** When the four methods are found, no lookup fails. *)
Lemma methods_found_no_failure (m1 m2 m3 m4 : Z) :
  methods_found m1 m2 m3 m4 -> first_failure method_lookups = None.
Proof.
  intros (E1 & E2 & E3 & E4). unfold method_lookups.
  now rewrite E1, E2, E3, E4.
Qed.

(** X8.  [JNI_OnLoad] sets the id of the default pool last, and so all or
    nothing.  On a thread that is not attached it returns [JNI_ERR] and does
    nothing.  On an attached thread the four lookups of the methods of the
    two Java interfaces decide.  When all four methods are found, it returns
    the JNI version, the globals hold the ids of the methods, the five
    classes are cached behind new global references, and the id of the
    default pool is the address of the default pool.  When a lookup fails,
    the failure of the first one that does is raised with its message,
    [JNI_ERR] is returned, and the id of the default pool and the pools are
    as they were. *)
Theorem JNI_OnLoad_all_or_nothing (default_memory_pool : Z) (w : LoadWorld) :
  (load_GetEnv w ≠ JNI_OK ->
   JNI_OnLoad default_memory_pool w = (Normal (mkJavaReturn JNI_ERR None), w)) /\
  (load_GetEnv w = JNI_OK ->
   (forall m1 m2 m3 m4 : Z,
      methods_found m1 m2 m3 m4 ->
      exists g' : gmap string Z,
        JNI_OnLoad default_memory_pool w =
        (Normal (mkJavaReturn JNI_VERSION None),
         mkLoadWorld g'
           (mkPoolWorld default_memory_pool (pools (native w))
              (with_bridge_classes (global_refs (native w)))
              (deleted_refs (native w)) (GetJavaVM (native w)))
           JNI_OK) /\
        g' !! "reserve_memory_method" = Some m1 /\
        g' !! "unreserve_memory_method" = Some m2 /\
        g' !! "native_record_batch_iterator_hasNext" = Some m3 /\
        g' !! "native_record_batch_iterator_next" = Some m4) /\
   (forall e : Error,
      first_failure method_lookups = Some e ->
      exists w' : LoadWorld,
        JNI_OnLoad default_memory_pool w =
        (Normal (mkJavaReturn JNI_ERR (Some (message e))), w') /\
        default_memory_pool_id (native w') = default_memory_pool_id (native w) /\
        pools (native w') = pools (native w)) /\
   ((exists m1 m2 m3 m4 : Z, methods_found m1 m2 m3 m4) \/
    (exists e : Error, first_failure method_lookups = Some e))).
Proof.
  split.
  - intros Henv. unfold JNI_OnLoad.
    destruct (Z.eqb_spec (load_GetEnv w) JNI_OK); [contradiction | reflexivity].
  - intros Henv. destruct w as [g [d p r dl vm] env]. cbn in Henv. subst env.
    cbn [native pools global_refs deleted_refs GetJavaVM default_memory_pool_id].
    split; [ | split].
    + intros m1 m2 m3 m4 Hfound.
      destruct (JNI_OnLoad_ok default_memory_pool g d p r dl vm m1 m2 m3 m4 Hfound)
        as (g' & Hload & G1 & G2 & G3 & G4 & _).
      exists g'. auto 10.
    + intros e Hfirst.
      destruct (JNI_OnLoad_missing default_memory_pool g d p r dl vm)
        as [(m1 & m2 & m3 & m4 & Hfound) | (e' & g' & r' & Hfirst' & Hload)].
      * rewrite (methods_found_no_failure m1 m2 m3 m4 Hfound) in Hfirst. discriminate.
      * assert (e' = e) as -> by congruence.
        eexists. split; [exact Hload | split; reflexivity].
    + destruct (JNI_OnLoad_missing default_memory_pool g d p r dl vm)
        as [Hfound | (e' & g' & r' & Hfirst' & Hload)];
        [left; exact Hfound | right; exists e'; exact Hfirst'].
Qed.

(** X9.  Unloading undoes a load that succeeded: the five references to the
    classes are deleted, one [DeleteGlobalRef] each, so that the global
    references are those from before the load; the pools are untouched; and
    the id of the default pool is -1 again. *)
Theorem JNI_OnUnload_after_JNI_OnLoad (default_memory_pool : Z) (w w1 : LoadWorld) :
  JNI_OnLoad default_memory_pool w = (Normal (mkJavaReturn JNI_VERSION None), w1) ->
  exists w2 : LoadWorld,
    JNI_OnUnload w1 = (Normal tt, w2) /\
    global_refs (native w2) = global_refs (native w) /\
    pools (native w2) = pools (native w) /\
    default_memory_pool_id (native w2) = -1 /\
    length (deleted_refs (native w2)) = (5 + length (deleted_refs (native w)))%nat.
Proof.
  intros Hload.
  destruct (Z.eq_dec (load_GetEnv w) JNI_OK) as [Henv | Henv].
  2: { unfold JNI_OnLoad in Hload.
       destruct (Z.eqb_spec (load_GetEnv w) JNI_OK); [contradiction | discriminate]. }
  destruct w as [g [d p r dl vm] env]. cbn in Henv. subst env.
  destruct (JNI_OnLoad_missing default_memory_pool g d p r dl vm)
    as [(m1 & m2 & m3 & m4 & Hfound) | (e & g' & r' & _ & Hfail)].
  2: { rewrite Hfail in Hload. discriminate. }
  destruct (JNI_OnLoad_ok default_memory_pool g d p r dl vm m1 m2 m3 m4 Hfound)
    as (g' & Hok & _ & _ & _ & _ & Hclasses).
  rewrite Hok in Hload. injection Hload as <-.
  cbv zeta in Hclasses. destruct Hclasses as (C1 & C2 & C3 & C4 & C5).
  eexists. split.
  - unfold JNI_OnUnload, bind, get. cbv beta iota delta [load_GetEnv].
    change (negb (JNI_OK =? JNI_OK)) with false. cbv beta iota.
    rewrite (DeleteGlobalRef_of_step _ _ _ _ _ _ _ _ _ C1). cbv beta iota.
    rewrite (DeleteGlobalRef_of_step _ _ _ _ _ _ _ _ _ C2). cbv beta iota.
    rewrite (DeleteGlobalRef_of_step _ _ _ _ _ _ _ _ _ C3). cbv beta iota.
    rewrite (DeleteGlobalRef_of_step _ _ _ _ _ _ _ _ _ C4). cbv beta iota.
    rewrite (DeleteGlobalRef_of_step _ _ _ _ _ _ _ _ _ C5). cbv beta iota.
    reflexivity.
  - cbn [native global_refs pools default_memory_pool_id deleted_refs].
    split; [ | repeat split].
    unfold with_bridge_classes, with_class.
    apply delete_inserted; apply fresh_is_new.
Qed.

End Load.

(** The library loaded on a thread that is not attached, where the classes
    of the bridge are found, and where the iterator has no method [next]. *)
Lemma JNI_OnLoad_all_or_nothing_witness :
  JNI_OnLoad 8192 (mkLoadWorld ∅ (mkPoolWorld (-1) ∅ ∅ [] JNI_OK) JNI_EDETACHED)
    = (Normal (mkJavaReturn JNI_ERR None),
       mkLoadWorld ∅ (mkPoolWorld (-1) ∅ ∅ [] JNI_OK) JNI_EDETACHED) /\
  (fst (JNI_OnLoad 8192 Scenarios.unloaded) = Normal (mkJavaReturn 65542 None) /\
   default_memory_pool_id (native (snd (JNI_OnLoad 8192 Scenarios.unloaded))) = 8192 /\
   globals (snd (JNI_OnLoad 8192 Scenarios.unloaded)) !! "reserve_memory_method"
     = Some 1) /\
  (fst (@JNI_OnLoad Scenarios.without_next 8192 Scenarios.unloaded)
     = Normal (mkJavaReturn (-1) (Some "Unable to find method next")) /\
   default_memory_pool_id
     (native (snd (@JNI_OnLoad Scenarios.without_next 8192 Scenarios.unloaded))) = -1).
Proof.
  split; [ | split].
  - apply (proj1 (JNI_OnLoad_all_or_nothing 8192
                    (mkLoadWorld ∅ (mkPoolWorld (-1) ∅ ∅ [] JNI_OK) JNI_EDETACHED))).
    discriminate.
  - destruct (proj2 (JNI_OnLoad_all_or_nothing 8192 Scenarios.unloaded) eq_refl)
      as (Hfound & _ & _).
    destruct (Hfound 1 2 3 4 ltac:(repeat split)) as (g' & Hload & G1 & _).
    rewrite Hload. cbn [fst snd native globals default_memory_pool_id].
    split; [reflexivity | ]. split; [reflexivity | exact G1].
  - destruct (proj2 (@JNI_OnLoad_all_or_nothing Scenarios.without_next 8192
                       Scenarios.unloaded) eq_refl)
      as (_ & Hmissing & _).
    destruct (Hmissing (mkError Invalid "Unable to find method next") eq_refl)
      as (w' & Hload & Hid & _).
    rewrite Hload. cbn [fst snd]. split; [reflexivity | exact Hid].
Defined.

Lemma JNI_OnUnload_after_JNI_OnLoad_witness :
  exists w2 : LoadWorld,
    JNI_OnUnload (snd (JNI_OnLoad 8192 Scenarios.unloaded)) = (Normal tt, w2) /\
    global_refs (native w2) = global_refs (native Scenarios.unloaded) /\
    pools (native w2) = pools (native Scenarios.unloaded) /\
    default_memory_pool_id (native w2) = -1 /\
    length (deleted_refs (native w2))
      = (5 + length (deleted_refs (native Scenarios.unloaded)))%nat.
Proof.
  apply (JNI_OnUnload_after_JNI_OnLoad 8192 Scenarios.unloaded
           (snd (JNI_OnLoad 8192 Scenarios.unloaded))).
  vm_compute. reflexivity.
Defined.

(** ** Scanners: failures, handles and the struct of the caller *)

(** The pull on the adaptor leaves the structs alone, however it ends. *)
Lemma adaptor_Next_structs {I C : Type} `{TaggedRecordBatchIterator I}
    (scanner_id : Z) (o : Outcome (Result (option RecordBatch)))
    (w w1 : NativeWorld I C) :
  adaptor_Next scanner_id w = (o, w1) -> structs w1 = structs w.
Proof.
  unfold adaptor_Next, bind, RetrieveNativeInstance, as_DisposableScannerAdaptor,
    get, put, ret, undefined.
  destruct (refs w !! scanner_id) as [[f | d | a | ] | ];
    try (intros Heq; injection Heq as _ <-; reflexivity).
  destruct (DisposableScannerAdaptor.Next a) as [r a'].
  intros Heq. injection Heq as _ <-. reflexivity.
Qed.

(** The handle of a new scanner is the one [CreateNativeRef] picks. *)
Lemma createScanner_handle {I C : Type} `{TaggedRecordBatchIterator I}
    (dataset_id : Z) (columns : option (list string))
    (batch_size memory_pool_id id : Z) (w w' : NativeWorld I C) :
  Java_org_apache_arrow_dataset_jni_JniWrapper_createScanner
    dataset_id columns batch_size memory_pool_id w
    = (Normal (mkJavaReturn id None), w') ->
  id = fresh (dom (refs w) ∪ {[0]}).
Proof.
  unfold Java_org_apache_arrow_dataset_jni_JniWrapper_createScanner, JNI_METHOD,
    bind, RetrieveNativeInstance, as_Dataset, builder_step, JniThrow,
    ThrowPendingException, ret, undefined.
  destruct (memory_pool_id =? 0); [discriminate | ].
  destruct (refs w !! dataset_id) as [[f | d | a | ] | ]; try discriminate.
  unfold ScannerBuilder_Project, ScannerBuilder_BatchSize,
    DisposableScannerAdaptor.Create, CreateNativeRef.
  cbn.
  destruct columns as [column_vector | ]; cbn.
  - destruct (find _ column_vector); cbn; [discriminate | ].
    destruct (batch_size <=? 0); cbn; [discriminate | ].
    destruct (ScanBatches _); cbn; [ | discriminate]. congruence.
  - destruct (batch_size <=? 0); cbn; [discriminate | ].
    destruct (ScanBatches _); cbn; [ | discriminate]. congruence.
Qed.

Lemma fresh_handle {A : Type} (m : gmap Z A) :
  fresh (dom m ∪ {[0]}) ≠ 0 /\ m !! fresh (dom m ∪ {[0]}) = None.
Proof.
  pose proof (is_fresh (dom m ∪ {[0]})) as Hfresh.
  split; [set_solver | apply not_elem_of_dom; set_solver].
Qed.

Section Scanners.

Context {I C : Type} `{TaggedRecordBatchIterator I}.

(** X10.  A [createScanner] that raises an exception has changed nothing and
    returns -1: no handle is created for a scanner that could not be built,
    be it for the pool, a column the dataset does not have, the batch size,
    or a scan that does not start. *)
Theorem createScanner_failure_changes_nothing
    (dataset_id : Z) (columns : option (list string))
    (batch_size memory_pool_id : Z) (r : JavaReturn Z) (w w' : NativeWorld I C) :
  Java_org_apache_arrow_dataset_jni_JniWrapper_createScanner
    dataset_id columns batch_size memory_pool_id w = (Normal r, w') ->
  raised r ≠ None ->
  returned r = -1 /\ w' = w.
Proof.
  unfold Java_org_apache_arrow_dataset_jni_JniWrapper_createScanner, JNI_METHOD,
    bind, RetrieveNativeInstance, as_Dataset, builder_step, JniThrow,
    ThrowPendingException, ret, undefined.
  destruct (memory_pool_id =? 0).
  { intros Heq _. injection Heq as <- <-. auto. }
  destruct (refs w !! dataset_id) as [[f | d | a | ] | ]; try discriminate.
  unfold ScannerBuilder_Project, ScannerBuilder_BatchSize,
    DisposableScannerAdaptor.Create, CreateNativeRef.
  cbn.
  destruct columns as [column_vector | ]; cbn.
  - destruct (find _ column_vector); cbn.
    { intros Heq _. injection Heq as <- <-. auto. }
    destruct (batch_size <=? 0); cbn.
    { intros Heq _. injection Heq as <- <-. auto. }
    destruct (ScanBatches _) as [itr | e]; cbn.
    + intros Heq Hraised. injection Heq as <- <-. cbn in Hraised. congruence.
    + intros Heq _. injection Heq as <- <-. auto.
  - destruct (batch_size <=? 0); cbn.
    { intros Heq _. injection Heq as <- <-. auto. }
    destruct (ScanBatches _) as [itr | e]; cbn.
    + intros Heq Hraised. injection Heq as <- <-. cbn in Hraised. congruence.
    + intros Heq _. injection Heq as <- <-. auto.
Qed.

(** X11.  A [createScanner] that succeeds hands out a handle that was not in
    use and is not 0; the handles that were in use stand for what they stood
    for, the dataset included, and no struct is touched.  The scan has been
    started: the adaptor holds the iterator of [ScanBatches]. *)
Theorem createScanner_handle_is_new
    (dataset_id : Z) (columns : option (list string))
    (batch_size memory_pool_id id : Z) (w w' : NativeWorld I C) :
  Java_org_apache_arrow_dataset_jni_JniWrapper_createScanner
    dataset_id columns batch_size memory_pool_id w
    = (Normal (mkJavaReturn id None), w') ->
  id ≠ 0 /\ refs w !! id = None /\
  (forall other : Z, other ≠ id -> refs w' !! other = refs w !! other) /\
  structs w' = structs w /\
  exists (a : DisposableScannerAdaptor.t I),
    refs w' !! id = Some (a_DisposableScannerAdaptor a) /\
    ScanBatches (DisposableScannerAdaptor.GetScanner a)
      = Value (DisposableScannerAdaptor.batch_itr_ a).
Proof.
  intros Hcreate.
  pose proof (createScanner_handle _ _ _ _ _ _ _ Hcreate) as Hid.
  apply createScanner_ok in Hcreate as (d & itr & Hdataset & Hscan & ->).
  destruct (fresh_handle (refs w)) as [Hnull Hnew]. rewrite <- Hid in Hnull, Hnew.
  cbn [refs structs].
  split; [assumption | ]. split; [assumption | ].
  split; [intros other Hother; now apply lookup_insert_ne | ].
  split; [reflexivity | ].
  eexists. split; [apply lookup_insert_eq | exact Hscan].
Qed.

Context `{CDataInterface C}.

(** X12.  [nextRecordBatch] writes to the struct of the caller only when it
    hands a batch over.  Whenever it does not return [true] without an
    exception (at the end of the stream, or when the scan, the compaction or
    the export failed), the structs are what they were; and an exception
    always comes with [false]. *)
Theorem nextRecordBatch_writes_only_with_a_batch
    (scanner_id struct_array : Z) (r : JavaReturn bool) (w w' : NativeWorld I C) :
  Java_org_apache_arrow_dataset_jni_JniWrapper_nextRecordBatch
    scanner_id struct_array w = (Normal r, w') ->
  (r = mkJavaReturn true None \/ structs w' = structs w) /\
  (raised r ≠ None -> returned r = false).
Proof.
  unfold Java_org_apache_arrow_dataset_jni_JniWrapper_nextRecordBatch, JNI_METHOD.
  unfold bind at 1.
  destruct (adaptor_Next scanner_id w)
    as [[[[record_batch | ] | e] | what | what | ] w1] eqn:Hnext;
    cbn; try discriminate.
  - unfold bind at 1. rewrite offset_zeroed_batch_spec.
    unfold bind, get, put, ExportRecordBatch.
    destruct (ExportArray _) as [c | e]; cbn.
    + intros Heq. injection Heq as <- <-. split; [now left | intros Hr; now elim Hr].
    + intros Heq. injection Heq as <- <-. split; [ | reflexivity].
      right. cbn. revert Hnext. apply adaptor_Next_structs.
  - intros Heq. injection Heq as <- <-. split; [ | reflexivity].
    right. revert Hnext. apply adaptor_Next_structs.
  - intros Heq. injection Heq as <- <-. split; [ | reflexivity].
    right. revert Hnext. apply adaptor_Next_structs.
  - intros Heq. injection Heq as <- <-. split; [ | reflexivity].
    right. revert Hnext. apply adaptor_Next_structs.
Qed.

(** X13.  Every [nextRecordBatch] on a live scanner takes exactly one answer
    from the scan, whatever becomes of it: afterwards the handle stands for
    the same scanner with its iterator one step on, and the other handles
    are untouched.  So a batch whose export failed is not offered again. *)
Theorem nextRecordBatch_advances_by_one
    (scanner_id struct_array : Z) (a : DisposableScannerAdaptor.t I)
    (w : NativeWorld I C) :
  refs w !! scanner_id = Some (a_DisposableScannerAdaptor a) ->
  let w' := snd (Java_org_apache_arrow_dataset_jni_JniWrapper_nextRecordBatch
                   scanner_id struct_array w) in
  refs w' !! scanner_id =
    Some (a_DisposableScannerAdaptor
            (DisposableScannerAdaptor.mk (DisposableScannerAdaptor.scanner_ a)
               (snd (batch_itr_Next (DisposableScannerAdaptor.batch_itr_ a))))) /\
  (forall other : Z, other ≠ scanner_id -> refs w' !! other = refs w !! other).
Proof.
  intros Hlive. cbv zeta.
  assert (adaptor_Next scanner_id w =
          (Normal (fst (DisposableScannerAdaptor.Next a)),
           mkNativeWorld
             (<[scanner_id := a_DisposableScannerAdaptor
                                (snd (DisposableScannerAdaptor.Next a))]> (refs w))
             (structs w))) as Hnext.
  { unfold adaptor_Next, bind, RetrieveNativeInstance, get, put. cbn.
    rewrite Hlive. cbn.
    destruct (DisposableScannerAdaptor.Next a) as [r a']. reflexivity. }
  assert (exists structs' : gmap Z (ArrowArray C),
            snd (Java_org_apache_arrow_dataset_jni_JniWrapper_nextRecordBatch
                   scanner_id struct_array w) =
            mkNativeWorld
              (<[scanner_id := a_DisposableScannerAdaptor
                                 (snd (DisposableScannerAdaptor.Next a))]> (refs w))
              structs') as [structs' ->].
  { unfold Java_org_apache_arrow_dataset_jni_JniWrapper_nextRecordBatch, JNI_METHOD.
    unfold bind at 1. rewrite Hnext.
    destruct (fst (DisposableScannerAdaptor.Next a)) as [[record_batch | ] | e]; cbn.
    - unfold bind at 1. rewrite offset_zeroed_batch_spec.
      unfold bind, get, put, ExportRecordBatch.
      destruct (ExportArray _) as [c | e]; cbn; eexists; reflexivity.
    - eexists; reflexivity.
    - eexists; reflexivity. }
  rewrite Next_forwards. cbn [refs snd].
  split; [apply lookup_insert_eq | intros other Hother; now apply lookup_insert_ne].
Qed.

(** X14.  At the end of the stream [nextRecordBatch] answers [false] and
    raises nothing, and the struct of the caller is left as it was. *)
Theorem nextRecordBatch_at_the_end
    (scanner_id struct_array : Z) (a : DisposableScannerAdaptor.t I)
    (w : NativeWorld I C) :
  refs w !! scanner_id = Some (a_DisposableScannerAdaptor a) ->
  at_end (DisposableScannerAdaptor.batch_itr_ a) ->
  fst (Java_org_apache_arrow_dataset_jni_JniWrapper_nextRecordBatch
         scanner_id struct_array w) = Normal (mkJavaReturn false None) /\
  structs (snd (Java_org_apache_arrow_dataset_jni_JniWrapper_nextRecordBatch
                  scanner_id struct_array w)) = structs w.
Proof.
  intros Hlive (t & Ht & Hnone).
  unfold Java_org_apache_arrow_dataset_jni_JniWrapper_nextRecordBatch, JNI_METHOD,
    adaptor_Next, bind, RetrieveNativeInstance, get, put.
  cbn. rewrite Hlive. cbn. rewrite Next_forwards, Ht, Hnone. cbn. auto.
Qed.

End Scanners.

(** A scanner asked for the column [age], which the dataset does not have. *)
Lemma createScanner_failure_changes_nothing_witness :
  let call := Java_org_apache_arrow_dataset_jni_JniWrapper_createScanner
                1 (Some ["age"]) 100 8192 Examples.one_dataset in
  fst call = Normal (mkJavaReturn (-1) (Some "No match for field age")) /\
  returned (mkJavaReturn (-1) (Some "No match for field age")) = -1 /\
  snd call = Examples.one_dataset.
Proof.
  cbv zeta. split; [reflexivity | ].
  apply (createScanner_failure_changes_nothing 1 (Some ["age"]) 100 8192
           (mkJavaReturn (-1) (Some "No match for field age")) Examples.one_dataset).
  - reflexivity.
  - discriminate.
Defined.

(** A scanner over the dataset behind handle 1: the new handle is 2. *)
Lemma createScanner_handle_is_new_witness :
  let w' := snd (Java_org_apache_arrow_dataset_jni_JniWrapper_createScanner
                   1 None 100 8192 Examples.one_dataset) in
  (2 : Z) ≠ 0 /\ refs Examples.one_dataset !! 2 = None /\
  (forall other : Z, other ≠ 2 -> refs w' !! other = refs Examples.one_dataset !! other) /\
  structs w' = structs Examples.one_dataset /\
  exists (a : DisposableScannerAdaptor.t (list RecordBatch)),
    refs w' !! 2 = Some (a_DisposableScannerAdaptor a) /\
    ScanBatches (DisposableScannerAdaptor.GetScanner a)
      = Value (DisposableScannerAdaptor.batch_itr_ a).
Proof.
  cbv zeta.
  apply (createScanner_handle_is_new 1 None 100 8192 2 Examples.one_dataset).
  reflexivity.
Defined.

(** A pull after the last batch: the struct at 4096 is what it was. *)
Lemma nextRecordBatch_writes_only_with_a_batch_witness :
  let call := Java_org_apache_arrow_dataset_jni_JniWrapper_nextRecordBatch
                2 4096 Scenarios.exhausted in
  fst call = Normal (mkJavaReturn false None) /\
  (mkJavaReturn false None = mkJavaReturn true None \/
   structs (snd call) = structs Scenarios.exhausted) /\
  (raised (mkJavaReturn false None) ≠ None -> returned (mkJavaReturn false None) = false).
Proof.
  cbv zeta. split; [reflexivity | ].
  apply (nextRecordBatch_writes_only_with_a_batch 2 4096 (mkJavaReturn false None)
           Scenarios.exhausted).
  reflexivity.
Defined.

(** A pull that takes the batch [sliced]: none is left behind handle 2. *)
Lemma nextRecordBatch_advances_by_one_witness :
  let w' := snd (Java_org_apache_arrow_dataset_jni_JniWrapper_nextRecordBatch
                   2 4096 Scenarios.scanning) in
  refs w' !! 2 =
    Some (a_DisposableScannerAdaptor
            (DisposableScannerAdaptor.mk Scenarios.people_scanner [])) /\
  (forall other : Z, other ≠ 2 -> refs w' !! other = refs Scenarios.scanning !! other).
Proof.
  cbv zeta.
  exact (nextRecordBatch_advances_by_one 2 4096
           (DisposableScannerAdaptor.mk Scenarios.people_scanner [Examples.sliced])
           Scenarios.scanning eq_refl).
Defined.

Lemma nextRecordBatch_at_the_end_witness :
  fst (Java_org_apache_arrow_dataset_jni_JniWrapper_nextRecordBatch
         2 4096 Scenarios.exhausted) = Normal (mkJavaReturn false None) /\
  structs (snd (Java_org_apache_arrow_dataset_jni_JniWrapper_nextRecordBatch
                  2 4096 Scenarios.exhausted)) = structs Scenarios.exhausted.
Proof.
  apply (nextRecordBatch_at_the_end 2 4096
           (DisposableScannerAdaptor.mk Scenarios.people_scanner [])
           Scenarios.exhausted).
  - reflexivity.
  - exists Examples.end_of_batches. split; reflexivity.
Defined.

(** ** The compaction of a batch *)

Lemma offset_zeroed_offset (array : Array) : array_offset (offset_zeroed array) = 0.
Proof.
  unfold offset_zeroed.
  destruct (Z.eqb_spec (array_offset array) 0); [assumption | reflexivity].
Qed.

Lemma offset_zeroed_idempotent (array : Array) :
  offset_zeroed (offset_zeroed array) = offset_zeroed array.
Proof.
  unfold offset_zeroed at 1. now rewrite offset_zeroed_offset.
Qed.

Lemma offset_zeroed_logical (array : Array) :
  logical (offset_zeroed array) = logical array.
Proof.
  unfold offset_zeroed. destruct (array_offset array =? 0);
    [reflexivity | apply logical_compacted].
Qed.

(** A batch whose columns are all at offset 0 goes through the loop as it
    is: every column takes the branch that passes it on, and [Concatenate]
    is not called. *)
Lemma offset_zeroed_arrays_at_zero {W : Type} (columns : list Array) (w : W) :
  Forall (fun array => array_offset array = 0) columns ->
  offset_zeroed_arrays columns w = (Normal columns, w).
Proof.
  induction 1 as [ | array rest Hzero _ IH]; [reflexivity | ].
  cbn [offset_zeroed_arrays]. rewrite Hzero. cbn.
  unfold bind. now rewrite IH.
Qed.

(** X15.  The loop of [nextRecordBatch] over the columns.  When it yields a
    batch (a failure of [Concatenate] would be thrown out of it instead), the
    batch has as many columns, all of them at offset 0, that stand for the
    same slots as the columns they were made from, and nothing else has
    changed.  A batch whose columns are all at offset 0 already is yielded as
    it is, and for such a batch the loop cannot raise. *)
Theorem offset_zeroed_batch_is_offset_zero {W : Type}
    (record_batch zeroed : RecordBatch) (w w' : W) :
  (offset_zeroed_batch record_batch w = (Normal zeroed, w') ->
   w' = w /\
   Forall (fun array => array_offset array = 0) (columns zeroed) /\
   length (columns zeroed) = length (columns record_batch) /\
   map logical (columns zeroed) = map logical (columns record_batch)) /\
  (Forall (fun array => array_offset array = 0) (columns record_batch) ->
   offset_zeroed_batch record_batch w = (Normal record_batch, w)).
Proof.
  split.
  - rewrite offset_zeroed_batch_spec. intros [= <- <-].
    cbn [columns schema num_rows].
    split; [reflexivity | ].
    split; [apply Forall_fmap, Forall_forall; intros array _;
            apply offset_zeroed_offset | ].
    split; [apply length_map | ].
    rewrite map_map. apply map_ext. intros array. apply offset_zeroed_logical.
  - intros Hzero. unfold offset_zeroed_batch, bind.
    rewrite (offset_zeroed_arrays_at_zero _ w Hzero).
    now destruct record_batch.
Qed.

(** The batch [sliced], whose first column lies three slots in, and the
    batch the loop makes of it. *)
Lemma offset_zeroed_batch_is_offset_zero_witness :
  let zeroed :=
    mkRecordBatch Examples.people 2
      [mkArray (Examples.ints [13; 14]) 0 2;
       mkArray [of_string "a"; null; of_string "c"; of_string "d"; null] 0 2] in
  (Forall (fun array => array_offset array = 0) (columns zeroed) /\
   map logical (columns zeroed) = map logical (columns Examples.sliced)) /\
  offset_zeroed_batch zeroed tt = (Normal zeroed, tt).
Proof.
  cbv zeta. split.
  - destruct (proj1 (offset_zeroed_batch_is_offset_zero Examples.sliced
                       (mkRecordBatch Examples.people 2
                          [mkArray (Examples.ints [13; 14]) 0 2;
                           mkArray [of_string "a"; null; of_string "c"; of_string "d"; null]
                             0 2])
                       tt tt) eq_refl)
      as (_ & Hzero & _ & Hlogical).
    split; [exact Hzero | exact Hlogical].
  - apply (proj2 (offset_zeroed_batch_is_offset_zero
                    (mkRecordBatch Examples.people 2
                       [mkArray (Examples.ints [13; 14]) 0 2;
                        mkArray [of_string "a"; null; of_string "c"; of_string "d"; null]
                          0 2])
                    Examples.sliced tt tt)).
    repeat constructor.
Defined.

(** ** The generator and the pulls behind it *)

Section GeneratorCalls.

Context {W : Type} (itr_Next : Jni W (Result (option RecordBatch))).

Import SimpleIteratorFragment.

(** X16.  The loop of the generator needs one round.  However often the
    [while] is unrolled, a call pulls once from the iterator, leaves the
    world as that one pull left it, and has an answer. *)
Theorem Generator_call_pulls_once (fuel : nat) (state : State) (w : W) :
  Generator_call (S fuel) itr_Next state w = Generator_call 1 itr_Next state w /\
  snd (Generator_call (S fuel) itr_Next state w) = snd (itr_Next w) /\
  (forall (state' : State) (w' : W),
     Generator_call (S fuel) itr_Next state w ≠ (Normal (None, state'), w')).
Proof.
  split; [apply Generator_call_fuel | ]. split.
  - rewrite Generator_call_fuel, Generator_call_once.
    destruct (itr_Next w) as [[[[rb|]|e]|what|what|] w']; reflexivity.
  - intros state' w'. apply Generator_call_answers.
Qed.

(** X17.  The generator has no way to deliver a failure.  When the pull
    returns an error, [ValueOrDie] ends the process with the message of the
    error; when the pull throws, the exception leaves the generator.  In
    neither case does the call return. *)
Theorem Generator_call_on_failure (fuel : nat) (state : State) (w w' : W) :
  (forall e : Error,
     itr_Next w = (Normal (Failure e), w') ->
     Generator_call (S fuel) itr_Next state w = (Aborted (message e), w')) /\
  (forall what : string,
     itr_Next w = (Thrown what, w') ->
     Generator_call (S fuel) itr_Next state w = (Thrown what, w')).
Proof.
  split; intros x Hpull; rewrite Generator_call_fuel, Generator_call_once, Hpull;
    reflexivity.
Qed.

End GeneratorCalls.

(** A call of the generator on a thread that is not attached, and a call
    whose import fails. *)
Lemma Generator_call_on_failure_witness :
  let detached := mkScanWorld (mkJavaWorld JNI_EDETACHED Examples.one_batch None [])
                    Examples.two_columns in
  let mismatch := mkScanWorld (Examples.attached_thread Examples.one_batch)
                    Examples.one_column in
  SimpleIteratorFragment.Generator_call 1
    (MakeJavaDatasetScanner_itr_Next Examples.people)
    (SimpleIteratorFragment.mkState None) detached
    = (Aborted "JNIEnv was not attached to current thread", detached) /\
  SimpleIteratorFragment.Generator_call 1
    (MakeJavaDatasetScanner_itr_Next Examples.people)
    (SimpleIteratorFragment.mkState None) mismatch
    = (Thrown "ArrowArray struct has an unexpected number of children",
       snd (MakeJavaDatasetScanner_itr_Next Examples.people mismatch)).
Proof.
  cbv zeta. split.
  - apply (proj1 (Generator_call_on_failure
                    (MakeJavaDatasetScanner_itr_Next Examples.people) 0
                    (SimpleIteratorFragment.mkState None) _ _)
             (mkError Invalid "JNIEnv was not attached to current thread")).
    reflexivity.
  - apply (proj2 (Generator_call_on_failure
                    (MakeJavaDatasetScanner_itr_Next Examples.people) 0
                    (SimpleIteratorFragment.mkState None) _ _)
             "ArrowArray struct has an unexpected number of children").
    reflexivity.
Defined.

Section PullFrame.

Context {H C : Type} `{NativeRecordBatchIterator H C} `{CDataInterface C}.

(** X18.  A pull that got an address from the Java iterator touches the
    struct at that address and no other: whether the import succeeds or
    fails, every other struct is as the [next] call left it, and so is the
    Java side. *)
Theorem pull_touches_one_struct (schema : Schema) (w : ScanWorld H C)
    (memory_address : Z) :
  GetEnv (jvm w) = JNI_OK ->
  snd (hasNext (host (jvm w))) = true ->
  memory_address_of (next_bytes w) = Some memory_address ->
  jvm (snd (MakeJavaDatasetScanner_itr_Next schema w)) = jvm (after_next w) /\
  (forall other : Z, other ≠ memory_address ->
     c_data (snd (MakeJavaDatasetScanner_itr_Next schema w)) !! other
       = c_data (after_next w) !! other).
Proof.
  intros Henv Hmore Haddr.
  rewrite (itr_Next_more schema w memory_address Henv Hmore Haddr).
  destruct (ImportRecordBatch schema memory_address (c_data (after_next w)))
    as [[imported c] | ] eqn:Himport; [ | split; reflexivity].
  destruct (ImportRecordBatch_moves _ _ _ _ _ Himport) as [_ Hframe].
  destruct imported as [rb | e]; cbn [snd jvm c_data]; (split; [reflexivity | ]);
    intros other Hother.
  - rewrite ArrowArrayRelease_other by assumption. now apply Hframe.
  - now apply Hframe.
Qed.

(** X19.  What the Java iterator hands over is not checked.  A byte array of
    fewer than eight bytes, or eight bytes that are not the address of a
    struct, take the pull outside defined behaviour, after both methods of
    the Java iterator were called. *)
Theorem pull_on_bad_bytes (schema : Schema) (w : ScanWorld H C) :
  GetEnv (jvm w) = JNI_OK ->
  snd (hasNext (host (jvm w))) = true ->
  (length (next_bytes w) < 8)%nat \/
  (exists memory_address : Z,
     memory_address_of (next_bytes w) = Some memory_address /\
     c_data (after_next w) !! memory_address = None) ->
  MakeJavaDatasetScanner_itr_Next schema w = (Undefined, after_next w).
Proof.
  intros Henv Hmore [Hshort | (memory_address & Haddr & Hwild)].
  - apply itr_Next_short_array; [assumption | assumption | ].
    unfold memory_address_of.
    destruct (Nat.ltb_spec (length (next_bytes w)) 8); [reflexivity | lia].
  - rewrite (itr_Next_more schema w memory_address Henv Hmore Haddr).
    unfold ImportRecordBatch. now rewrite Hwild.
Qed.

End PullFrame.

(** A pull that imports the struct at 4096: the struct at 4160 is not
    released. *)
Lemma pull_touches_one_struct_witness :
  let w := mkScanWorld (Examples.attached_thread Examples.one_batch)
             Scenarios.two_structs in
  released <$> (c_data (snd (MakeJavaDatasetScanner_itr_Next Examples.people w)) !! 4096)
    = Some true /\
  jvm (snd (MakeJavaDatasetScanner_itr_Next Examples.people w)) = jvm (after_next w) /\
  (forall other : Z, other ≠ 4096 ->
     c_data (snd (MakeJavaDatasetScanner_itr_Next Examples.people w)) !! other
       = c_data (after_next w) !! other).
Proof.
  cbv zeta. split; [reflexivity | ].
  apply (pull_touches_one_struct Examples.people
           (mkScanWorld (Examples.attached_thread Examples.one_batch)
              Scenarios.two_structs) 4096); reflexivity.
Defined.

(** A pull on a Java iterator that hands over two bytes. *)
Lemma pull_on_bad_bytes_witness :
  let w := mkScanWorld (Examples.attached_thread Scenarios.two_bytes)
             Examples.two_columns in
  MakeJavaDatasetScanner_itr_Next Examples.people w = (Undefined, after_next w).
Proof.
  cbv zeta.
  apply (pull_on_bad_bytes Examples.people
           (mkScanWorld (Examples.attached_thread Scenarios.two_bytes)
              Examples.two_columns)); [reflexivity | reflexivity | ].
  left. cbn. lia.
Defined.

(** ** Datasets *)

Section Datasets.

Context {F H C I : Type} `{FileCollaborators F H C} `{TaggedRecordBatchIterator I}.

(** A [createDataset] that succeeded. *)
Lemma createDataset_ok (dataset_factory_id : Z) (schema_bytes : list byte)
    (id : Z) (w w' : NativeWorld I C) :
  Java_org_apache_arrow_dataset_jni_JniWrapper_createDataset
    dataset_factory_id schema_bytes w = (Normal (mkJavaReturn id None), w') ->
  exists (d : DatasetFactory) (s : Schema) (dataset : Dataset),
    refs w !! dataset_factory_id = Some (a_DatasetFactory d) /\
    FromSchemaByteArray schema_bytes = Value s /\
    Finish d s = Value dataset /\
    id = fresh (dom (refs w) ∪ {[0]}) /\
    w' = mkNativeWorld (<[id := a_Dataset dataset]> (refs w)) (structs w).
Proof.
  unfold Java_org_apache_arrow_dataset_jni_JniWrapper_createDataset, JNI_METHOD,
    bind, RetrieveNativeInstance, as_DatasetFactory, CreateNativeRef, ret, undefined.
  destruct (refs w !! dataset_factory_id) as [[d | d | a | ] | ] eqn:Hfactory;
    try discriminate.
  destruct (FromSchemaByteArray schema_bytes) as [s | e] eqn:Hschema; cbn;
    [ | discriminate].
  destruct (Finish d s) as [dataset | e] eqn:Hfinish; cbn; [ | discriminate].
  intros Heq. injection Heq as <- <-.
  exists d, s, dataset. auto.
Qed.

(** X20.  [createDataset] registers a dataset or changes nothing.  When it
    raises an exception it returns -1 and the handles are as before.  When it
    does not, the handle of the factory stood for a factory, the schema
    message was read, the factory finished a dataset for that schema, and
    the dataset is registered under a handle that was not in use; the
    factory keeps its handle. *)
Theorem createDataset_registers_or_changes_nothing
    (dataset_factory_id : Z) (schema_bytes : list byte) (r : JavaReturn Z)
    (w w' : NativeWorld I C) :
  Java_org_apache_arrow_dataset_jni_JniWrapper_createDataset
    dataset_factory_id schema_bytes w = (Normal r, w') ->
  (raised r ≠ None -> returned r = -1 /\ w' = w) /\
  (raised r = None ->
   exists (d : DatasetFactory) (s : Schema) (dataset : Dataset),
     refs w !! dataset_factory_id = Some (a_DatasetFactory d) /\
     FromSchemaByteArray schema_bytes = Value s /\
     Finish d s = Value dataset /\
     refs w !! returned r = None /\
     w' = mkNativeWorld (<[returned r := a_Dataset dataset]> (refs w)) (structs w) /\
     refs w' !! dataset_factory_id = Some (a_DatasetFactory d)).
Proof.
  unfold Java_org_apache_arrow_dataset_jni_JniWrapper_createDataset, JNI_METHOD,
    bind, RetrieveNativeInstance, as_DatasetFactory, CreateNativeRef, ret, undefined.
  destruct (refs w !! dataset_factory_id) as [[d | d | a | ] | ] eqn:Hfactory;
    try discriminate.
  destruct (FromSchemaByteArray schema_bytes) as [s | e] eqn:Hschema; cbn.
  2: { intros Heq. injection Heq as <- <-. cbn. split; [auto | discriminate]. }
  destruct (Finish d s) as [dataset | e] eqn:Hfinish; cbn.
  2: { intros Heq. injection Heq as <- <-. cbn. split; [auto | discriminate]. }
  intros Heq. injection Heq as <- <-. cbn.
  split; [intros Hraised; now elim Hraised | ].
  intros _. exists d, s, dataset.
  pose proof (is_fresh (dom (refs w) ∪ {[0]})) as Hfresh.
  assert (refs w !! fresh (dom (refs w) ∪ {[0]}) = None) as Hnew
    by (apply not_elem_of_dom; set_solver).
  repeat (split; [first [assumption | reflexivity] | ]).
  rewrite lookup_insert_ne; [assumption | ].
  intros Hsame. rewrite Hsame in Hnew. congruence.
Qed.

(** X21.  The functions compose.  A dataset made by [createDataset], scanned
    by [createScanner]: the two handles differ, the dataset is still behind
    its handle, and [getSchemaFromScanner] gives the schema of the dataset
    when no columns were asked for, and the fields of the columns when some
    were. *)
Theorem createDataset_then_createScanner
    (dataset_factory_id : Z) (schema_bytes : list byte)
    (columns : option (list string)) (batch_size memory_pool_id : Z)
    (dataset_id scanner_id : Z) (w w1 w2 : NativeWorld I C) :
  Java_org_apache_arrow_dataset_jni_JniWrapper_createDataset
    dataset_factory_id schema_bytes w = (Normal (mkJavaReturn dataset_id None), w1) ->
  Java_org_apache_arrow_dataset_jni_JniWrapper_createScanner
    dataset_id columns batch_size memory_pool_id w1
    = (Normal (mkJavaReturn scanner_id None), w2) ->
  exists dataset : Dataset,
    scanner_id ≠ dataset_id /\
    refs w2 !! dataset_id = Some (a_Dataset dataset) /\
    Java_org_apache_arrow_dataset_jni_JniWrapper_getSchemaFromScanner scanner_id w2 =
    (Normal (mkJavaReturn
               (Some match columns with
                     | None => Dataset_schema dataset
                     | Some column_vector =>
                         SchemaFromColumnNames (Dataset_schema dataset) column_vector
                     end) None), w2).
Proof.
  intros Hdataset Hscanner.
  apply createDataset_ok in Hdataset as (d & s & dataset & _ & _ & _ & _ & ->).
  pose proof (createScanner_handle _ _ _ _ _ _ _ Hscanner) as Hid.
  apply createScanner_ok in Hscanner as (d' & itr & Hlookup & _ & ->).
  cbn [refs] in *. rewrite lookup_insert_eq in Hlookup. injection Hlookup as <-.
  exists dataset.
  assert (scanner_id ≠ dataset_id) as Hdiffer.
  { destruct (fresh_handle (<[dataset_id:=a_Dataset dataset]> (refs w)
                             : gmap Z (NativeObject I))) as [_ Hnew].
    rewrite <- Hid in Hnew. intros ->. rewrite lookup_insert_eq in Hnew. discriminate. }
  split; [assumption | ].
  split.
  - rewrite lookup_insert_ne by assumption. apply lookup_insert_eq.
  - unfold Java_org_apache_arrow_dataset_jni_JniWrapper_getSchemaFromScanner,
      JNI_METHOD, bind, RetrieveNativeInstance.
    cbn. rewrite lookup_insert_eq. destruct columns; reflexivity.
Qed.

(** X22.  Closing a scanner right after it was created takes the registry
    back to where it was: the handle is given up, and nothing else has
    changed. *)
Theorem closeScanner_after_createScanner
    (dataset_id : Z) (columns : option (list string))
    (batch_size memory_pool_id id : Z) (w w1 : NativeWorld I C) :
  Java_org_apache_arrow_dataset_jni_JniWrapper_createScanner
    dataset_id columns batch_size memory_pool_id w
    = (Normal (mkJavaReturn id None), w1) ->
  Java_org_apache_arrow_dataset_jni_JniWrapper_closeScanner id w1
    = (Normal (mkJavaReturn tt None), w).
Proof.
  intros Hcreate.
  pose proof (createScanner_handle _ _ _ _ _ _ _ Hcreate) as Hid.
  destruct (fresh_handle (refs w)) as [_ Hnew]. rewrite <- Hid in Hnew.
  apply createScanner_ok in Hcreate as (d & itr & _ & _ & ->).
  unfold Java_org_apache_arrow_dataset_jni_JniWrapper_closeScanner, JNI_METHOD,
    ReleaseNativeRef.
  cbn [refs structs]. rewrite lookup_insert_eq.
  rewrite delete_insert_id by assumption. destruct w. reflexivity.
Qed.

End Datasets.

(** A dataset for the schema message of one byte, made from the factory behind
    handle 1; and the same with an empty message. *)
Lemma createDataset_registers_or_changes_nothing_witness :
  let made := Java_org_apache_arrow_dataset_jni_JniWrapper_createDataset
                (H0 := Scenarios.listed_directories) 1 [x01] Scenarios.one_factory in
  let failed := Java_org_apache_arrow_dataset_jni_JniWrapper_createDataset
                  (H0 := Scenarios.listed_directories) 1 [] Scenarios.one_factory in
  fst made = Normal (mkJavaReturn 2 None) /\
  refs (snd made) !! 2 = Some (a_Dataset (mkDataset Examples.people)) /\
  fst failed = Normal (mkJavaReturn (-1) (Some "empty schema message")) /\
  snd failed = Scenarios.one_factory.
Proof.
  cbv zeta. split; [reflexivity | ]. split; [reflexivity | ]. split; [reflexivity | ].
  apply (proj1 (createDataset_registers_or_changes_nothing
                  (H0 := Scenarios.listed_directories) 1 []
                  (mkJavaReturn (-1) (Some "empty schema message"))
                  Scenarios.one_factory _ eq_refl)).
  discriminate.
Defined.

(** The dataset made from the factory behind handle 1, scanned for the column
    [name]. *)
Lemma createDataset_then_createScanner_witness :
  let w1 := snd (Java_org_apache_arrow_dataset_jni_JniWrapper_createDataset
                   (H0 := Scenarios.listed_directories) 1 [x01] Scenarios.one_factory) in
  let w2 := snd (Java_org_apache_arrow_dataset_jni_JniWrapper_createScanner
                   2 (Some ["name"]) 100 8192 w1) in
  exists dataset : Dataset,
    (3 : Z) ≠ 2 /\
    refs w2 !! 2 = Some (a_Dataset dataset) /\
    Java_org_apache_arrow_dataset_jni_JniWrapper_getSchemaFromScanner 3 w2 =
    (Normal (mkJavaReturn
               (Some (SchemaFromColumnNames (Dataset_schema dataset) ["name"])) None),
     w2).
Proof.
  cbv zeta.
  apply (createDataset_then_createScanner (H0 := Scenarios.listed_directories)
           1 [x01] (Some ["name"]) 100 8192 2 3 Scenarios.one_factory
           (snd (Java_org_apache_arrow_dataset_jni_JniWrapper_createDataset
                   (H0 := Scenarios.listed_directories) 1 [x01] Scenarios.one_factory)));
    reflexivity.
Defined.

Lemma closeScanner_after_createScanner_witness :
  Java_org_apache_arrow_dataset_jni_JniWrapper_closeScanner 2
    (snd (Java_org_apache_arrow_dataset_jni_JniWrapper_createScanner
            1 None 100 8192 Examples.one_dataset))
  = (Normal (mkJavaReturn tt None), Examples.one_dataset).
Proof.
  apply (closeScanner_after_createScanner 1 None 100 8192 2 Examples.one_dataset).
  reflexivity.
Defined.

(** ** The bytes of an address *)

Lemma to_N_byte_of (n : Z) : Z.of_N (Byte.to_N (byte_of n)) = n mod 256.
Proof.
  unfold byte_of.
  pose proof (Z.mod_pos_bound n 256 ltac:(lia)) as Hbound.
  destruct (Byte.of_N (Z.to_N (n mod 256))) as [b | ] eqn:Hbyte.
  - apply Byte.to_of_N in Hbyte. simpl. rewrite Hbyte. lia.
  - apply Byte.of_N_None_iff in Hbyte. lia.
Qed.

Lemma length_low_bytes (count : nat) (z : Z) : length (low_bytes count z) = count.
Proof.
  revert z. induction count as [ | count IH]; intros z; [reflexivity | ].
  cbn [low_bytes length]. now rewrite IH.
Qed.

Lemma little_endian_low_bytes (count : nat) (z : Z) :
  little_endian (low_bytes count z) = z mod 256 ^ Z.of_nat count.
Proof.
  revert z. induction count as [ | count IH]; intros z.
  - cbn. now rewrite Z.mod_1_r.
  - cbn [low_bytes little_endian]. rewrite to_N_byte_of, IH.
    rewrite Nat2Z.inj_succ, Z.pow_succ_r by lia.
    rewrite (Z.rem_mul_r z 256 (256 ^ Z.of_nat count)) by lia. reflexivity.
Qed.

(** X23.  The address is what the first eight bytes of the array spell,
    lowest byte first, as a signed 64-bit number.  Bytes after the eighth
    are not looked at, an array of fewer than eight has no reading, and the
    eight low bytes of any 64-bit address are read back as that address. *)
Theorem memory_address_of_reads_eight_bytes (bytes rest : list byte) :
  (length bytes = 8%nat ->
   exists z : Z,
     memory_address_of (bytes ++ rest) = Some z /\
     memory_address_of bytes = Some z /\
     - 2 ^ 63 <= z < 2 ^ 63) /\
  ((length bytes < 8)%nat -> memory_address_of bytes = None) /\
  (forall z : Z,
     - 2 ^ 63 <= z < 2 ^ 63 ->
     memory_address_of (low_bytes 8 z ++ rest) = Some z).
Proof.
  split; [ | split].
  - intros Hlength. eexists. split; [ | split].
    + unfold memory_address_of. rewrite length_app, Hlength. cbn [Nat.ltb Nat.leb Nat.add].
      rewrite <- Hlength at 1. rewrite take_app_length. reflexivity.
    + unfold memory_address_of. rewrite Hlength. cbn [Nat.ltb Nat.leb].
      rewrite <- Hlength, firstn_all. reflexivity.
    + unfold int64_of_bits.
      pose proof (Z.mod_pos_bound (little_endian bytes + 2 ^ 63) (2 ^ 64) ltac:(lia)).
      lia.
  - intros Hshort. unfold memory_address_of.
    destruct (Nat.ltb_spec (length bytes) 8); [reflexivity | lia].
  - intros z Hrange. unfold memory_address_of.
    rewrite length_app, length_low_bytes. cbn [Nat.ltb Nat.leb Nat.add].
    rewrite <- (length_low_bytes 8 z) at 1. rewrite take_app_length.
    rewrite little_endian_low_bytes. unfold int64_of_bits.
    change (256 ^ Z.of_nat 8) with (2 ^ 64).
    f_equal.
    destruct (Z_lt_le_dec z 0) as [Hneg | Hpos].
    + replace (z mod 2 ^ 64) with (z + 2 ^ 64).
      * replace (z + 2 ^ 64 + 2 ^ 63) with (z + 2 ^ 63 + 1 * 2 ^ 64) by lia.
        rewrite Z.mod_add by lia. rewrite Z.mod_small by lia. lia.
      * symmetry. rewrite <- (Z.mod_add z 1 (2 ^ 64)) by lia.
        apply Z.mod_small. lia.
    + rewrite (Z.mod_small z) by lia. rewrite Z.mod_small by lia. lia.
Qed.

(** The address 4096 with two more bytes after it, and an array of two
    bytes. *)
Lemma memory_address_of_reads_eight_bytes_witness :
  memory_address_of (Examples.address_4096 ++ [xff; xff]) = Some 4096 /\
  memory_address_of [x00; x10] = None /\
  memory_address_of (low_bytes 8 (-2) ++ []) = Some (-2).
Proof.
  pose proof (memory_address_of_reads_eight_bytes Examples.address_4096 [xff; xff])
    as (Height & _ & _).
  pose proof (memory_address_of_reads_eight_bytes [x00; x10] [])
    as (_ & Hshort & Hback).
  split; [ | split].
  - destruct (Height eq_refl) as (z & Hz & Hsame & _).
    rewrite Hz. rewrite <- Hsame. reflexivity.
  - apply Hshort. cbn. lia.
  - apply Hback. lia.
Defined.

(** ** More on the file functions and the handles *)

Section MoreFiles.

Context {F H C I : Type} `{FileCollaborators F H C}.

(** X24.  [writeFromScannerToFile] sees the low 32 bits of the format id and
    nothing else: two ids that differ by a multiple of [2 ^ 32] are treated
    alike in every respect. *)
Theorem writeFromScannerToFile_sees_low_bits
    (get_java_vm default_memory_pool : Z) (schema_bytes : list byte)
    (file_format_id k : Z) (uri : string) (partition_columns : list string)
    (max_partitions : Z) (base_name_template : string) (w : ScanWorld H C * F) :
  Java_org_apache_arrow_dataset_file_JniWrapper_writeFromScannerToFile
    get_java_vm default_memory_pool schema_bytes (file_format_id + k * 2 ^ 32) uri
    partition_columns max_partitions base_name_template w =
  Java_org_apache_arrow_dataset_file_JniWrapper_writeFromScannerToFile
    get_java_vm default_memory_pool schema_bytes file_format_id uri
    partition_columns max_partitions base_name_template w.
Proof.
  unfold Java_org_apache_arrow_dataset_file_JniWrapper_writeFromScannerToFile.
  now rewrite jint_of_jlong_wraps.
Qed.

(** X25.  What was registered can be given back.  Closing the dataset that
    [createDataset] made, or the factory that [makeFileSystemDatasetFactory]
    made, right away takes the registry back to where it was. *)
Theorem close_after_create
    (dataset_factory_id : Z) (schema_bytes : list byte) (uri : string)
    (start_offset length id : Z) (w w1 : NativeWorld I C) (fs : F) :
  (Java_org_apache_arrow_dataset_jni_JniWrapper_createDataset
     dataset_factory_id schema_bytes w = (Normal (mkJavaReturn id None), w1) ->
   Java_org_apache_arrow_dataset_jni_JniWrapper_closeDataset id w1
     = (Normal (mkJavaReturn tt None), w)) /\
  (Java_org_apache_arrow_dataset_file_JniWrapper_makeFileSystemDatasetFactory
     uri 0 start_offset length (w, fs) = (Normal (mkJavaReturn id None), (w1, fs)) ->
   Java_org_apache_arrow_dataset_jni_JniWrapper_closeDatasetFactory id w1
     = (Normal (mkJavaReturn tt None), w)).
Proof.
  split.
  - intros Hcreate.
    apply createDataset_ok in Hcreate as (d & s & dataset & _ & _ & _ & -> & ->).
    destruct (fresh_handle (refs w)) as [_ Hnew].
    unfold Java_org_apache_arrow_dataset_jni_JniWrapper_closeDataset, JNI_METHOD,
      ReleaseNativeRef.
    cbn [refs structs]. rewrite lookup_insert_eq.
    rewrite delete_insert_id by assumption. destruct w. reflexivity.
  - unfold Java_org_apache_arrow_dataset_file_JniWrapper_makeFileSystemDatasetFactory,
      JNI_METHOD, bind, get, CreateNativeRef, ret.
    cbn.
    destruct (FileSystemDatasetFactory_Make uri start_offset length ParquetFileFormat fs)
      as [d | e]; cbn; [ | discriminate].
    intros Heq. injection Heq as <- <-.
    destruct (fresh_handle (refs w)) as [_ Hnew].
    unfold Java_org_apache_arrow_dataset_jni_JniWrapper_closeDatasetFactory, JNI_METHOD,
      ReleaseNativeRef.
    cbn [refs structs]. rewrite lookup_insert_eq.
    rewrite delete_insert_id by assumption. destruct w. reflexivity.
Qed.

(** X26.  [inspectSchema] only looks.  However it ends for a live factory, the
    registry is as before.  It returns the bytes of a schema message exactly
    when the factory could inspect its files and the schema could be
    written as a message; a failure of either is raised with its message,
    and then the result is the null array. *)
Theorem inspectSchema_only_looks
    (dataset_factor_id : Z) (d : DatasetFactory) (w : NativeWorld I C) :
  refs w !! dataset_factor_id = Some (a_DatasetFactory d) ->
  exists r : JavaReturn (option (list byte)),
    Java_org_apache_arrow_dataset_jni_JniWrapper_inspectSchema dataset_factor_id w
      = (Normal r, w) /\
    (forall bytes : list byte,
       returned r = Some bytes <->
       exists s : Schema, Inspect d = Value s /\ ToSchemaByteArray s = Value bytes) /\
    (raised r = None <-> exists bytes : list byte, returned r = Some bytes).
Proof.
  intros Hlive.
  unfold Java_org_apache_arrow_dataset_jni_JniWrapper_inspectSchema, JNI_METHOD,
    bind, RetrieveNativeInstance, as_DatasetFactory, ret.
  rewrite Hlive. cbn.
  destruct (Inspect d) as [s | e] eqn:Hinspect; cbn.
  - destruct (ToSchemaByteArray s) as [bytes | e] eqn:Hbytes; cbn.
    + eexists. split; [reflexivity | ]. cbn. split; [ | split; eauto].
      intros bytes'. split.
      * intros Heq. injection Heq as <-. eauto.
      * intros (s' & Hs' & Hbytes'). congruence.
    + eexists. split; [reflexivity | ]. cbn. split.
      * intros bytes'. split; [discriminate | ].
        intros (s' & Hs' & Hbytes'). congruence.
      * split; [discriminate | intros [bytes' Hnone]; discriminate].
  - eexists. split; [reflexivity | ]. cbn. split.
    + intros bytes'. split; [discriminate | ].
      intros (s' & Hs' & _). discriminate.
    + split; [discriminate | intros [bytes' Hnone]; discriminate].
Qed.

End MoreFiles.

(** The dataset and the factory of the scenarios, made and closed again. *)
Lemma close_after_create_witness :
  Java_org_apache_arrow_dataset_jni_JniWrapper_closeDataset 2
    (snd (Java_org_apache_arrow_dataset_jni_JniWrapper_createDataset
            (H0 := Scenarios.listed_directories) 1 [x01] Scenarios.one_factory))
    = (Normal (mkJavaReturn tt None), Scenarios.one_factory) /\
  Java_org_apache_arrow_dataset_jni_JniWrapper_closeDatasetFactory 2
    (fst (snd (Java_org_apache_arrow_dataset_file_JniWrapper_makeFileSystemDatasetFactory
                 "file:///data" 0 0 (-1) (Scenarios.one_factory, Scenarios.data))))
    = (Normal (mkJavaReturn tt None), Scenarios.one_factory).
Proof.
  pose proof (close_after_create (H0 := Scenarios.listed_directories)
                1 [x01] "file:///data" 0 (-1) 2 Scenarios.one_factory) as Hclose.
  split.
  - apply (proj1 (Hclose _ Scenarios.data)). reflexivity.
  - apply (proj2 (Hclose _ Scenarios.data)). reflexivity.
Defined.

(** The schema of the factory behind handle 1, as a message of two bytes. *)
Lemma inspectSchema_only_looks_witness :
  exists r : JavaReturn (option (list byte)),
    Java_org_apache_arrow_dataset_jni_JniWrapper_inspectSchema
      (H0 := Scenarios.listed_directories) 1 Scenarios.one_factory
      = (Normal r, Scenarios.one_factory) /\
    (forall bytes : list byte,
       returned r = Some bytes <->
       exists s : Schema,
         Inspect Scenarios.people_factory = Value s /\
         ToSchemaByteArray s = Value bytes) /\
    (raised r = None <-> exists bytes : list byte, returned r = Some bytes).
Proof.
  apply (inspectSchema_only_looks (H0 := Scenarios.listed_directories) 1
           Scenarios.people_factory Scenarios.one_factory).
  reflexivity.
Defined.
